(** * ibctest: channel options and the Docker relayer base

    A shallow embedding of [ibc.CreateChannelOptions] (package [ibc]) and of
    [relayer.DockerRelayer] (package [relayer]).

    Conventions.
    - A Go [error] is a value of [error]; a possibly-nil error is
      [option error], [None] being [nil].
    - A Go [string] is a [string]; a [[]byte] is a [list byte].
    - Go's [int] is a [Z].
    - A [map[string]T] is a [gmap string T]. *)

From Stdlib Require Import ZArith Ascii String List.
From stdpp Require Import base option list gmap strings.

Local Open Scope string_scope.
Local Open Scope Z_scope.

Abbreviation byte := Byte.byte.

(** ** Errors *)

(** The error values the embedded code creates or passes on.
    [fmt.Errorf(prefix + ": %w", err)] is [Wrap prefix err]. *)
Inductive error : Type :=
| ErrInvalidID                       (* 24-host: ErrInvalidID, wrapped with a reason *)
| ErrInvalidPort                     (* 05-port: ErrInvalidPort *)
| ErrInvalidChannelOrdering          (* 04-channel: ErrInvalidChannelOrdering *)
| Errorf (msg : string)              (* fmt.Errorf / errors.New with a fixed message *)
| Wrap (prefix : string) (e : error) (* fmt.Errorf("prefix: %w", e) *)
| ContextCanceled                    (* context.Canceled *)
| ContextDeadlineExceeded            (* context.DeadlineExceeded *)
| TarErrWriteTooLong                 (* archive/tar: ErrWriteTooLong *)
| TarErrWriteAfterClose              (* archive/tar: ErrWriteAfterClose *)
| TarErrHeader (why : string)        (* archive/tar: headerError *)
| TarErrMissed (n : Z)               (* archive/tar: missed writing n bytes *)
| TimeParseError (elem : string)     (* time: *ParseError *)
| External (msg : string).           (* an error produced by Docker or a helper *)

#[global] Instance error_eq_dec : EqDecision error.
Proof. solve_decision. Defined.

(** ** Package host (ibc-go, modules/core/24-host) *)

Module host.

(** Modelled from ibc-go v4 (24-host/validate.go), which this repository
    imports: the character class of [IsValidID],
    [^[a-zA-Z0-9\.\_\+\-\#\[\]\<\>]+$]. *)
Definition isValidIDChar (c : ascii) : bool :=
  let n := Z.of_N (N_of_ascii c) in
  ((97 <=? n) && (n <=? 122))          (* a-z *)
  || ((65 <=? n) && (n <=? 90))        (* A-Z *)
  || ((48 <=? n) && (n <=? 57))        (* 0-9 *)
  || (n =? 46) || (n =? 95) || (n =? 43) || (n =? 45) || (n =? 35)   (* . _ + - # *)
  || (n =? 91) || (n =? 93) || (n =? 60) || (n =? 62).               (* [ ] < > *)

Definition IsValidID (id : string) : bool :=
  negb (String.eqb id "") && forallb isValidIDChar (list_ascii_of_string id).

(** ASCII white space, as [strings.TrimSpace] removes it. *)
Definition isSpace (c : ascii) : bool :=
  let n := Z.of_N (N_of_ascii c) in
  (n =? 9) || (n =? 10) || (n =? 11) || (n =? 12) || (n =? 13) || (n =? 32).

Definition isBlank (id : string) : bool :=
  forallb isSpace (list_ascii_of_string id).

Definition containsSlash (id : string) : bool :=
  existsb (Ascii.eqb "/"%char) (list_ascii_of_string id).

Definition DefaultMaxPortCharacterLength : Z := 128.

(** [defaultIdentifierValidator(id, min, max)]: blank, separator, length,
    characters, in this order; every failure wraps [ErrInvalidID]. *)
Definition defaultIdentifierValidator (id : string) (min max : Z) : option error :=
  if isBlank id then Some ErrInvalidID
  else if containsSlash id then Some ErrInvalidID
  else if (Z.of_nat (String.length id) <? min) || (max <? Z.of_nat (String.length id))
       then Some ErrInvalidID
  else if negb (IsValidID id) then Some ErrInvalidID
  else None.

Definition PortIdentifierValidator (id : string) : option error :=
  defaultIdentifierValidator id 2 DefaultMaxPortCharacterLength.

End host.

(** ** Package ibc *)

Module ibc.

(** [type Order int] with [Invalid], [Ordered], [Unordered] from [iota]. *)
Definition Order := Z.
Definition Invalid : Order := 0.
Definition Ordered : Order := 1.
Definition Unordered : Order := 2.

Record CreateChannelOptions := {
  SourcePortName : string;
  DestPortName : string;
  Order_ : Order;
  Version : string
}.

Definition DefaultChannelOpts : CreateChannelOptions :=
  {| SourcePortName := "transfer";
     DestPortName := "transfer";
     Order_ := Unordered;
     Version := "ics20-1" |}.

Definition Order_String (o : Order) : string :=
  if o =? Unordered then "unordered"
  else if o =? Ordered then "ordered"
  else "invalid".

Definition Order_Validate (o : Order) : option error :=
  if (o =? Ordered) || (o =? Unordered) then None
  else Some ErrInvalidChannelOrdering.

Section Validate.
(** [host.PortIdentifierValidator], imported from ibc-go. *)
Variable PortIdentifierValidator : string -> option error.

(** The [switch] of [Validate]: the first case that holds decides. *)
Definition Validate (opts : CreateChannelOptions) : option error :=
  match PortIdentifierValidator (SourcePortName opts) with
  | Some _ => Some ErrInvalidPort
  | None =>
    match PortIdentifierValidator (DestPortName opts) with
    | Some _ => Some ErrInvalidPort
    | None =>
      if String.eqb (Version opts) "" then Some (Errorf "invalid channel version")
      else match Order_Validate (Order_ opts) with
           | Some _ => Some ErrInvalidChannelOrdering
           | None => None
           end
    end
  end.
End Validate.

Record RelayerWallet := {
  Mnemonic : string;
  Address : string
}.

(** The zero value [RelayerWallet{}]. *)
Definition RelayerWallet_zero : RelayerWallet :=
  {| Mnemonic := ""; Address := "" |}.

Record DockerImage := {
  Repository : string;
  Version_ : string
}.

(** The field of [ChainConfig] that the relayer base reads. *)
Record ChainConfig := {
  ChainID : string
}.

(** The arguments of one call of [RelayerExecReporter.TrackRelayerExec];
    times are instants in nanoseconds since the Unix epoch. *)
Record ExecReport := {
  containerName : string;
  command : list string;
  stdout : string;
  stderr : string;
  exitCode : Z;
  startedAt : Z;
  finishedAt : Z;
  err : option error
}.

(** A value of the interface [RelayerExecReporter]: the no-op reporter or a
    reporter of a test, told apart by a name. *)
Inductive RelayerExecReporter :=
| NopRelayerExecReporter
| TestReporter (name : string).

End ibc.

(** ** Package strings (Go standard library), the function used *)

Module strings.

(** [strings.HasSuffix(s, suffix)] *)
Definition HasSuffix (s suffix : string) : bool :=
  let n := String.length s in
  let k := String.length suffix in
  (k <=? n)%nat && String.eqb (String.substring (n - k) k s) suffix.

End strings.

(** ** Package archive/tar (Go standard library) *)

Module tar.

(** Modelled from Go's archive/tar (writer.go, common.go), which is not part
    of this repository: the writer as [generateConfigTar] uses it, with the
    PAX format chosen in the header.  An archive is kept as the sequence of
    its members rather than as 512-byte blocks: it is what a [tar.Reader]
    yields from the bytes the writer produced. *)

Definition TypeReg : Z := 48.   (* '0' *)
Definition TypeRegA : Z := 0.   (* the zero value of Typeflag *)
Definition TypeDir : Z := 53.   (* '5' *)
Definition TypeLink : Z := 49.
Definition TypeSymlink : Z := 50.
Definition TypeChar : Z := 51.
Definition TypeBlock : Z := 52.
Definition TypeFifo : Z := 54.

Inductive Format := FormatUnknown | FormatUSTAR | FormatPAX | FormatGNU.

Record Header := {
  Typeflag : Z;
  Name : string;
  Size : Z;
  Mode : Z;
  Uname : string;
  ModTime : Z;       (* nanoseconds since the Unix epoch *)
  Format_ : Format
}.

(** One member of an archive: its header and its content. *)
Record Member := {
  hdr : Header;
  data : list byte
}.

(** The bytes of the buffer, read as an archive: the members, and whether
    the end-of-archive trailer was written. *)
Record Archive := {
  members : list Member;
  trailer : bool
}.

(** [isHeaderOnlyType]: these members carry no content. *)
Definition isHeaderOnlyType (flag : Z) : bool :=
  (flag =? TypeLink) || (flag =? TypeSymlink) || (flag =? TypeChar)
  || (flag =? TypeBlock) || (flag =? TypeDir) || (flag =? TypeFifo).

Definition hasNUL (s : string) : bool :=
  existsb (Ascii.eqb Ascii.zero) (list_ascii_of_string s).

(** What [Header.allowedFormats] leaves of the PAX format for a header with
    these fields: a PAX record of a path or a user name holds no NUL, and a
    member with content has no negative size. *)
Definition allowedPAX (h : Header) : option error :=
  if negb (isHeaderOnlyType (Typeflag h)) && (Size h <? 0)
  then Some (TarErrHeader "negative size on header-only type")
  else if hasNUL (Name h) || hasNUL (Uname h)
  then Some (TarErrHeader "Format specifies PAX")
  else None.

(** [tar.Writer]: the finished members, the member being written with the
    number of bytes it still expects, and the sticky error. *)
Record Writer := {
  done_ : list Member;
  cur : option Member;
  nb : Z;
  err : option error;
  closed : bool
}.

Definition NewWriter : Writer :=
  {| done_ := []; cur := None; nb := 0; err := None; closed := false |}.

Definition finished (w : Writer) : list Member :=
  match cur w with
  | Some m => done_ w ++ [m]
  | None => done_ w
  end.

(** [Flush]: the current member must be complete. *)
Definition Flush (w : Writer) : option error * Writer :=
  match err w with
  | Some e => (Some e, w)
  | None =>
    if 0 <? nb w then (Some (TarErrMissed (nb w)), w)
    else (None, {| done_ := finished w; cur := None; nb := 0;
                   err := None; closed := closed w |})
  end.

(** [WriteHeader]: flush, promote the legacy type flag, check the header,
    and open the member; a header-only member expects no content. *)
Definition WriteHeader (h : Header) (w : Writer) : option error * Writer :=
  match Flush w with
  | (Some e, w') => (Some e, w')
  | (None, w') =>
    let flag :=
      if Typeflag h =? TypeRegA
      then (if strings.HasSuffix (Name h) "/" then TypeDir else TypeReg)
      else Typeflag h in
    let h' := {| Typeflag := flag; Name := Name h; Size := Size h; Mode := Mode h;
                 Uname := Uname h; ModTime := ModTime h; Format_ := Format_ h |} in
    match allowedPAX h' with
    | Some e => (Some e, w')
    | None =>
      let size := if isHeaderOnlyType flag then 0 else Size h in
      (None, {| done_ := done_ w'; cur := Some {| hdr := h'; data := [] |};
                nb := size; err := None; closed := closed w' |})
    end
  end.

(** [Write]: at most the expected number of bytes is taken; more is
    [ErrWriteTooLong]. Returns the number of bytes written. *)
Definition Write (b : list byte) (w : Writer) : (Z * option error) * Writer :=
  match err w with
  | Some e => ((0, Some e), w)
  | None =>
    let overwrite := nb w <? Z.of_nat (length b) in
    let b' := if overwrite then take (Z.to_nat (nb w)) b else b in
    let n := Z.of_nat (length b') in
    let w' := {| done_ := done_ w;
                 cur := match cur w with
                        | Some m => Some {| hdr := hdr m; data := data m ++ b' |}
                        | None => None
                        end;
                 nb := nb w - n; err := None; closed := closed w |} in
    ((n, if overwrite then Some TarErrWriteTooLong else None), w')
  end.

(** [Close]: flush and write the trailer; later actions fail. *)
Definition Close (w : Writer) : option error * Writer :=
  match err w with
  | Some TarErrWriteAfterClose => (None, w)
  | Some e => (Some e, w)
  | None =>
    match Flush w with
    | (Some e, w') =>
      (Some e, {| done_ := done_ w'; cur := cur w'; nb := nb w';
                  err := Some TarErrWriteAfterClose; closed := closed w' |})
    | (None, w') =>
      (None, {| done_ := done_ w'; cur := None; nb := 0;
                err := Some TarErrWriteAfterClose; closed := true |})
    end
  end.

(** The content of the buffer the writer wrote to. *)
Definition archive (w : Writer) : Archive :=
  {| members := finished w; trailer := closed w |}.

End tar.

(** ** Package time (Go standard library) *)

Module gotime.

(** Modelled from Go's package time (format.go, Go 1.18), which is not part
    of this repository: [time.Parse(layout, value)].  A [time.Time] is kept
    as the instant it denotes, in nanoseconds since the Unix epoch.  The
    layout is cut into elements exactly as [nextStdChunk] does; the elements
    made of digits, signs and fractions are parsed as [parse] does, and a
    layout with an element that reads text (month and weekday names, AM/PM,
    zone abbreviations) is answered [Unmodelled]. *)

Definition Time := Z.

(** [time.Unix(0, 0)] *)
Definition Unix_0_0 : Time := 0.

Definition RFC3339Nano : string := "2006-01-02T15:04:05.999999999Z07:00".

Inductive std :=
| stdNone
| stdLongMonth | stdMonth | stdNumMonth | stdZeroMonth
| stdLongWeekDay | stdWeekDay
| stdDay | stdUnderDay | stdZeroDay | stdUnderYearDay | stdZeroYearDay
| stdHour | stdHour12 | stdZeroHour12
| stdMinute | stdZeroMinute | stdSecond | stdZeroSecond
| stdLongYear | stdYear
| stdPM | stdpm | stdTZ
| stdISO8601TZ | stdISO8601SecondsTZ | stdISO8601ShortTZ
| stdISO8601ColonTZ | stdISO8601ColonSecondsTZ
| stdNumTZ | stdNumSecondsTz | stdNumShortTZ | stdNumColonTZ | stdNumColonSecondsTZ
| stdFracSecond0 (digits : nat)
| stdFracSecond9 (digits : nat).

(** *** Strings as Go slices them *)

Fixpoint drop (n : nat) (s : string) : string :=
  match n, s with
  | O, _ => s
  | S n', String _ s' => drop n' s'
  | S _, EmptyString => EmptyString
  end.

Definition slice (s : string) (lo hi : nat) : string := String.substring lo (hi - lo) s.

Definition code (c : ascii) : Z := Z.of_N (N_of_ascii c).

Definition isDigitChar (c : ascii) : bool := (48 <=? code c) && (code c <=? 57).

(** [isDigit(s, i)] *)
Definition isDigit (s : string) (i : nat) : bool :=
  match String.get i s with
  | Some c => isDigitChar c
  | None => false
  end.

Definition charIs (s : string) (i : nat) (c : ascii) : bool :=
  match String.get i s with
  | Some d => Ascii.eqb d c
  | None => false
  end.

Definition digitAt (s : string) (i : nat) : Z :=
  match String.get i s with
  | Some c => code c - 48
  | None => 0
  end.

Definition startsWithLowerCase (s : string) : bool :=
  match s with
  | EmptyString => false
  | String c _ => (97 <=? code c) && (code c <=? 122)
  end.

Definition commaOrPeriod (c : ascii) : bool :=
  Ascii.eqb c "."%char || Ascii.eqb c ","%char.

(** The run of [ch] from the start of [s]: its length. *)
Fixpoint runOf (ch : ascii) (s : string) : nat :=
  match s with
  | String c s' => if Ascii.eqb c ch then S (runOf ch s') else O
  | EmptyString => O
  end.

(** *** Layout elements *)

(** The [switch] of [nextStdChunk] at one position of the layout: the
    element that starts there, with the literal text that goes to the prefix
    and the rest of the layout. *)
Definition chunkAt (l : string) : option (string * std * string) :=
  match l with
  | EmptyString => None
  | String c _ =>
    if Ascii.eqb c "J"%char then
      if String.prefix "Jan" l then
        if String.prefix "January" l then Some ("", stdLongMonth, drop 7 l)
        else if negb (startsWithLowerCase (drop 3 l)) then Some ("", stdMonth, drop 3 l)
        else None
      else None
    else if Ascii.eqb c "M"%char then
      if String.prefix "Mon" l then
        if String.prefix "Monday" l then Some ("", stdLongWeekDay, drop 6 l)
        else if negb (startsWithLowerCase (drop 3 l)) then Some ("", stdWeekDay, drop 3 l)
        else None
      else if String.prefix "MST" l then Some ("", stdTZ, drop 3 l)
      else None
    else if Ascii.eqb c "0"%char then
      if charIs l 1 "1" then Some ("", stdZeroMonth, drop 2 l)
      else if charIs l 1 "2" then Some ("", stdZeroDay, drop 2 l)
      else if charIs l 1 "3" then Some ("", stdZeroHour12, drop 2 l)
      else if charIs l 1 "4" then Some ("", stdZeroMinute, drop 2 l)
      else if charIs l 1 "5" then Some ("", stdZeroSecond, drop 2 l)
      else if charIs l 1 "6" then Some ("", stdYear, drop 2 l)
      else if charIs l 1 "0" && charIs l 2 "2" then Some ("", stdZeroYearDay, drop 3 l)
      else None
    else if Ascii.eqb c "1"%char then
      if charIs l 1 "5" then Some ("", stdHour, drop 2 l)
      else Some ("", stdNumMonth, drop 1 l)
    else if Ascii.eqb c "2"%char then
      if String.prefix "2006" l then Some ("", stdLongYear, drop 4 l)
      else Some ("", stdDay, drop 1 l)
    else if Ascii.eqb c "_"%char then
      if charIs l 1 "2" then
        if String.prefix "2006" (drop 1 l) then Some ("_", stdLongYear, drop 5 l)
        else Some ("", stdUnderDay, drop 2 l)
      else if charIs l 1 "_" && charIs l 2 "2" then Some ("", stdUnderYearDay, drop 3 l)
      else None
    else if Ascii.eqb c "3"%char then Some ("", stdHour12, drop 1 l)
    else if Ascii.eqb c "4"%char then Some ("", stdMinute, drop 1 l)
    else if Ascii.eqb c "5"%char then Some ("", stdSecond, drop 1 l)
    else if Ascii.eqb c "P"%char then
      if charIs l 1 "M" then Some ("", stdPM, drop 2 l) else None
    else if Ascii.eqb c "p"%char then
      if charIs l 1 "m" then Some ("", stdpm, drop 2 l) else None
    else if Ascii.eqb c "-"%char then
      if String.prefix "-070000" l then Some ("", stdNumSecondsTz, drop 7 l)
      else if String.prefix "-07:00:00" l then Some ("", stdNumColonSecondsTZ, drop 9 l)
      else if String.prefix "-0700" l then Some ("", stdNumTZ, drop 5 l)
      else if String.prefix "-07:00" l then Some ("", stdNumColonTZ, drop 6 l)
      else if String.prefix "-07" l then Some ("", stdNumShortTZ, drop 3 l)
      else None
    else if Ascii.eqb c "Z"%char then
      if String.prefix "Z070000" l then Some ("", stdISO8601SecondsTZ, drop 7 l)
      else if String.prefix "Z07:00:00" l then Some ("", stdISO8601ColonSecondsTZ, drop 9 l)
      else if String.prefix "Z0700" l then Some ("", stdISO8601TZ, drop 5 l)
      else if String.prefix "Z07:00" l then Some ("", stdISO8601ColonTZ, drop 6 l)
      else if String.prefix "Z07" l then Some ("", stdISO8601ShortTZ, drop 3 l)
      else None
    else if commaOrPeriod c then
      if charIs l 1 "0" || charIs l 1 "9" then
        let ch := if charIs l 1 "0" then "0"%char else "9"%char in
        let n := runOf ch (drop 1 l) in
        (* the run of digits must end the digits: j = 1 + n *)
        if negb (isDigit l (1 + n)) then
          Some ("", (if charIs l 1 "9" then stdFracSecond9 n else stdFracSecond0 n),
                drop (1 + n) l)
        else None
      else None
    else None
  end.

Fixpoint nextStdChunk_from (pre : string) (layout : string) : string * std * string :=
  match layout with
  | EmptyString => (pre, stdNone, "")
  | String c rest =>
    match chunkAt layout with
    | Some (lit, s, suffix) => (pre ++ lit, s, suffix)
    | None => nextStdChunk_from (pre ++ String c "") rest
    end
  end.

(** [nextStdChunk(layout)]: the literal prefix, the first element, the rest. *)
Definition nextStdChunk (layout : string) : string * std * string :=
  nextStdChunk_from "" layout.

(** *** Numbers in the value *)

(** [leadingInt] on a string of digits: the number and what follows it. *)
Fixpoint leadingInt (acc : Z) (s : string) : Z * string :=
  match s with
  | String c s' => if isDigitChar c then leadingInt (acc * 10 + (code c - 48)) s' else (acc, s)
  | EmptyString => (acc, s)
  end.

(** [atoi(s)]: an optional sign, then digits to the end. *)
Definition atoi (s : string) : option Z :=
  let neg := charIs s 0 "-" in
  let s' := if charIs s 0 "-" || charIs s 0 "+" then drop 1 s else s in
  match leadingInt 0 s' with
  | (q, EmptyString) => Some (if neg then - q else q)
  | (_, String _ _) => None
  end.

(** [getnum(s, fixed)]: one or two digits, two if [fixed]. *)
Definition getnum (s : string) (fixed : bool) : option (Z * string) :=
  if negb (isDigit s 0) then None
  else if negb (isDigit s 1) then
    (if fixed then None else Some (digitAt s 0, drop 1 s))
  else Some (digitAt s 0 * 10 + digitAt s 1, drop 2 s).

(** [getnum3(s, fixed)]: up to three digits, three if [fixed]. *)
Definition getnum3 (s : string) (fixed : bool) : option (Z * string) :=
  let i := if negb (isDigit s 0) then 0%nat
           else if negb (isDigit s 1) then 1%nat
           else if negb (isDigit s 2) then 2%nat else 3%nat in
  if (i =? 0)%nat || (fixed && negb (i =? 3)%nat) then None
  else match atoi (slice s 0 i) with
       | Some n => Some (n, drop i s)
       | None => None
       end.

Fixpoint cutspace (s : string) : string :=
  match s with
  | String c s' => if Ascii.eqb c " "%char then cutspace s' else s
  | EmptyString => s
  end.

(** [skip(value, prefix)]: the value without the literal prefix; a space of
    the prefix stands for any run of spaces. *)
Fixpoint skip_fuel (fuel : nat) (value pre : string) : option string :=
  match fuel with
  | O => None
  | S fuel' =>
    match pre with
    | EmptyString => Some value
    | String p pre' =>
      if Ascii.eqb p " "%char then
        match value with
        | String v _ =>
          if negb (Ascii.eqb v " "%char) then None
          else skip_fuel fuel' (cutspace value) (cutspace pre)
        | EmptyString => skip_fuel fuel' (cutspace value) (cutspace pre)
        end
      else
        match value with
        | String v value' => if Ascii.eqb v p then skip_fuel fuel' value' pre' else None
        | EmptyString => None
        end
    end
  end.

Definition skip (value pre : string) : option string :=
  skip_fuel (S (String.length pre)) value pre.

(** The number of digits from position [n] on, for the loops that count
    the digits of a fraction. *)
Definition digitsFrom (s : string) (n : nat) : nat :=
  let fix go (t : string) : nat :=
    match t with
    | String c t' => if isDigitChar c then S (go t') else O
    | EmptyString => O
    end in
  go (drop n s).

(** [parseNanoseconds(value, nbytes)]: [None] is an error or a range
    error. *)
Definition parseNanoseconds (value : string) (nbytes : nat) : option Z :=
  if negb (match String.get 0 value with Some c => commaOrPeriod c | None => false end)
  then None
  else
    let nbytes' := if (10 <? nbytes)%nat then 10%nat else nbytes in
    let value' := if (10 <? nbytes)%nat then slice value 0 10 else value in
    match atoi (slice value' 1 nbytes') with
    | None => None
    | Some ns =>
      if ns <? 0 then None
      else Some (ns * 10 ^ Z.of_nat (10 - nbytes'))
    end.

(** *** The calendar *)

Definition isLeap (year : Z) : bool :=
  (year mod 4 =? 0) && (negb (year mod 100 =? 0) || (year mod 400 =? 0)).

(** [daysBefore[m]]: the days of a common year before month [m + 1]. *)
Definition daysBefore (m : Z) : Z :=
  nth (Z.to_nat m) [0; 31; 59; 90; 120; 151; 181; 212; 243; 273; 304; 334; 365] 0.

Definition daysIn (m year : Z) : Z :=
  if (m =? 2) && isLeap year then 29
  else daysBefore m - daysBefore (m - 1).

(** The days from 1970-01-01 to the given day of the proleptic Gregorian
    calendar, as [time.Date] counts them. *)
Definition daysSinceEpoch (year month day : Z) : Z :=
  let y := if month <=? 2 then year - 1 else year in
  let era := y / 400 in
  let yoe := y - era * 400 in
  let mp := if 2 <? month then month - 3 else month + 9 in
  let doy := (153 * mp + 2) / 5 + day - 1 in
  let doe := yoe * 365 + yoe / 4 - yoe / 100 + doy in
  era * 146097 + doe - 719468.

(** [Date(year, month, day, hour, min, sec, nsec, UTC)] as an instant. *)
Definition Date (year month day hour min sec nsec : Z) : Time :=
  ((daysSinceEpoch year month day * 86400 + hour * 3600 + min * 60 + sec)
   * 1000000000) + nsec.

(** *** Parse *)

(** The time being constructed by [parse]. *)
Record fields := {
  year : Z; month : Z; day : Z; yday : Z;
  hour : Z; min : Z; sec : Z; nsec : Z;
  zUTC : bool;          (* z = UTC *)
  zoneOffset : Z
}.

Definition fields0 : fields :=
  {| year := 0; month := -1; day := -1; yday := -1;
     hour := 0; min := 0; sec := 0; nsec := 0;
     zUTC := false; zoneOffset := -1 |}.

Definition set_year y f := {| year := y; month := month f; day := day f; yday := yday f; hour := hour f; min := min f; sec := sec f; nsec := nsec f; zUTC := zUTC f; zoneOffset := zoneOffset f |}.
Definition set_month m f := {| year := year f; month := m; day := day f; yday := yday f; hour := hour f; min := min f; sec := sec f; nsec := nsec f; zUTC := zUTC f; zoneOffset := zoneOffset f |}.
Definition set_day d f := {| year := year f; month := month f; day := d; yday := yday f; hour := hour f; min := min f; sec := sec f; nsec := nsec f; zUTC := zUTC f; zoneOffset := zoneOffset f |}.
Definition set_yday d f := {| year := year f; month := month f; day := day f; yday := d; hour := hour f; min := min f; sec := sec f; nsec := nsec f; zUTC := zUTC f; zoneOffset := zoneOffset f |}.
Definition set_hour h f := {| year := year f; month := month f; day := day f; yday := yday f; hour := h; min := min f; sec := sec f; nsec := nsec f; zUTC := zUTC f; zoneOffset := zoneOffset f |}.
Definition set_min m f := {| year := year f; month := month f; day := day f; yday := yday f; hour := hour f; min := m; sec := sec f; nsec := nsec f; zUTC := zUTC f; zoneOffset := zoneOffset f |}.
Definition set_sec x f := {| year := year f; month := month f; day := day f; yday := yday f; hour := hour f; min := min f; sec := x; nsec := nsec f; zUTC := zUTC f; zoneOffset := zoneOffset f |}.
Definition set_nsec n f := {| year := year f; month := month f; day := day f; yday := yday f; hour := hour f; min := min f; sec := sec f; nsec := n; zUTC := zUTC f; zoneOffset := zoneOffset f |}.
Definition set_zUTC f := {| year := year f; month := month f; day := day f; yday := yday f; hour := hour f; min := min f; sec := sec f; nsec := nsec f; zUTC := true; zoneOffset := zoneOffset f |}.
Definition set_zoneOffset o f := {| year := year f; month := month f; day := day f; yday := yday f; hour := hour f; min := min f; sec := sec f; nsec := nsec f; zUTC := zUTC f; zoneOffset := o |}.

(** What one element makes of the value: the fields and the rest of the
    value, an error ([errBad] or a range error), or an element that reads
    text. *)
Inductive step :=
| Next (f : fields) (value : string)
| Bad
| Text.

(** A number read by [getnum], kept if it is in range. *)
Definition ranged (r : option (Z * string)) (ok : Z -> bool)
           (set : Z -> fields -> fields) (f : fields) : step :=
  match r with
  | Some (n, value) => if ok n then Next (set n f) value else Bad
  | None => Bad
  end.

(** The cases of the numeric time zone elements. *)
Definition parseZone (s : std) (f : fields) (value : string) : step :=
  let zulu := match s with
              | stdISO8601TZ | stdISO8601ShortTZ | stdISO8601ColonTZ => true
              | _ => false
              end in
  if zulu && charIs value 0 "Z" then Next (set_zUTC f) (drop 1 value)
  else
    let n := String.length value in
    let parts : option (string * string * string * string * string) :=
      match s with
      | stdISO8601ColonTZ | stdNumColonTZ =>
        if (n <? 6)%nat then None
        else if negb (charIs value 3 ":") then None
        else Some (slice value 0 1, slice value 1 3, slice value 4 6, "00", drop 6 value)
      | stdNumShortTZ | stdISO8601ShortTZ =>
        if (n <? 3)%nat then None
        else Some (slice value 0 1, slice value 1 3, "00", "00", drop 3 value)
      | stdISO8601ColonSecondsTZ | stdNumColonSecondsTZ =>
        if (n <? 9)%nat then None
        else if negb (charIs value 3 ":") || negb (charIs value 6 ":") then None
        else Some (slice value 0 1, slice value 1 3, slice value 4 6, slice value 7 9,
                   drop 9 value)
      | stdISO8601SecondsTZ | stdNumSecondsTz =>
        if (n <? 7)%nat then None
        else Some (slice value 0 1, slice value 1 3, slice value 3 5, slice value 5 7,
                   drop 7 value)
      | _ =>
        if (n <? 5)%nat then None
        else Some (slice value 0 1, slice value 1 3, slice value 3 5, "00", drop 5 value)
      end in
    match parts with
    | None => Bad
    | Some (sign, hh, mm, ss, value') =>
      match atoi hh, atoi mm, atoi ss with
      | Some hr, Some mi, Some se =>
        let off := (hr * 60 + mi) * 60 + se in
        if charIs sign 0 "+" then Next (set_zoneOffset off f) value'
        else if charIs sign 0 "-" then Next (set_zoneOffset (- off) f) value'
        else Bad
      | _, _, _ => Bad
      end
    end.

(** One iteration of the loop of [parse], after the prefix was skipped:
    element [s], with [layout] the rest of the layout after it. *)
Definition parseChunk (s : std) (layout : string) (f : fields) (value : string) : step :=
  match s with
  | stdNone => Next f value
  | stdYear =>
    if (String.length value <? 2)%nat then Bad
    else match atoi (slice value 0 2) with
         | None => Bad
         | Some y => Next (set_year (if 69 <=? y then y + 1900 else y + 2000) f)
                          (drop 2 value)
         end
  | stdLongYear =>
    if (String.length value <? 4)%nat || negb (isDigit value 0) then Bad
    else match atoi (slice value 0 4) with
         | None => Bad
         | Some y => Next (set_year y f) (drop 4 value)
         end
  | stdMonth | stdLongMonth | stdWeekDay | stdLongWeekDay | stdPM | stdpm | stdTZ => Text
  | stdNumMonth => ranged (getnum value false) (fun m => negb ((m <=? 0) || (12 <? m))) set_month f
  | stdZeroMonth => ranged (getnum value true) (fun m => negb ((m <=? 0) || (12 <? m))) set_month f
  | stdDay => ranged (getnum value false) (fun _ => true) set_day f
  | stdUnderDay =>
    let value := if charIs value 0 " " then drop 1 value else value in
    ranged (getnum value false) (fun _ => true) set_day f
  | stdZeroDay => ranged (getnum value true) (fun _ => true) set_day f
  | stdUnderYearDay =>
    let value := if charIs value 0 " " then drop 1 value else value in
    let value := if charIs value 0 " " then drop 1 value else value in
    ranged (getnum3 value false) (fun _ => true) set_yday f
  | stdZeroYearDay => ranged (getnum3 value true) (fun _ => true) set_yday f
  | stdHour => ranged (getnum value false) (fun h => negb ((h <? 0) || (24 <=? h))) set_hour f
  | stdHour12 => ranged (getnum value false) (fun h => negb ((h <? 0) || (12 <? h))) set_hour f
  | stdZeroHour12 => ranged (getnum value true) (fun h => negb ((h <? 0) || (12 <? h))) set_hour f
  | stdMinute => ranged (getnum value false) (fun m => negb ((m <? 0) || (60 <=? m))) set_min f
  | stdZeroMinute => ranged (getnum value true) (fun m => negb ((m <? 0) || (60 <=? m))) set_min f
  | stdSecond | stdZeroSecond =>
    match ranged (getnum value (match s with stdZeroSecond => true | _ => false end))
                 (fun x => negb ((x <? 0) || (60 <=? x))) set_sec f with
    | Next f' value' =>
      (* a fractional second in the value but none in the layout *)
      if (2 <=? String.length value')%nat
         && match String.get 0 value' with Some c => commaOrPeriod c | None => false end
         && isDigit value' 1
      then
        match nextStdChunk layout with
        | (_, stdFracSecond0 _, _) | (_, stdFracSecond9 _, _) => Next f' value'
        | _ =>
          let n := (2 + digitsFrom value' 2)%nat in
          match parseNanoseconds value' n with
          | Some ns => Next (set_nsec ns f') (drop n value')
          | None => Bad
          end
        end
      else Next f' value'
    | other => other
    end
  | stdISO8601TZ | stdISO8601ColonTZ | stdISO8601SecondsTZ | stdISO8601ShortTZ
  | stdISO8601ColonSecondsTZ | stdNumTZ | stdNumShortTZ | stdNumColonTZ
  | stdNumSecondsTz | stdNumColonSecondsTZ => parseZone s f value
  | stdFracSecond0 digits =>
    let ndigit := (1 + digits)%nat in
    if (String.length value <? ndigit)%nat then Bad
    else match parseNanoseconds value ndigit with
         | Some ns => Next (set_nsec ns f) (drop ndigit value)
         | None => Bad
         end
  | stdFracSecond9 _ =>
    if (String.length value <? 2)%nat
       || negb (match String.get 0 value with Some c => commaOrPeriod c | None => false end)
       || negb (isDigit value 1)
    then Next f value                      (* fractional second omitted *)
    else
      let i := Nat.min 9 (digitsFrom value 1) in
      match parseNanoseconds value (1 + i) with
      | Some ns => Next (set_nsec ns f) (drop (1 + i) value)
      | None => Bad
      end
  end.

Inductive result :=
| Parsed (t : Time)
| Failed
| Unmodelled.

(** After the loop: the day of the year, the day of the month, the zone. *)
Definition finish (f : fields) : result :=
  let dated (month day : Z) : result :=
    if (day <? 1) || (daysIn month (year f) <? day) then Failed
    else
      let t := Date (year f) month day (hour f) (min f) (sec f) (nsec f) in
      if zUTC f then Parsed t
      else if negb (zoneOffset f =? -1) then Parsed (t - zoneOffset f * 1000000000)
      else Parsed t in
  if 0 <=? yday f then
    let leap := isLeap (year f) in
    let m0 := if leap && (yday f =? 31 + 29) then 2 else 0 in
    let d0 := if leap && (yday f =? 31 + 29) then 29 else 0 in
    let yd := if leap && (31 + 29 <? yday f) then yday f - 1 else yday f in
    if (yd <? 1) || (365 <? yd) then Failed
    else
      let m1 := (yd - 1) / 31 + 1 in
      let m2 := if daysBefore m1 <? yd then m1 + 1 else m1 in
      let m := if m0 =? 0 then m2 else m0 in
      let d := if m0 =? 0 then yd - daysBefore (m2 - 1) else d0 in
      if (0 <=? month f) && negb (month f =? m) then Failed
      else if (0 <=? day f) && negb (day f =? d) then Failed
      else dated m d
  else
    dated (if month f <? 0 then 1 else month f) (if day f <? 0 then 1 else day f).

(** The loop of [parse]: each iteration takes one element off the layout. *)
Fixpoint parse_loop (fuel : nat) (layout value : string) (f : fields) : result :=
  match fuel with
  | O => Unmodelled
  | S fuel' =>
    match nextStdChunk layout with
    | (pre, s, suffix) =>
      match skip value pre with
      | None => Failed
      | Some value1 =>
        match s with
        | stdNone => if String.eqb value1 "" then finish f else Failed
        | _ =>
          match parseChunk s suffix f value1 with
          | Next f' value2 => parse_loop fuel' suffix value2 f'
          | Bad => Failed
          | Text => Unmodelled
          end
        end
      end
    end
  end.

(** Every iteration but the last removes at least one character from the
    layout, so its length and one are fuel enough. *)
Definition parse (layout value : string) : result :=
  parse_loop (S (String.length layout)) layout value fields0.

(** [time.Parse(layout, value)], as far as it is modelled. *)
Definition Parse (layout value : string) : error + Time :=
  match parse layout value with
  | Parsed t => inr t
  | Failed | Unmodelled => inl (TimeParseError layout)
  end.

End gotime.

(** ** Package dockerutil (this repository, internal/dockerutil) *)

Module dockerutil.

(** The result of running a command in a container, as [Exec] reads it. *)
Record ContainerExecResult := {
  Err : option error;
  ExitCode : Z;
  Stdout : list byte;
  Stderr : list byte
}.

Record ContainerOptions := {
  Env : list string;
  Binds : list string
}.

(** The arguments of [NewImage] that identify a job image. *)
Record Image := {
  networkID : string;
  testName : string;
  repository : string;
  tag : string
}.

Record VolumeOwnerOptions := {
  VolumeName : string;
  ImageRef : string;
  TestName : string
}.

End dockerutil.

(** ** The Docker client, seen from the relayer *)

Module docker.

Record ContainerConfig := {
  Image : string;
  Entrypoint : list string;
  Cmd : list string;
  Hostname : string;
  User : string;
  Labels : gmap string string
}.

Record HostConfig := {
  Binds : list string;
  AutoRemove : bool
}.

(** [types.ContainerState], the fields read after inspection. *)
Record ContainerState := {
  StartedAt : string;
  FinishedAt : string;
  ExitCode : Z
}.

(** [types.ContainerJSON], the fields read after inspection. *)
Record ContainerJSON := {
  Name : string;
  Args : list string;
  State : ContainerState
}.

(** [container.ContainerWaitOKBody]: the error message, if any. *)
Record WaitResponse := {
  Error : option string;
  StatusCode : Z
}.

(** What the [select] after [ContainerWait] receives first. *)
Inductive WaitOutcome :=
| CtxDone                         (* <-ctx.Done() *)
| FromErrCh (e : option error)    (* err := <-errCh *)
| FromWaitCh (res : WaitResponse) (* res := <-waitCh *).

(** What [ContainerLogs] followed by [stdcopy.StdCopy] yields. *)
Inductive LogsOutcome :=
| LogsErr (e : error)             (* ContainerLogs failed *)
| DemuxErr (e : error)            (* StdCopy failed *)
| Logs (out errs : string).

End docker.

(** ** Package relayer: DockerRelayer *)

(** [RelayerCommander]: the commands to run inside the container and the
    parsers of their output, one field per method read by the code below. *)
Module RelayerCommander.
Record t := {
  Name : string;
  DefaultContainerImage : string;
  DefaultContainerVersion : string;
  DockerUser : string;
  ConfigContent : ibc.ChainConfig -> string -> string -> string -> error + list byte;
  ParseAddKeyOutput : string -> string -> error + ibc.RelayerWallet;
  ParseRestoreKeyOutput : string -> string -> string;
  Init : string -> list string;
  AddChainConfiguration : string -> string -> list string;
  AddKey : string -> string -> string -> list string;
  CreateChannel : string -> ibc.CreateChannelOptions -> string -> list string;
  CreateClients : string -> string -> list string;
  CreateConnections : string -> string -> list string;
  FlushAcknowledgements : string -> string -> string -> list string;
  FlushPackets : string -> string -> string -> list string;
  GeneratePath : string -> string -> string -> string -> list string;
  LinkPath : string -> string -> ibc.CreateChannelOptions -> list string;
  RestoreKey : string -> string -> string -> string -> list string;
  StartRelayer : string -> string -> list string;
  UpdateClients : string -> string -> list string
}.
End RelayerCommander.

Module relayer.

(** *** The world outside the relayer *)

(** One call that leaves the relayer: to the Docker client, to a helper of
    dockerutil, to the clock, or to the reporter. *)
Inductive Event :=
| EvImagePull (ref : string)
| EvVolumeCreate (labels : gmap string string)
| EvSetVolumeOwner (o : dockerutil.VolumeOwnerOptions)
| EvJobRun (job : dockerutil.Image) (cmd : list string) (opts : dockerutil.ContainerOptions)
| EvContainerCreate (cfg : docker.ContainerConfig) (hc : docker.HostConfig)
                    (net : option (list string)) (name : string)
| EvCopyToContainer (id path : string) (content : tar.Archive)
| EvContainerStart (id : string)
| EvStartContainer (id : string)
| EvContainerWait (id : string)
| EvContainerRemove (id : string) (force removeVolumes : bool)
| EvContainerStop (id : string) (timeoutSeconds : Z)
| EvContainerLogs (id : string) (tail : string)
| EvContainerInspect (id : string)
| EvTimeNow
| EvRandLowerCaseLetterString (n : Z)
| EvTrackRelayerExec (rep : ibc.RelayerExecReporter) (r : ibc.ExecReport).

(** The calls made so far, oldest first. *)
Definition History := list Event.

(** The behaviour of the world: the answer to the last call of a history,
    one field per kind of answer.  Every deterministic behaviour of Docker,
    of the clock and of the context is such a record. *)
Record Env := {
  env_error : History -> option error;              (* calls that return an error *)
  env_VolumeCreate : History -> error + string;     (* the name of the volume *)
  env_JobRun : History -> dockerutil.ContainerExecResult;
  env_ContainerCreate : History -> error + string;  (* the ID of the container *)
  env_ContainerWait : History -> docker.WaitOutcome;
  env_ctx_Err : History -> option error;            (* ctx.Err() *)
  env_ContainerLogs : History -> docker.LogsOutcome;
  env_ContainerInspect : History -> error + docker.ContainerJSON;
  env_Now : History -> Z;                           (* time.Now() *)
  env_Rand : History -> string
}.

(** Computations that make calls: from the history before to the result
    and the history after. *)
Definition M (A : Type) : Type := History -> A * History.

Definition ret {A} (a : A) : M A := fun h => (a, h).

Definition bind {A B} (m : M A) (k : A -> M B) : M B :=
  fun h => let (a, h') := m h in k a h'.

(** Make the call [ev] and take the answer [answer] gives to it. *)
Definition call {A} (ev : Event) (answer : History -> A) : M A :=
  fun h => (answer (h ++ [ev])%list, (h ++ [ev])%list).

(** Read a value of the world without a call. *)
Definition peek {A} (answer : History -> A) : M A :=
  fun h => (answer h, h).

Notation "'let*' x ':=' m 'in' k" := (bind m (fun x => k))
  (at level 10, x name, m at level 100, k at level 200).

(** *** The relayer *)

Record DockerRelayer := {
  c : RelayerCommander.t;
  networkID : string;
  volumeName : string;
  testName : string;
  customImage : option ibc.DockerImage;
  pullImage : bool;
  (* The ID of the container created by StartRelayer. *)
  containerID : string;
  (* wallets contains a mapping of chainID to relayer wallet *)
  wallets : gmap string ibc.RelayerWallet
}.

Definition set_customImage (i : ibc.DockerImage) (r : DockerRelayer) : DockerRelayer :=
  {| c := c r; networkID := networkID r; volumeName := volumeName r; testName := testName r;
     customImage := Some i; pullImage := pullImage r; containerID := containerID r;
     wallets := wallets r |}.

Definition set_pullImage (b : bool) (r : DockerRelayer) : DockerRelayer :=
  {| c := c r; networkID := networkID r; volumeName := volumeName r; testName := testName r;
     customImage := customImage r; pullImage := b; containerID := containerID r;
     wallets := wallets r |}.

Definition set_volumeName (v : string) (r : DockerRelayer) : DockerRelayer :=
  {| c := c r; networkID := networkID r; volumeName := v; testName := testName r;
     customImage := customImage r; pullImage := pullImage r; containerID := containerID r;
     wallets := wallets r |}.

Definition set_containerID (id : string) (r : DockerRelayer) : DockerRelayer :=
  {| c := c r; networkID := networkID r; volumeName := volumeName r; testName := testName r;
     customImage := customImage r; pullImage := pullImage r; containerID := id;
     wallets := wallets r |}.

(** [r.wallets[chainID] = wallet] *)
Definition set_wallet (chainID : string) (w : ibc.RelayerWallet) (r : DockerRelayer)
  : DockerRelayer :=
  {| c := c r; networkID := networkID r; volumeName := volumeName r; testName := testName r;
     customImage := customImage r; pullImage := pullImage r; containerID := containerID r;
     wallets := <[chainID := w]> (wallets r) |}.

(** The options of [NewDockerRelayer] that its type switch knows; any other
    option is passed over. *)
Inductive RelayerOption :=
| RelayerOptionDockerImage (DockerImage : ibc.DockerImage)
| RelayerOptionImagePull (Pull : bool)
| RelayerOptionOther.

(** [oneOffOptions] indicate how to configure the container for a one-off
    job; [TarContent], if set, is copied into the container. *)
Record oneOffOptions := {
  ContainerNameDetail : string;
  Entrypoint : list string;
  Cmd : list string;
  User : string;
  TarContent : option tar.Archive
}.

(** What the relayer uses of code that is not at hand: of package dockerutil
    (this repository), the label key and the helpers on names; of package
    ibc, [DockerImage.Ref]; of Go's library, [path.Join] on two elements and
    [time.Parse(layout, value)]. *)
Record Deps := {
  CleanupLabel : string;
  SanitizeContainerName : string -> string;
  CondenseHostName : string -> string;
  GetRootUserString : string;
  DockerImage_Ref : ibc.DockerImage -> string;
  path_Join : string -> string -> string;
  time_Parse : string -> string -> error + Z
}.

Section WithWorld.

(** What the relayer uses and is not at hand. *)
Variable deps : Deps.
(** The world. *)
Variable env : Env.

(** **** Calls *)

Definition client_ImagePull (ref : string) : M (option error) :=
  call (EvImagePull ref) (env_error env).
Definition client_VolumeCreate (labels : gmap string string) : M (error + string) :=
  call (EvVolumeCreate labels) (env_VolumeCreate env).
Definition dockerutil_SetVolumeOwner (o : dockerutil.VolumeOwnerOptions) : M (option error) :=
  call (EvSetVolumeOwner o) (env_error env).
Definition job_Run (job : dockerutil.Image) (cmd : list string)
           (opts : dockerutil.ContainerOptions) : M dockerutil.ContainerExecResult :=
  call (EvJobRun job cmd opts) (env_JobRun env).
Definition client_ContainerCreate (cfg : docker.ContainerConfig) (hc : docker.HostConfig)
           (net : option (list string)) (name : string) : M (error + string) :=
  call (EvContainerCreate cfg hc net name) (env_ContainerCreate env).
Definition client_CopyToContainer (id path : string) (content : tar.Archive)
  : M (option error) :=
  call (EvCopyToContainer id path content) (env_error env).
Definition client_ContainerStart (id : string) : M (option error) :=
  call (EvContainerStart id) (env_error env).
Definition dockerutil_StartContainer (id : string) : M (option error) :=
  call (EvStartContainer id) (env_error env).
Definition client_ContainerWait (id : string) : M docker.WaitOutcome :=
  call (EvContainerWait id) (env_ContainerWait env).
Definition client_ContainerRemove (id : string) (force removeVolumes : bool)
  : M (option error) :=
  call (EvContainerRemove id force removeVolumes) (env_error env).
Definition client_ContainerStop (id : string) (timeoutSeconds : Z) : M (option error) :=
  call (EvContainerStop id timeoutSeconds) (env_error env).
Definition client_ContainerLogs (id : string) (tail : string) : M docker.LogsOutcome :=
  call (EvContainerLogs id tail) (env_ContainerLogs env).
Definition client_ContainerInspect (id : string) : M (error + docker.ContainerJSON) :=
  call (EvContainerInspect id) (env_ContainerInspect env).
Definition time_Now : M Z :=
  call EvTimeNow (env_Now env).
Definition dockerutil_RandLowerCaseLetterString (n : Z) : M string :=
  call (EvRandLowerCaseLetterString n) (env_Rand env).
Definition ctx_Err : M (option error) :=
  peek (env_ctx_Err env).
Definition rep_TrackRelayerExec (rep : ibc.RelayerExecReporter) (r : ibc.ExecReport)
  : M unit :=
  call (EvTrackRelayerExec rep r) (fun _ => tt).

(** **** Names and the image *)

Definition containerImage (r : DockerRelayer) : ibc.DockerImage :=
  match customImage r with
  | Some i => i
  | None => {| ibc.Repository := RelayerCommander.DefaultContainerImage (c r);
               ibc.Version_ := RelayerCommander.DefaultContainerVersion (c r) |}
  end.

Definition pullContainerImageIfNecessary (r : DockerRelayer) (image : ibc.DockerImage)
  : M (option error) :=
  if negb (pullImage r) then ret None
  else client_ImagePull (deps.(DockerImage_Ref) image).

Definition Name (r : DockerRelayer) : string :=
  RelayerCommander.Name (c r) ++ "-" ++ deps.(SanitizeContainerName) (testName r).

(** HomeDir returns the home directory of the relayer on the underlying
    Docker container's filesystem. *)
Definition HomeDir (r : DockerRelayer) : string :=
  "/var/relayer-" ++ RelayerCommander.Name (c r).

(** Bind returns the home folder bind point for running the node. *)
Definition Bind (r : DockerRelayer) : list string :=
  [volumeName r ++ ":" ++ HomeDir r].

Definition HostName (r : DockerRelayer) (pathName : string) : string :=
  deps.(CondenseHostName) (RelayerCommander.Name (c r) ++ "-" ++ pathName).

Definition UseDockerNetwork (r : DockerRelayer) : bool := true.

(** **** Exec *)

Definition Exec (r : DockerRelayer) (rep : ibc.RelayerExecReporter)
           (cmd : list string) (envv : list string) : M dockerutil.ContainerExecResult :=
  let job := {| dockerutil.networkID := networkID r;
                dockerutil.testName := testName r;
                dockerutil.repository := ibc.Repository (containerImage r);
                dockerutil.tag := ibc.Version_ (containerImage r) |} in
  let opts := {| dockerutil.Env := envv; dockerutil.Binds := Bind r |} in
  let* startedAt := time_Now in
  let* res := job_Run job cmd opts in
  (* the deferred call, when Exec returns *)
  let* finishedAt := time_Now in
  let* _ := rep_TrackRelayerExec rep
              {| ibc.containerName := Name r;
                 ibc.command := cmd;
                 ibc.stdout := string_of_list_byte (dockerutil.Stdout res);
                 ibc.stderr := string_of_list_byte (dockerutil.Stderr res);
                 ibc.exitCode := dockerutil.ExitCode res;
                 ibc.startedAt := startedAt;
                 ibc.finishedAt := finishedAt;
                 ibc.err := dockerutil.Err res |} in
  ret res.

(** **** One-off containers *)

(** The name and the configuration of the container of a one-off job. *)
Definition oneOffName (r : DockerRelayer) (opts : oneOffOptions) (suffix : string)
  : string :=
  Name r ++ "-" ++ ContainerNameDetail opts ++ "-" ++ suffix.

Definition oneOffConfig (r : DockerRelayer) (opts : oneOffOptions)
           (containerName : string) : docker.ContainerConfig :=
  {| (* Always use the main container image *)
     docker.Image := deps.(DockerImage_Ref) (containerImage r);
     docker.Entrypoint := Entrypoint opts;
     docker.Cmd := Cmd opts;
     docker.Hostname := HostName r containerName;
     docker.User := User opts;
     docker.Labels := {[ deps.(CleanupLabel) := testName r ]} |}.

Definition hostConfig (r : DockerRelayer) : docker.HostConfig :=
  {| docker.Binds := Bind r; docker.AutoRemove := false |}.

Definition runOneOff (r : DockerRelayer) (opts : oneOffOptions) : M (option error) :=
  let* suffix := dockerutil_RandLowerCaseLetterString 5 in
  let containerName := oneOffName r opts suffix in
  let* cc := client_ContainerCreate (oneOffConfig r opts containerName) (hostConfig r)
               None (* No network config in the one-off jobs for now. *)
               containerName in
  match cc with
  | inl e => ret (Some (Wrap ("creating container for " ++ ContainerNameDetail opts) e))
  | inr id =>
    let* res :=
      let* copied :=
        match TarContent opts with
        | Some content =>
          (* It is safe to copy into the container before starting it. *)
          client_CopyToContainer id (HomeDir r) content
        | None => ret None
        end in
      match copied with
      | Some e =>
        ret (Some (Wrap ("copying tar to one-off " ++ ContainerNameDetail opts
                         ++ " container") e))
      | None =>
        let* started := client_ContainerStart id in
        match started with
        | Some e =>
          ret (Some (Wrap ("starting one-off " ++ ContainerNameDetail opts
                           ++ " container") e))
        | None =>
          let* got := client_ContainerWait id in
          match got with
          | docker.CtxDone => ctx_Err
          | docker.FromErrCh e => ret e
          | docker.FromWaitCh w =>
            match docker.Error w with
            | Some msg =>
              ret (Some (Errorf ("waiting for one-off " ++ ContainerNameDetail opts
                                 ++ " container: " ++ msg)))
            | None => ret None
            end
          end
        end
      end in
    (* the deferred removal; its failure is only logged *)
    let* _ := client_ContainerRemove id true false in
    ret res
  end.

(** untarIntoNodeHome untars the given archive into r's home directory. *)
Definition untarIntoNodeHome (r : DockerRelayer) (content : tar.Archive)
  : M (option error) :=
  runOneOff r {| ContainerNameDetail := "untar-chown";
                 Entrypoint := [];
                 Cmd := ["chown"; "-R"; RelayerCommander.DockerUser (c r); HomeDir r];
                 User := deps.(GetRootUserString);
                 TarContent := Some content |}.

(** **** The configuration archive *)

Definition mode_0600 : Z := 6 * 64.

(** generateConfigTar returns the content of a tar archive which contains
    only the initial relayer config content. *)
Definition generateConfigTar (r : DockerRelayer) (relativeConfigPath : string)
           (content : list byte) : M (error + tar.Archive) :=
  let tw := tar.NewWriter in
  let* now := time_Now in
  match tar.WriteHeader
          {| tar.Typeflag := 0;
             tar.Name := relativeConfigPath;
             tar.Size := Z.of_nat (length content);
             tar.Mode := mode_0600;
             tar.Uname := RelayerCommander.DockerUser (c r);
             tar.ModTime := now;
             tar.Format_ := tar.FormatPAX |} tw with
  | (Some e, _) => ret (inl (Wrap "writing config file to tar" e))
  | (None, tw) =>
    match tar.Write content tw with
    | ((_, Some e), _) => ret (inl (Wrap "writing config content to tar" e))
    | ((_, None), tw) =>
      match tar.Close tw with
      | (Some e, _) => ret (inl (Wrap "closing tar writer" e))
      | (None, tw) => ret (inr (tar.archive tw))
      end
    end
  end.

Definition AddChainConfiguration (r : DockerRelayer) (rep : ibc.RelayerExecReporter)
           (chainConfig : ibc.ChainConfig) (keyName rpcAddr grpcAddr : string)
  : M (option error) :=
  let chainConfigFile := ibc.ChainID chainConfig ++ ".config" in
  let chainConfigContainerFilePath := deps.(path_Join) (HomeDir r) chainConfigFile in
  match RelayerCommander.ConfigContent (c r) chainConfig keyName rpcAddr grpcAddr with
  | inl e => ret (Some (Wrap "failed to generate config content" e))
  | inr configContent =>
    let* t := generateConfigTar r chainConfigFile configContent in
    match t with
    | inl e => ret (Some (Wrap "generating tar for configuration" e))
    | inr archive =>
      let* untarred := untarIntoNodeHome r archive in
      match untarred with
      | Some e => ret (Some e)
      | None =>
        let cmd := RelayerCommander.AddChainConfiguration (c r)
                     chainConfigContainerFilePath (HomeDir r) in
        let* res := Exec r rep cmd [] in
        ret (dockerutil.Err res)
      end
    end
  end.

(** **** Keys and wallets *)

(** The wallet returned, the error, and the relayer after the call. *)
Definition AddKey (r : DockerRelayer) (rep : ibc.RelayerExecReporter)
           (chainID keyName : string)
  : M (ibc.RelayerWallet * option error * DockerRelayer) :=
  let cmd := RelayerCommander.AddKey (c r) chainID keyName (HomeDir r) in
  let* res := Exec r rep cmd [] in
  match dockerutil.Err res with
  | Some e => ret (ibc.RelayerWallet_zero, Some e, r)
  | None =>
    match RelayerCommander.ParseAddKeyOutput (c r)
            (string_of_list_byte (dockerutil.Stdout res))
            (string_of_list_byte (dockerutil.Stderr res)) with
    | inl e => ret (ibc.RelayerWallet_zero, Some e, r)
    | inr wallet => ret (wallet, None, set_wallet chainID wallet r)
    end
  end.

(** [wallet, ok := r.wallets[chainID]] *)
Definition GetWallet (r : DockerRelayer) (chainID : string) : ibc.RelayerWallet * bool :=
  match wallets r !! chainID with
  | Some wallet => (wallet, true)
  | None => (ibc.RelayerWallet_zero, false)
  end.

(** The error, and the relayer after the call. *)
Definition RestoreKey (r : DockerRelayer) (rep : ibc.RelayerExecReporter)
           (chainID keyName mnemonic : string) : M (option error * DockerRelayer) :=
  let cmd := RelayerCommander.RestoreKey (c r) chainID keyName mnemonic (HomeDir r) in
  let* res := Exec r rep cmd [] in
  match dockerutil.Err res with
  | Some e => ret (Some e, r)
  | None =>
    ret (None,
         set_wallet chainID
           {| ibc.Mnemonic := mnemonic;
              ibc.Address := RelayerCommander.ParseRestoreKeyOutput (c r)
                               (string_of_list_byte (dockerutil.Stdout res))
                               (string_of_list_byte (dockerutil.Stderr res)) |} r)
  end.

(** **** Commands that only run *)

Definition execErr (r : DockerRelayer) (rep : ibc.RelayerExecReporter)
           (cmd : list string) : M (option error) :=
  let* res := Exec r rep cmd [] in
  ret (dockerutil.Err res).

Definition CreateChannel r rep (pathName : string) (opts : ibc.CreateChannelOptions) :=
  execErr r rep (RelayerCommander.CreateChannel (c r) pathName opts (HomeDir r)).
Definition CreateClients r rep (pathName : string) :=
  execErr r rep (RelayerCommander.CreateClients (c r) pathName (HomeDir r)).
Definition CreateConnections r rep (pathName : string) :=
  execErr r rep (RelayerCommander.CreateConnections (c r) pathName (HomeDir r)).
Definition FlushAcknowledgements r rep (pathName channelID : string) :=
  execErr r rep (RelayerCommander.FlushAcknowledgements (c r) pathName channelID (HomeDir r)).
Definition FlushPackets r rep (pathName channelID : string) :=
  execErr r rep (RelayerCommander.FlushPackets (c r) pathName channelID (HomeDir r)).
Definition GeneratePath r rep (srcChainID dstChainID pathName : string) :=
  execErr r rep (RelayerCommander.GeneratePath (c r) srcChainID dstChainID pathName
                   (HomeDir r)).
Definition LinkPath r rep (pathName : string) (opts : ibc.CreateChannelOptions) :=
  execErr r rep (RelayerCommander.LinkPath (c r) pathName (HomeDir r) opts).
Definition UpdateClients r rep (pathName : string) :=
  execErr r rep (RelayerCommander.UpdateClients (c r) pathName (HomeDir r)).

(** **** The long-running container *)

Definition nodeConfig (r : DockerRelayer) (pathName : string) : docker.ContainerConfig :=
  {| docker.Image := deps.(DockerImage_Ref) (containerImage r);
     docker.Entrypoint := [];
     docker.Cmd := RelayerCommander.StartRelayer (c r) pathName (HomeDir r);
     docker.Hostname := HostName r pathName;
     docker.User := RelayerCommander.DockerUser (c r);
     docker.Labels := {[ deps.(CleanupLabel) := testName r ]} |}.

(** The error, and the relayer after the call. *)
Definition createNodeContainer (r : DockerRelayer) (pathName : string)
  : M (option error * DockerRelayer) :=
  let containerName := RelayerCommander.Name (c r) ++ "-" ++ pathName in
  let* cc := client_ContainerCreate (nodeConfig r pathName) (hostConfig r)
               (Some [networkID r])
               containerName in
  match cc with
  | inl e => ret (Some e, r)
  | inr id =>
    let r' := set_containerID id r in
    let* started := dockerutil_StartContainer (containerID r') in
    ret (started, r')
  end.

Definition StartRelayer (r : DockerRelayer) (rep : ibc.RelayerExecReporter)
           (pathName : string) : M (option error * DockerRelayer) :=
  createNodeContainer r pathName.

Definition stopContainer (r : DockerRelayer) : M (option error) :=
  client_ContainerStop (containerID r) 30.

Definition StopRelayer (r : DockerRelayer) (rep : ibc.RelayerExecReporter)
  : M (option error) :=
  let* stopped := stopContainer r in
  match stopped with
  | Some e => ret (Some e)
  | None =>
    let* logs := client_ContainerLogs (containerID r) "50" in
    match logs with
    | docker.LogsErr e => ret (Some (Wrap "StopRelayer: retrieving ContainerLogs" e))
    | docker.DemuxErr e => ret (Some (Wrap "StopRelayer: demuxing logs" e))
    | docker.Logs out errs =>
      let* inspected := client_ContainerInspect (containerID r) in
      match inspected with
      | inl e => ret (Some (Wrap "StopRelayer: inspecting container" e))
      | inr cj =>
        (* time.Parse(c.State.StartedAt, time.RFC3339Nano) *)
        let startedAt :=
          match deps.(time_Parse) (docker.StartedAt (docker.State cj)) gotime.RFC3339Nano with
          | inr t => t
          | inl _ => gotime.Unix_0_0
          end in
        (* time.Parse(c.State.FinishedAt, time.RFC3339Nano) *)
        let* finishedAt :=
          match deps.(time_Parse) (docker.FinishedAt (docker.State cj)) gotime.RFC3339Nano with
          | inr t => ret t
          | inl _ => time_Now
          end in
        let* _ := rep_TrackRelayerExec rep
                    {| ibc.containerName := docker.Name cj;
                       ibc.command := docker.Args cj;
                       ibc.stdout := out;
                       ibc.stderr := errs;
                       ibc.exitCode := docker.ExitCode (docker.State cj);
                       ibc.startedAt := startedAt;
                       ibc.finishedAt := finishedAt;
                       ibc.err := None |} in
        client_ContainerRemove (containerID r) false true
      end
    end
  end.

(** **** The constructor *)

Definition applyOption (r : DockerRelayer) (opt : RelayerOption) : DockerRelayer :=
  match opt with
  | RelayerOptionDockerImage i => set_customImage i r
  | RelayerOptionImagePull pull => set_pullImage pull r
  | RelayerOptionOther => r
  end.

(** NewDockerRelayer returns a new DockerRelayer. *)
Definition NewDockerRelayer (testName : string) (networkID : string)
           (c : RelayerCommander.t) (options : list RelayerOption)
  : M (error + DockerRelayer) :=
  let r := {| c := c; networkID := networkID; volumeName := ""; testName := testName;
              customImage := None;
              (* pull true by default, can be overridden with options *)
              pullImage := true;
              containerID := ""; wallets := ∅ |} in
  let r := fold_left applyOption options r in
  let image := containerImage r in
  let* pulled := pullContainerImageIfNecessary r image in
  match pulled with
  | Some e => ret (inl (Wrap ("pulling container image " ++ deps.(DockerImage_Ref) image) e))
  | None =>
    let* v := client_VolumeCreate {[ deps.(CleanupLabel) := testName ]} in
    match v with
    | inl e => ret (inl (Wrap "creating volume" e))
    | inr name =>
      let r := set_volumeName name r in
      let* owned := dockerutil_SetVolumeOwner
                      {| dockerutil.VolumeName := volumeName r;
                         dockerutil.ImageRef := deps.(DockerImage_Ref) image;
                         dockerutil.TestName := testName |} in
      match owned with
      | Some e => ret (inl (Wrap "set volume owner" e))
      | None =>
        let init := RelayerCommander.Init c (HomeDir r) in
        if (0 <? length init)%nat then
          let* res := Exec r ibc.NopRelayerExecReporter init [] in
          match dockerutil.Err res with
          | Some e => ret (inl e)
          | None => ret (inr r)
          end
        else ret (inr r)
      end
    end
  end.

End WithWorld.

End relayer.

(** ** Reading a history *)

Module history.

(** The calls of [TrackRelayerExec] in a history: the reporter and the report
    of each, oldest first. *)
Definition reports (h : relayer.History)
  : list (ibc.RelayerExecReporter * ibc.ExecReport) :=
  omap (fun ev => match ev with
                  | relayer.EvTrackRelayerExec rep r => Some (rep, r)
                  | _ => None
                  end) h.

(** The labels a call gives to the Docker resource it creates, if it creates
    one. *)
Definition created_labels (ev : relayer.Event) : option (gmap string string) :=
  match ev with
  | relayer.EvVolumeCreate labels => Some labels
  | relayer.EvContainerCreate cfg _ _ _ => Some (docker.Labels cfg)
  | _ => None
  end.


(** The calls a computation makes from history [h]. *)
Definition made {A} (m : relayer.M A) (h : relayer.History) : relayer.History :=
  drop (length h) (snd (m h)).

(** The first three calls of [StopRelayer]: stop, logs, inspect. *)
Definition stop_calls (r : relayer.DockerRelayer) : relayer.History :=
  [relayer.EvContainerStop (relayer.containerID r) 30;
   relayer.EvContainerLogs (relayer.containerID r) "50";
   relayer.EvContainerInspect (relayer.containerID r)].

(** The result of the run that [AddKey] and [RestoreKey] start with. *)
Definition addKeyRun (deps : relayer.Deps) (env : relayer.Env) (r : relayer.DockerRelayer)
           (rep : ibc.RelayerExecReporter) (chainID keyName : string) (h : relayer.History)
  : dockerutil.ContainerExecResult :=
  fst (relayer.Exec deps env r rep
         (RelayerCommander.AddKey (relayer.c r) chainID keyName (relayer.HomeDir r)) [] h).

Definition restoreKeyRun (deps : relayer.Deps) (env : relayer.Env) (r : relayer.DockerRelayer)
           (rep : ibc.RelayerExecReporter) (chainID keyName mnemonic : string)
           (h : relayer.History) : dockerutil.ContainerExecResult :=
  fst (relayer.Exec deps env r rep
         (RelayerCommander.RestoreKey (relayer.c r) chainID keyName mnemonic
            (relayer.HomeDir r)) [] h).

(** The two outputs of a run, as strings. *)
Definition outputs (res : dockerutil.ContainerExecResult) : string * string :=
  (string_of_list_byte (dockerutil.Stdout res), string_of_list_byte (dockerutil.Stderr res)).

(** The histories of [runOneOff] from [h], along the path where every call
    succeeds: after the container is created, after the archive, if any, is
    copied into container [id], after the container is started, and when the
    wait begins. *)
Definition oneOff_created (deps : relayer.Deps) (env : relayer.Env)
           (r : relayer.DockerRelayer) (opts : relayer.oneOffOptions) (h : relayer.History)
  : relayer.History :=
  let name := relayer.oneOffName deps r opts
                (relayer.env_Rand env (h ++ [relayer.EvRandLowerCaseLetterString 5])%list) in
  (h ++ [relayer.EvRandLowerCaseLetterString 5;
         relayer.EvContainerCreate (relayer.oneOffConfig deps r opts name)
           (relayer.hostConfig r) None name])%list.

Definition oneOff_copied (deps : relayer.Deps) (env : relayer.Env)
           (r : relayer.DockerRelayer) (opts : relayer.oneOffOptions) (h : relayer.History)
           (id : string) : relayer.History :=
  match relayer.TarContent opts with
  | Some content =>
    (oneOff_created deps env r opts h
     ++ [relayer.EvCopyToContainer id (relayer.HomeDir r) content])%list
  | None => oneOff_created deps env r opts h
  end.

Definition oneOff_started (deps : relayer.Deps) (env : relayer.Env)
           (r : relayer.DockerRelayer) (opts : relayer.oneOffOptions) (h : relayer.History)
           (id : string) : relayer.History :=
  (oneOff_copied deps env r opts h id ++ [relayer.EvContainerStart id])%list.

Definition oneOff_waiting (deps : relayer.Deps) (env : relayer.Env)
           (r : relayer.DockerRelayer) (opts : relayer.oneOffOptions) (h : relayer.History)
           (id : string) : relayer.History :=
  (oneOff_started deps env r opts h id ++ [relayer.EvContainerWait id])%list.

(** Every Docker resource that the calls [evs] create carries the cleanup
    label, with the test name as its value, and nothing else. *)
Definition labelled (deps : relayer.Deps) (testName : string) (evs : relayer.History)
  : Prop :=
  forall ev labels,
    ev ∈ evs -> created_labels ev = Some labels ->
    labels = {[ relayer.CleanupLabel deps := testName ]}.

(** The clock never goes back: a later reading is not before an earlier
    one. *)
Definition clock_monotone (env : relayer.Env) : Prop :=
  forall h h' : relayer.History,
    relayer.env_Now env h <= relayer.env_Now env (h ++ h')%list.

(** The clock reads no time before the Unix epoch. *)
Definition clock_after_epoch (env : relayer.Env) : Prop :=
  forall h : relayer.History, 0 <= relayer.env_Now env h.

(** What the container runtime records of a container, as far as [parse]
    reads it: a start that is not after any later reading of the clock, a finish
    that is not before the Unix epoch, and a start that is not after the
    finish. *)
Definition recorded_times_sane (parse : string -> string -> error + Z)
           (env : relayer.Env) : Prop :=
  forall (h : relayer.History) (cj : docker.ContainerJSON),
    relayer.env_ContainerInspect env h = inr cj ->
    (forall ts, parse (docker.StartedAt (docker.State cj)) gotime.RFC3339Nano = inr ts ->
                forall h', ts <= relayer.env_Now env (h ++ h')%list)
    /\ (forall tf, parse (docker.FinishedAt (docker.State cj)) gotime.RFC3339Nano = inr tf ->
                   0 <= tf)
    /\ (forall ts tf,
           parse (docker.StartedAt (docker.State cj)) gotime.RFC3339Nano = inr ts ->
           parse (docker.FinishedAt (docker.State cj)) gotime.RFC3339Nano = inr tf ->
           ts <= tf).

End history.

(** ** Sequences of calls on one relayer *)

Module session.

(** One call of a method of [DockerRelayer] that makes calls of its own.  The
    methods that run one command and read its result ([CreateChannel],
    [CreateClients], [CreateConnections], [FlushAcknowledgements],
    [FlushPackets], [GeneratePath], [GetChannels], [GetConnections],
    [LinkPath], [UpdateClients]) are [Exec] on the command the commander
    builds. *)
Inductive Op :=
| OpExec (rep : ibc.RelayerExecReporter) (cmd envv : list string)
| OpAddChainConfiguration (rep : ibc.RelayerExecReporter) (cfg : ibc.ChainConfig)
                          (keyName rpcAddr grpcAddr : string)
| OpAddKey (rep : ibc.RelayerExecReporter) (chainID keyName : string)
| OpRestoreKey (rep : ibc.RelayerExecReporter) (chainID keyName mnemonic : string)
| OpStartRelayer (rep : ibc.RelayerExecReporter) (pathName : string)
| OpStopRelayer (rep : ibc.RelayerExecReporter).

Section Run.

Variable deps : relayer.Deps.
Variable env : relayer.Env.

(** One call: the relayer after it, and the chain ID when the call is an
    [AddKey] or a [RestoreKey] that returned no error. *)
Definition step (op : Op) (r : relayer.DockerRelayer)
  : relayer.M (relayer.DockerRelayer * option string) :=
  match op with
  | OpExec rep cmd envv =>
    relayer.bind (relayer.Exec deps env r rep cmd envv) (fun _ => relayer.ret (r, None))
  | OpAddChainConfiguration rep cfg keyName rpcAddr grpcAddr =>
    relayer.bind (relayer.AddChainConfiguration deps env r rep cfg keyName rpcAddr grpcAddr)
                 (fun _ => relayer.ret (r, None))
  | OpAddKey rep chainID keyName =>
    relayer.bind (relayer.AddKey deps env r rep chainID keyName)
                 (fun res => match res with
                             | (_, None, r') => relayer.ret (r', Some chainID)
                             | (_, Some _, r') => relayer.ret (r', None)
                             end)
  | OpRestoreKey rep chainID keyName mnemonic =>
    relayer.bind (relayer.RestoreKey deps env r rep chainID keyName mnemonic)
                 (fun res => match res with
                             | (None, r') => relayer.ret (r', Some chainID)
                             | (Some _, r') => relayer.ret (r', None)
                             end)
  | OpStartRelayer rep pathName =>
    relayer.bind (relayer.StartRelayer deps env r rep pathName)
                 (fun res => relayer.ret (snd res, None))
  | OpStopRelayer rep =>
    relayer.bind (relayer.StopRelayer deps env r rep) (fun _ => relayer.ret (r, None))
  end.

(** The calls in order: the relayer after them, and the chain IDs of the
    calls of [AddKey] and [RestoreKey] that returned no error. *)
Fixpoint run (ops : list Op) (r : relayer.DockerRelayer)
  : relayer.M (relayer.DockerRelayer * list string) :=
  match ops with
  | [] => relayer.ret (r, [])
  | op :: ops' =>
    relayer.bind (step op r) (fun res =>
    relayer.bind (run ops' (fst res)) (fun res' =>
    relayer.ret (fst res', match snd res with
                           | Some chainID => chainID :: snd res'
                           | None => snd res'
                           end)))
  end.

End Run.

End session.

(** ** A sample world *)

Module sample.

(** Instances of what is not at hand, to run the code on: the names are
    left as they are, an image reference is repository:version, and the time
    parser is Go's. *)
Definition deps : relayer.Deps :=
  {| relayer.CleanupLabel := "ibc-test";
     relayer.SanitizeContainerName := fun s => s;
     relayer.CondenseHostName := fun s => s;
     relayer.GetRootUserString := "0:0";
     relayer.DockerImage_Ref := fun i => ibc.Repository i ++ ":" ++ ibc.Version_ i;
     relayer.path_Join := fun a b => a ++ "/" ++ b;
     relayer.time_Parse := gotime.Parse |}.

(** A commander in the manner of the one for rly: the new wallet is read
    from the two outputs, and an empty standard output does not parse. *)
Definition commander : RelayerCommander.t :=
  {| RelayerCommander.Name := "rly";
     RelayerCommander.DefaultContainerImage := "ghcr.io/cosmos/relayer";
     RelayerCommander.DefaultContainerVersion := "v2.0.0";
     RelayerCommander.DockerUser := "100:1000";
     RelayerCommander.ConfigContent := fun cfg keyName rpcAddr grpcAddr =>
       inr (list_byte_of_string (ibc.ChainID cfg ++ " " ++ keyName ++ " " ++ rpcAddr));
     RelayerCommander.ParseAddKeyOutput := fun out errs =>
       if String.eqb out "" then inl (Errorf "failed to parse add key output")
       else inr {| ibc.Mnemonic := out; ibc.Address := errs |};
     RelayerCommander.ParseRestoreKeyOutput := fun out errs => out;
     RelayerCommander.Init := fun home => ["rly"; "config"; "init"; "--home"; home];
     RelayerCommander.AddChainConfiguration := fun file home =>
       ["rly"; "chains"; "add"; "-f"; file; "--home"; home];
     RelayerCommander.AddKey := fun chainID keyName home =>
       ["rly"; "keys"; "add"; chainID; keyName; "--home"; home];
     RelayerCommander.CreateChannel := fun pathName opts home =>
       ["rly"; "tx"; "channel"; pathName; "--home"; home];
     RelayerCommander.CreateClients := fun pathName home =>
       ["rly"; "tx"; "clients"; pathName; "--home"; home];
     RelayerCommander.CreateConnections := fun pathName home =>
       ["rly"; "tx"; "connection"; pathName; "--home"; home];
     RelayerCommander.FlushAcknowledgements := fun pathName channelID home =>
       ["rly"; "tx"; "relay-acks"; pathName; channelID; "--home"; home];
     RelayerCommander.FlushPackets := fun pathName channelID home =>
       ["rly"; "tx"; "relay-pkts"; pathName; channelID; "--home"; home];
     RelayerCommander.GeneratePath := fun src dst pathName home =>
       ["rly"; "paths"; "new"; src; dst; pathName; "--home"; home];
     RelayerCommander.LinkPath := fun pathName home opts =>
       ["rly"; "tx"; "link"; pathName; "--home"; home];
     RelayerCommander.RestoreKey := fun chainID keyName mnemonic home =>
       ["rly"; "keys"; "restore"; chainID; keyName; mnemonic; "--home"; home];
     RelayerCommander.StartRelayer := fun pathName home =>
       ["rly"; "start"; pathName; "--home"; home];
     RelayerCommander.UpdateClients := fun pathName home =>
       ["rly"; "tx"; "update-clients"; pathName; "--home"; home] |}.

(** A run that succeeds and prints [out], and a run that fails with [e]. *)
Definition ran (out : string) : dockerutil.ContainerExecResult :=
  {| dockerutil.Err := None; dockerutil.ExitCode := 0;
     dockerutil.Stdout := list_byte_of_string out; dockerutil.Stderr := [] |}.

Definition failed (e : error) : dockerutil.ContainerExecResult :=
  {| dockerutil.Err := Some e; dockerutil.ExitCode := -1;
     dockerutil.Stdout := []; dockerutil.Stderr := [] |}.

(** A container that ran for five minutes on 2022-08-01, as Docker records
    it. *)
Definition stopped : docker.ContainerJSON :=
  {| docker.Name := "/rly-path";
     docker.Args := ["start"; "path"];
     docker.State := {| docker.StartedAt := "2022-08-01T12:00:00.123456789Z";
                        docker.FinishedAt := "2022-08-01T12:05:00.5Z";
                        docker.ExitCode := 0 |} |}.

(** 2022-08-01T12:05:01Z, in nanoseconds since the Unix epoch. *)
Definition clock0 : Z := 1659355501000000000.

(** A world where Docker does what it is asked: every run gives [job], a
    wait of a one-off container ends as [wait] says, the context reports
    [ctxErr], failing calls answer [failure], and the clock advances by a nanosecond a
    call. *)
Definition world (job : dockerutil.ContainerExecResult) (wait : docker.WaitOutcome)
           (ctxErr failure : option error) : relayer.Env :=
  {| relayer.env_error := fun _ => failure;
     relayer.env_VolumeCreate := fun _ => inr "volume-1";
     relayer.env_JobRun := fun _ => job;
     relayer.env_ContainerCreate := fun _ => inr "container-1";
     relayer.env_ContainerWait := fun _ => wait;
     relayer.env_ctx_Err := fun _ => ctxErr;
     relayer.env_ContainerLogs := fun _ => docker.Logs "relaying" "";
     relayer.env_ContainerInspect := fun _ => inr stopped;
     relayer.env_Now := fun h => clock0 + Z.of_nat (length h);
     relayer.env_Rand := fun _ => "abcde" |}.

Definition exited : docker.WaitOutcome :=
  docker.FromWaitCh {| docker.Error := None; docker.StatusCode := 0 |}.

(** The world where everything succeeds. *)
Definition env : relayer.Env := world (ran "wallet words") exited None None.

(** The relayer that [NewDockerRelayer] makes in this world, and the same
    with its container started. *)
Definition fresh : relayer.DockerRelayer :=
  {| relayer.c := commander; relayer.networkID := "network-1";
     relayer.volumeName := "volume-1"; relayer.testName := "TestRelayer";
     relayer.customImage := None; relayer.pullImage := true;
     relayer.containerID := ""; relayer.wallets := ∅ |}.

Definition rly : relayer.DockerRelayer := relayer.set_containerID "container-1" fresh.

Definition rep : ibc.RelayerExecReporter := ibc.TestReporter "TestRelayer".

(** The world where the context is canceled while a one-off container is
    awaited. *)
Definition canceled : relayer.Env :=
  world (ran "") docker.CtxDone (Some ContextCanceled) None.

(** The content of a configuration file, and the archive that holds it. *)
Definition config : list byte := list_byte_of_string "chain-a key-a http://chain-a:26657".

Definition archive : tar.Archive :=
  {| tar.members :=
       [ {| tar.hdr := {| tar.Typeflag := tar.TypeReg;
                          tar.Name := "chain-a.config";
                          tar.Size := Z.of_nat (length config);
                          tar.Mode := relayer.mode_0600;
                          tar.Uname := "100:1000";
                          tar.ModTime := clock0 + 1;
                          tar.Format_ := tar.FormatPAX |};
            tar.data := config |} ];
     tar.trailer := true |}.

(** The one-off job of [untarIntoNodeHome] for that archive. *)
Definition untar : relayer.oneOffOptions :=
  {| relayer.ContainerNameDetail := "untar-chown";
     relayer.Entrypoint := [];
     relayer.Cmd := ["chown"; "-R"; "100:1000"; "/var/relayer-rly"];
     relayer.User := "0:0";
     relayer.TarContent := Some archive |}.

End sample.

(** ** Package relayer: the queries of DockerRelayer *)

Module queries.

(** [ibc.ChannelOutput] *)
Record ChannelCounterparty := {
  Counterparty_PortID : string;
  Counterparty_ChannelID : string
}.

Record ChannelOutput := {
  State : string;
  Ordering : string;
  Counterparty : ChannelCounterparty;
  ConnectionHops : list string;
  Version : string;
  PortID : string;
  ChannelID : string
}.

(** The methods of [RelayerCommander] that [GetChannels] and
    [GetConnections] read; [ConnectionOutputs] is the type [ibc.ConnectionOutputs]. *)
Record Commander (ConnectionOutputs : Type) := {
  cmd_GetChannels : string -> string -> list string;
  cmd_GetConnections : string -> string -> list string;
  ParseGetChannelsOutput : string -> string -> error + list ChannelOutput;
  ParseGetConnectionsOutput : string -> string -> error + ConnectionOutputs
}.
Arguments cmd_GetChannels {ConnectionOutputs}.
Arguments cmd_GetConnections {ConnectionOutputs}.
Arguments ParseGetChannelsOutput {ConnectionOutputs}.
Arguments ParseGetConnectionsOutput {ConnectionOutputs}.

Section WithWorld.

Variable deps : relayer.Deps.
Variable env : relayer.Env.
Variable ConnectionOutputs : Type.
Variable q : Commander ConnectionOutputs.

Definition GetChannels (r : relayer.DockerRelayer) (rep : ibc.RelayerExecReporter)
           (chainID : string) : relayer.M (error + list ChannelOutput) :=
  let cmd := cmd_GetChannels q chainID (relayer.HomeDir r) in
  relayer.bind (relayer.Exec deps env r rep cmd []) (fun res =>
  match dockerutil.Err res with
  | Some e => relayer.ret (inl e)
  | None =>
    relayer.ret (ParseGetChannelsOutput q
                   (string_of_list_byte (dockerutil.Stdout res))
                   (string_of_list_byte (dockerutil.Stderr res)))
  end).

Definition GetConnections (r : relayer.DockerRelayer) (rep : ibc.RelayerExecReporter)
           (chainID : string) : relayer.M (error + ConnectionOutputs) :=
  let cmd := cmd_GetConnections q chainID (relayer.HomeDir r) in
  relayer.bind (relayer.Exec deps env r rep cmd []) (fun res =>
  match dockerutil.Err res with
  | Some e => relayer.ret (inl e)
  | None =>
    relayer.ret (ParseGetConnectionsOutput q
                   (string_of_list_byte (dockerutil.Stdout res))
                   (string_of_list_byte (dockerutil.Stderr res)))
  end).

End WithWorld.

End queries.

(** ** Reading the calls of a history by kind *)

Module calls.

(** The runs of jobs in a history: the image, the command and the options of
    each, oldest first. *)
Definition jobs (h : relayer.History)
  : list (dockerutil.Image * list string * dockerutil.ContainerOptions) :=
  omap (fun ev => match ev with
                  | relayer.EvJobRun job cmd opts => Some (job, cmd, opts)
                  | _ => None
                  end) h.

(** The image references pulled. *)
Definition pulls (h : relayer.History) : list string :=
  omap (fun ev => match ev with
                  | relayer.EvImagePull ref => Some ref
                  | _ => None
                  end) h.

(** The calls of [SetVolumeOwner]. *)
Definition owners (h : relayer.History) : list dockerutil.VolumeOwnerOptions :=
  omap (fun ev => match ev with
                  | relayer.EvSetVolumeOwner o => Some o
                  | _ => None
                  end) h.

(** The calls of [ContainerRemove]: the container, [Force] and
    [RemoveVolumes]. *)
Definition removals (h : relayer.History) : list (string * bool * bool) :=
  omap (fun ev => match ev with
                  | relayer.EvContainerRemove id force volumes => Some (id, force, volumes)
                  | _ => None
                  end) h.

(** The archives copied into containers: the container, the directory and
    the archive. *)
Definition copies (h : relayer.History) : list (string * string * tar.Archive) :=
  omap (fun ev => match ev with
                  | relayer.EvCopyToContainer id path content => Some (id, path, content)
                  | _ => None
                  end) h.

(** The container a call is addressed to, for the calls that name one. *)
Definition container (ev : relayer.Event) : option string :=
  match ev with
  | relayer.EvCopyToContainer id _ _ => Some id
  | relayer.EvContainerStart id => Some id
  | relayer.EvStartContainer id => Some id
  | relayer.EvContainerWait id => Some id
  | relayer.EvContainerRemove id _ _ => Some id
  | relayer.EvContainerStop id _ => Some id
  | relayer.EvContainerLogs id _ => Some id
  | relayer.EvContainerInspect id => Some id
  | _ => None
  end.

(** Whether the last call of a history is a [ContainerRemove]. *)
Definition ends_with_removal (h : relayer.History) : bool :=
  match last h with
  | Some (relayer.EvContainerRemove _ _ _) => true
  | _ => false
  end.

(** Two worlds that answer alike, but for the error of a [ContainerRemove]. *)
Definition alike_but_removal (env1 env2 : relayer.Env) : Prop :=
  (forall h, ends_with_removal h = false ->
             relayer.env_error env1 h = relayer.env_error env2 h)
  /\ (forall h, relayer.env_ContainerCreate env1 h = relayer.env_ContainerCreate env2 h)
  /\ (forall h, relayer.env_ContainerWait env1 h = relayer.env_ContainerWait env2 h)
  /\ (forall h, relayer.env_ctx_Err env1 h = relayer.env_ctx_Err env2 h)
  /\ (forall h, relayer.env_Rand env1 h = relayer.env_Rand env2 h).

(** The values of the options of [NewDockerRelayer], by kind, in the order
    they are given. *)
Definition pull_options (options : list relayer.RelayerOption) : list bool :=
  omap (fun o => match o with
                 | relayer.RelayerOptionImagePull pull => Some pull
                 | _ => None
                 end) options.

Definition image_options (options : list relayer.RelayerOption) : list ibc.DockerImage :=
  omap (fun o => match o with
                 | relayer.RelayerOptionDockerImage image => Some image
                 | _ => None
                 end) options.

(** The image of a relayer of commander [c] made with [options]: the last
    image given, or the default of the commander. *)
Definition image_of (c : RelayerCommander.t) (options : list relayer.RelayerOption)
  : ibc.DockerImage :=
  default {| ibc.Repository := RelayerCommander.DefaultContainerImage c;
             ibc.Version_ := RelayerCommander.DefaultContainerVersion c |}
          (last (image_options options)).

(** The job that [Exec] makes for a relayer. *)
Definition job_of (r : relayer.DockerRelayer) : dockerutil.Image :=
  {| dockerutil.networkID := relayer.networkID r;
     dockerutil.testName := relayer.testName r;
     dockerutil.repository := ibc.Repository (relayer.containerImage r);
     dockerutil.tag := ibc.Version_ (relayer.containerImage r) |}.

(** A call that a method of relayer [r] may make: a job is the job of [r]
    with its volume bound, a container is created from the image of [r] with
    its volume bound and the cleanup label of its test, and no image is pulled
    nor volume created. *)
Definition of_relayer (deps : relayer.Deps) (r : relayer.DockerRelayer)
           (ev : relayer.Event) : Prop :=
  match ev with
  | relayer.EvJobRun job _ opts =>
    job = job_of r /\ dockerutil.Binds opts = relayer.Bind r
  | relayer.EvContainerCreate cfg hc _ _ =>
    docker.Image cfg = relayer.DockerImage_Ref deps (relayer.containerImage r)
    /\ docker.Labels cfg = {[ relayer.CleanupLabel deps := relayer.testName r ]}
    /\ hc = relayer.hostConfig r
  | relayer.EvImagePull _ => False
  | relayer.EvVolumeCreate _ => False
  | relayer.EvSetVolumeOwner _ => False
  | _ => True
  end.

(** From history [h], the computation [m] runs one job of relayer [r] with
    command [cmd] and no environment, reports it once to [rep], and returns
    the error of the run, which is the error it reports. *)
Definition runs_once (deps : relayer.Deps) (env : relayer.Env) (r : relayer.DockerRelayer)
           (rep : ibc.RelayerExecReporter) (m : relayer.M (option error))
           (cmd : list string) (h : relayer.History) : Prop :=
  exists report,
    snd (m h)
    = (h ++ [relayer.EvTimeNow;
             relayer.EvJobRun (job_of r) cmd
               {| dockerutil.Env := []; dockerutil.Binds := relayer.Bind r |};
             relayer.EvTimeNow;
             relayer.EvTrackRelayerExec rep report])%list
    /\ ibc.command report = cmd
    /\ ibc.containerName report = relayer.Name deps r
    /\ ibc.err report = fst (m h).

End calls.

(** ** More sample worlds *)

Module scenario.

(** The world of [sample.env], where the removal of a container fails. *)
Definition leaky : relayer.Env :=
  {| relayer.env_error := fun h =>
       if calls.ends_with_removal h then Some (External "removal failed") else None;
     relayer.env_VolumeCreate := relayer.env_VolumeCreate sample.env;
     relayer.env_JobRun := relayer.env_JobRun sample.env;
     relayer.env_ContainerCreate := relayer.env_ContainerCreate sample.env;
     relayer.env_ContainerWait := relayer.env_ContainerWait sample.env;
     relayer.env_ctx_Err := relayer.env_ctx_Err sample.env;
     relayer.env_ContainerLogs := relayer.env_ContainerLogs sample.env;
     relayer.env_ContainerInspect := relayer.env_ContainerInspect sample.env;
     relayer.env_Now := relayer.env_Now sample.env;
     relayer.env_Rand := relayer.env_Rand sample.env |}.

(** A relayer that holds a wallet for chain-a. *)
Definition keyed : relayer.DockerRelayer :=
  relayer.set_wallet "chain-a" {| ibc.Mnemonic := "wallet words"; ibc.Address := "" |}
    sample.fresh.

(** The configuration of chain-a. *)
Definition chain_a : ibc.ChainConfig := {| ibc.ChainID := "chain-a" |}.

End scenario.

(** * Properties *)

Local Open Scope list_scope.

(** ** Channel options *)

Section ChannelOptions.

Variable PortIdentifierValidator : string -> option error.

Lemma Order_Validate_nil (o : ibc.Order) :
  ibc.Order_Validate o = None <-> o = ibc.Ordered \/ o = ibc.Unordered.
Proof.
  unfold ibc.Order_Validate, ibc.Ordered, ibc.Unordered.
  destruct (Z.eqb_spec o 1), (Z.eqb_spec o 2); simpl; split; intros H;
    try discriminate; try reflexivity; auto.
  destruct H; contradiction.
Qed.

Lemma Order_Validate_not_nil (o : ibc.Order) :
  ~ (o = ibc.Ordered \/ o = ibc.Unordered) ->
  ibc.Order_Validate o = Some ErrInvalidChannelOrdering.
Proof.
  intros H. pose proof (Order_Validate_nil o) as Hn.
  unfold ibc.Order_Validate in *. destruct (_ || _); [|reflexivity].
  exfalso. apply H, Hn. reflexivity.
Qed.

(** C1. [Validate] returns nil exactly when both port names pass the
    port-identifier check, the version is not empty and the ordering is
    [Ordered] or [Unordered]; the zero ordering [Invalid] makes it fail; and
    the error returned is the one of the first condition violated, in the
    order of the switch: invalid port, invalid channel version, invalid
    channel ordering. *)
Theorem C1_Validate_nil_iff_all_conditions (opts : ibc.CreateChannelOptions) :
  (ibc.Validate PortIdentifierValidator opts = None <->
     PortIdentifierValidator (ibc.SourcePortName opts) = None
     /\ PortIdentifierValidator (ibc.DestPortName opts) = None
     /\ ibc.Version opts <> ""
     /\ (ibc.Order_ opts = ibc.Ordered \/ ibc.Order_ opts = ibc.Unordered))
  /\ (ibc.Order_ opts = ibc.Invalid ->
      ibc.Validate PortIdentifierValidator opts <> None)
  /\ (PortIdentifierValidator (ibc.SourcePortName opts) <> None
      \/ PortIdentifierValidator (ibc.DestPortName opts) <> None ->
      ibc.Validate PortIdentifierValidator opts = Some ErrInvalidPort)
  /\ (PortIdentifierValidator (ibc.SourcePortName opts) = None ->
      PortIdentifierValidator (ibc.DestPortName opts) = None ->
      ibc.Version opts = "" ->
      ibc.Validate PortIdentifierValidator opts = Some (Errorf "invalid channel version"))
  /\ (PortIdentifierValidator (ibc.SourcePortName opts) = None ->
      PortIdentifierValidator (ibc.DestPortName opts) = None ->
      ibc.Version opts <> "" ->
      ~ (ibc.Order_ opts = ibc.Ordered \/ ibc.Order_ opts = ibc.Unordered) ->
      ibc.Validate PortIdentifierValidator opts = Some ErrInvalidChannelOrdering).
Proof.
  assert (Hiff : ibc.Validate PortIdentifierValidator opts = None <->
     PortIdentifierValidator (ibc.SourcePortName opts) = None
     /\ PortIdentifierValidator (ibc.DestPortName opts) = None
     /\ ibc.Version opts <> ""
     /\ (ibc.Order_ opts = ibc.Ordered \/ ibc.Order_ opts = ibc.Unordered)).
  { unfold ibc.Validate.
    destruct (PortIdentifierValidator (ibc.SourcePortName opts)) as [e1|];
      [split; [discriminate | intros (H & _); discriminate]|].
    destruct (PortIdentifierValidator (ibc.DestPortName opts)) as [e2|];
      [split; [discriminate | intros (_ & H & _); discriminate]|].
    destruct (String.eqb_spec (ibc.Version opts) "") as [Hv|Hv];
      [split; [discriminate | intros (_ & _ & H & _); contradiction]|].
    rewrite <- Order_Validate_nil.
    destruct (ibc.Order_Validate (ibc.Order_ opts));
      [split; [discriminate | intros (_ & _ & _ & H); discriminate]|].
    split; auto. }
  split; [exact Hiff|].
  split.
  { intros Hz Hn. apply Hiff in Hn. destruct Hn as (_ & _ & _ & [H | H]);
      rewrite Hz in H; discriminate. }
  unfold ibc.Validate.
  split.
  { intros [H | H].
    - destruct (PortIdentifierValidator (ibc.SourcePortName opts)); [reflexivity | contradiction].
    - destruct (PortIdentifierValidator (ibc.SourcePortName opts)); [reflexivity|].
      destruct (PortIdentifierValidator (ibc.DestPortName opts)); [reflexivity | contradiction]. }
  split.
  { intros Hs Hd Hv. rewrite Hs, Hd, Hv. reflexivity. }
  intros Hs Hd Hv Ho. rewrite Hs, Hd.
  destruct (String.eqb_spec (ibc.Version opts) ""); [contradiction|].
  rewrite (Order_Validate_not_nil _ Ho). reflexivity.
Qed.

End ChannelOptions.

(** C4. [DefaultChannelOpts] is transfer/transfer/Unordered/ics20-1, and
    [Validate] returns nil on it: with the identifier check of ibc-go, and
    with any check that accepts the port name "transfer". *)
Theorem C4_DefaultChannelOpts_valid :
  ibc.DefaultChannelOpts
  = {| ibc.SourcePortName := "transfer"; ibc.DestPortName := "transfer";
       ibc.Order_ := ibc.Unordered; ibc.Version := "ics20-1" |}
  /\ ibc.Validate host.PortIdentifierValidator ibc.DefaultChannelOpts = None
  /\ (forall check : string -> option error,
         check "transfer" = None -> ibc.Validate check ibc.DefaultChannelOpts = None).
Proof.
  split; [reflexivity|]. split; [vm_compute; reflexivity|].
  intros check H. unfold ibc.Validate. simpl. rewrite H. reflexivity.
Qed.


(** ** Reports *)

Lemma reports_app (h1 h2 : relayer.History) :
  history.reports (h1 ++ h2) = history.reports h1 ++ history.reports h2.
Proof. unfold history.reports. apply omap_app. Qed.

Lemma reports_snoc_other (h : relayer.History) (ev : relayer.Event) :
  match ev with relayer.EvTrackRelayerExec _ _ => False | _ => True end ->
  history.reports (h ++ [ev]) = history.reports h.
Proof.
  intros H. rewrite reports_app.
  destruct ev; simpl in *; try contradiction; apply app_nil_r.
Qed.

Lemma reports_snoc_track (h : relayer.History) rep r :
  history.reports (h ++ [relayer.EvTrackRelayerExec rep r]) = history.reports h ++ [(rep, r)].
Proof. rewrite reports_app. reflexivity. Qed.

Section Reports.

Variable deps : relayer.Deps.
Variable env : relayer.Env.

(** The calls of [Exec], one after the other, and the report it hands over
    when it returns. *)
Lemma Exec_calls r rep cmd envv h :
  let job := {| dockerutil.networkID := relayer.networkID r;
                dockerutil.testName := relayer.testName r;
                dockerutil.repository := ibc.Repository (relayer.containerImage r);
                dockerutil.tag := ibc.Version_ (relayer.containerImage r) |} in
  let opts := {| dockerutil.Env := envv; dockerutil.Binds := relayer.Bind r |} in
  let h1 := h ++ [relayer.EvTimeNow] in
  let h2 := h1 ++ [relayer.EvJobRun job cmd opts] in
  let h3 := h2 ++ [relayer.EvTimeNow] in
  let res := relayer.env_JobRun env h2 in
  let report := {| ibc.containerName := relayer.Name deps r;
                   ibc.command := cmd;
                   ibc.stdout := string_of_list_byte (dockerutil.Stdout res);
                   ibc.stderr := string_of_list_byte (dockerutil.Stderr res);
                   ibc.exitCode := dockerutil.ExitCode res;
                   ibc.startedAt := relayer.env_Now env h1;
                   ibc.finishedAt := relayer.env_Now env h3;
                   ibc.err := dockerutil.Err res |} in
  relayer.Exec deps env r rep cmd envv h
  = (res, h3 ++ [relayer.EvTrackRelayerExec rep report]).
Proof. reflexivity. Qed.

(** [Exec] reports once, whatever the run gives. *)
Lemma Exec_reports_once r rep cmd envv h :
  exists report,
    history.reports (snd (relayer.Exec deps env r rep cmd envv h))
    = history.reports h ++ [(rep, report)]
    /\ ibc.command report = cmd
    /\ ibc.err report = dockerutil.Err (fst (relayer.Exec deps env r rep cmd envv h))
    /\ ibc.startedAt report = relayer.env_Now env (h ++ [relayer.EvTimeNow])
    /\ exists h', ibc.finishedAt report = relayer.env_Now env ((h ++ [relayer.EvTimeNow]) ++ h').
Proof.
  rewrite Exec_calls. cbn [fst snd]. eexists. split.
  { rewrite reports_snoc_track, !reports_snoc_other by exact I. reflexivity. }
  cbn. repeat split. eexists. rewrite <- app_assoc. reflexivity.
Qed.

(** A [StopRelayer] that returns nil has inspected the container and
    reported once, what it read; the times are those [time.Parse] gives for
    the layout [StartedAt] (or [FinishedAt]) and the value [RFC3339Nano], or
    the Unix epoch and the time of the clock. *)
Lemma StopRelayer_nil r rep h :
  fst (relayer.StopRelayer deps env r rep h) = None ->
  exists cj report,
    relayer.env_ContainerInspect env (h ++ history.stop_calls r) = inr cj
    /\ history.reports (snd (relayer.StopRelayer deps env r rep h))
       = history.reports h ++ [(rep, report)]
    /\ ibc.containerName report = docker.Name cj
    /\ ibc.command report = docker.Args cj
    /\ ibc.exitCode report = docker.ExitCode (docker.State cj)
    /\ ibc.err report = None
    /\ ibc.startedAt report
       = match relayer.time_Parse deps (docker.StartedAt (docker.State cj))
                 gotime.RFC3339Nano with
         | inr t => t
         | inl _ => gotime.Unix_0_0
         end
    /\ ibc.finishedAt report
       = match relayer.time_Parse deps (docker.FinishedAt (docker.State cj))
                 gotime.RFC3339Nano with
         | inr t => t
         | inl _ => relayer.env_Now env ((h ++ history.stop_calls r) ++ [relayer.EvTimeNow])
         end.
Proof.
  unfold relayer.StopRelayer, relayer.stopContainer, relayer.client_ContainerStop,
    relayer.client_ContainerLogs, relayer.client_ContainerInspect,
    relayer.client_ContainerRemove, relayer.rep_TrackRelayerExec, relayer.time_Now,
    relayer.bind, relayer.call, relayer.ret, history.stop_calls.
  cbn [fst snd].
  destruct (relayer.env_error env (h ++ _)) as [e|] eqn:Hstop; [discriminate|].
  destruct (relayer.env_ContainerLogs env _) as [e|e|out errs] eqn:Hlogs; try discriminate.
  replace (h ++ [relayer.EvContainerStop (relayer.containerID r) 30;
     relayer.EvContainerLogs (relayer.containerID r) "50";
     relayer.EvContainerInspect (relayer.containerID r)])
    with (((h ++ [relayer.EvContainerStop (relayer.containerID r) 30]) ++
       [relayer.EvContainerLogs (relayer.containerID r) "50"]) ++
      [relayer.EvContainerInspect (relayer.containerID r)])
    by (rewrite <- !app_assoc; reflexivity).
  destruct (relayer.env_ContainerInspect env _) as [e|cj] eqn:Hins; [discriminate|].
  intros Hrm. exists cj.
  destruct (relayer.time_Parse deps (docker.FinishedAt (docker.State cj))
              gotime.RFC3339Nano) as [e|tf] eqn:Hf;
    cbn [fst snd] in *; eexists; (split; [reflexivity|]).
  - split.
    { rewrite reports_snoc_other by exact I. rewrite reports_snoc_track.
      rewrite !reports_snoc_other by exact I. reflexivity. }
    cbn. repeat split; reflexivity.
  - split.
    { rewrite reports_snoc_other by exact I. rewrite reports_snoc_track.
      rewrite !reports_snoc_other by exact I. reflexivity. }
    cbn. repeat split; reflexivity.
Qed.

(** C2. [Exec] calls [TrackRelayerExec] exactly once, whether the run
    succeeds or fails, and a [StopRelayer] that returns nil calls it exactly
    once, with the report made from the inspection of the container.  In each
    of these reports the start is not after the end, for a clock that does
    not go back nor before the Unix epoch and a container runtime whose
    recorded times are in order. *)
Theorem C2_one_report_per_call_start_before_end r rep h :
  history.clock_monotone env ->
  history.clock_after_epoch env ->
  history.recorded_times_sane (relayer.time_Parse deps) env ->
  (forall cmd envv,
      exists report,
        history.reports (snd (relayer.Exec deps env r rep cmd envv h))
        = history.reports h ++ [(rep, report)]
        /\ ibc.command report = cmd
        /\ ibc.err report = dockerutil.Err (fst (relayer.Exec deps env r rep cmd envv h))
        /\ ibc.startedAt report <= ibc.finishedAt report)
  /\ (fst (relayer.StopRelayer deps env r rep h) = None ->
      exists cj report,
        relayer.env_ContainerInspect env (h ++ history.stop_calls r) = inr cj
        /\ history.reports (snd (relayer.StopRelayer deps env r rep h))
           = history.reports h ++ [(rep, report)]
        /\ ibc.containerName report = docker.Name cj
        /\ ibc.command report = docker.Args cj
        /\ ibc.exitCode report = docker.ExitCode (docker.State cj)
        /\ ibc.err report = None
        /\ ibc.startedAt report <= ibc.finishedAt report).
Proof.
  intros Hmono Hepoch Hsane. split.
  - intros cmd envv.
    destruct (Exec_reports_once r rep cmd envv h)
      as (report & Hr & Hc & He & Hs & h' & Hf).
    exists report. repeat split; try assumption.
    rewrite Hs, Hf. apply Hmono.
  - intros Hnil.
    destruct (StopRelayer_nil r rep h Hnil)
      as (cj & report & Hi & Hr & Hn & Hc & Hx & He & Hs & Hf).
    exists cj, report. repeat split; try assumption.
    destruct (Hsane _ _ Hi) as (Hstart & Hfinish & Horder).
    rewrite Hs, Hf.
    destruct (relayer.time_Parse deps (docker.StartedAt (docker.State cj))
                gotime.RFC3339Nano) as [e1|ts] eqn:H1;
      destruct (relayer.time_Parse deps (docker.FinishedAt (docker.State cj))
                  gotime.RFC3339Nano) as [e2|tf] eqn:H2.
    + apply Hepoch.
    + apply Hfinish. reflexivity.
    + apply Hstart. reflexivity.
    + apply Horder; reflexivity.
Qed.

End Reports.

(** The assumptions of C2 hold in the sample world, where [StopRelayer]
    reports once, with a start that is not after the end. *)
Lemma C2_sample_world_reports_in_order :
  history.clock_monotone sample.env
  /\ history.clock_after_epoch sample.env
  /\ history.recorded_times_sane (relayer.time_Parse sample.deps) sample.env
  /\ exists report,
      history.reports
        (snd (relayer.StopRelayer sample.deps sample.env sample.rly sample.rep []))
      = [(sample.rep, report)]
      /\ ibc.startedAt report <= ibc.finishedAt report.
Proof.
  assert (Hm : history.clock_monotone sample.env).
  { intros h h'. simpl. rewrite length_app. lia. }
  assert (He : history.clock_after_epoch sample.env).
  { intros h. simpl. unfold sample.clock0. lia. }
  assert (Hs : history.recorded_times_sane (relayer.time_Parse sample.deps) sample.env).
  { intros h cj Hi. simpl in Hi. injection Hi as <-.
    repeat split; intros; vm_compute in H; discriminate. }
  split; [exact Hm|]. split; [exact He|]. split; [exact Hs|].
  destruct (C2_one_report_per_call_start_before_end sample.deps sample.env sample.rly
              sample.rep [] Hm He Hs) as (_ & Hstop).
  destruct (Hstop eq_refl) as (cj & report & Hrest).
  exists report. destruct Hrest as (_ & Hr & _ & _ & _ & _ & Hle).
  split; [exact Hr | exact Hle].
Defined.

(** C3. For a container whose recorded times are valid RFC3339Nano
    timestamps (they parse, as values of that layout, to 12:00:00.123456789
    and 12:05:00.5 of 2022-08-01), [StopRelayer] succeeds and reports the
    Unix epoch as the start and the time of the clock as the end: it calls
    [time.Parse] with the recorded time as the layout and [RFC3339Nano] as the
    value, which fails. *)
Theorem C3_StopRelayer_reports_sentinels_for_valid_times :
  gotime.parse gotime.RFC3339Nano (docker.StartedAt (docker.State sample.stopped))
  = gotime.Parsed 1659355200123456789
  /\ gotime.parse gotime.RFC3339Nano (docker.FinishedAt (docker.State sample.stopped))
     = gotime.Parsed 1659355500500000000
  /\ gotime.parse (docker.StartedAt (docker.State sample.stopped)) gotime.RFC3339Nano
     = gotime.Failed
  /\ gotime.parse (docker.FinishedAt (docker.State sample.stopped)) gotime.RFC3339Nano
     = gotime.Failed
  /\ fst (relayer.StopRelayer sample.deps sample.env sample.rly sample.rep []) = None
  /\ exists report,
      history.reports
        (snd (relayer.StopRelayer sample.deps sample.env sample.rly sample.rep []))
      = [(sample.rep, report)]
      /\ ibc.startedAt report = gotime.Unix_0_0
      /\ ibc.finishedAt report = sample.clock0 + 4.
Proof.
  repeat split; try (vm_compute; reflexivity).
  eexists. split; [vm_compute; reflexivity|]. split; vm_compute; reflexivity.
Qed.

(** ** Wallets *)

Section Wallets.

Variable deps : relayer.Deps.
Variable env : relayer.Env.

Lemma AddKey_eq r rep chainID keyName h :
  relayer.AddKey deps env r rep chainID keyName h
  = let cmd := RelayerCommander.AddKey (relayer.c r) chainID keyName (relayer.HomeDir r) in
    let run := relayer.Exec deps env r rep cmd [] h in
    (match dockerutil.Err (fst run) with
     | Some e => (ibc.RelayerWallet_zero, Some e, r)
     | None =>
       match RelayerCommander.ParseAddKeyOutput (relayer.c r)
               (string_of_list_byte (dockerutil.Stdout (fst run)))
               (string_of_list_byte (dockerutil.Stderr (fst run))) with
       | inl e => (ibc.RelayerWallet_zero, Some e, r)
       | inr w => (w, None, relayer.set_wallet chainID w r)
       end
     end, snd run).
Proof.
  unfold relayer.AddKey. unfold relayer.bind at 1.
  destruct (relayer.Exec _ _ _ _ _ _ _) as [res h'] eqn:E. cbn [fst snd].
  destruct (dockerutil.Err res); [reflexivity|].
  destruct (RelayerCommander.ParseAddKeyOutput _ _ _); reflexivity.
Qed.

Lemma RestoreKey_eq r rep chainID keyName mnemonic h :
  relayer.RestoreKey deps env r rep chainID keyName mnemonic h
  = let cmd := RelayerCommander.RestoreKey (relayer.c r) chainID keyName mnemonic
                 (relayer.HomeDir r) in
    let run := relayer.Exec deps env r rep cmd [] h in
    (match dockerutil.Err (fst run) with
     | Some e => (Some e, r)
     | None =>
       (None, relayer.set_wallet chainID
                {| ibc.Mnemonic := mnemonic;
                   ibc.Address := RelayerCommander.ParseRestoreKeyOutput (relayer.c r)
                     (string_of_list_byte (dockerutil.Stdout (fst run)))
                     (string_of_list_byte (dockerutil.Stderr (fst run))) |} r)
     end, snd run).
Proof.
  unfold relayer.RestoreKey. unfold relayer.bind at 1.
  destruct (relayer.Exec _ _ _ _ _ _ _) as [res h'] eqn:E. cbn [fst snd].
  destruct (dockerutil.Err res); reflexivity.
Qed.

(** A call stores a wallet for the chain ID it is counted for, and leaves
    the wallets as they are when it is counted for none. *)
Lemma step_wallets op r h :
  match snd (fst (session.step deps env op r h)) with
  | Some chainID =>
    exists w, relayer.wallets (fst (fst (session.step deps env op r h)))
              = <[chainID := w]> (relayer.wallets r)
  | None => relayer.wallets (fst (fst (session.step deps env op r h))) = relayer.wallets r
  end.
Proof.
  destruct op; cbn [session.step]; unfold relayer.bind.
  - destruct (relayer.Exec _ _ _ _ _ _ _). reflexivity.
  - destruct (relayer.AddChainConfiguration _ _ _ _ _ _ _ _ _). reflexivity.
  - rewrite AddKey_eq. cbn zeta. cbn [fst snd].
    destruct (dockerutil.Err _); [reflexivity|].
    destruct (RelayerCommander.ParseAddKeyOutput _ _ _) as [e|w]; [reflexivity|].
    cbn. eexists; reflexivity.
  - rewrite RestoreKey_eq. cbn zeta. cbn [fst snd].
    destruct (dockerutil.Err _); [reflexivity|].
    cbn. eexists; reflexivity.
  - unfold relayer.StartRelayer, relayer.createNodeContainer, relayer.bind,
      relayer.client_ContainerCreate, relayer.dockerutil_StartContainer,
      relayer.call, relayer.ret.
    cbn [fst snd]. destruct (relayer.env_ContainerCreate env _); reflexivity.
  - destruct (relayer.StopRelayer _ _ _ _ _). reflexivity.
Qed.

Lemma run_cons op ops r h :
  session.run deps env (op :: ops) r h
  = let s := session.step deps env op r h in
    let t := session.run deps env ops (fst (fst s)) (snd s) in
    ((fst (fst t), match snd (fst s) with
                   | Some chainID => chainID :: snd (fst t)
                   | None => snd (fst t)
                   end), snd t).
Proof.
  cbn [session.run]. unfold relayer.bind, relayer.ret.
  destruct (session.step deps env op r h) as [[r1 k] h1]. cbn [fst snd].
  destruct (session.run deps env ops r1 h1) as [[r2 ks] h2]. reflexivity.
Qed.

(** The wallet of a chain ID is as it was, after calls none of which is
    counted for it. *)
Lemma run_frame ops : forall r h chainID,
  chainID ∉ snd (fst (session.run deps env ops r h)) ->
  relayer.wallets (fst (fst (session.run deps env ops r h))) !! chainID
  = relayer.wallets r !! chainID.
Proof.
  induction ops as [|op ops IH]; intros r h chainID; [reflexivity|].
  rewrite run_cons. cbn zeta. cbn [fst snd].
  pose proof (step_wallets op r h) as Hstep.
  destruct (session.step deps env op r h) as [[r1 k] h1]. cbn [fst snd] in *.
  specialize (IH r1 h1 chainID).
  destruct (session.run deps env ops r1 h1) as [[r2 ks] h2]. cbn [fst snd] in *.
  destruct k as [id|]; intros Hnot.
  - rewrite not_elem_of_cons in Hnot. destruct Hnot as [Hne Hnot].
    rewrite (IH Hnot). destruct Hstep as [w ->].
    apply lookup_insert_ne. congruence.
  - rewrite (IH Hnot), Hstep. reflexivity.
Qed.

(** A chain ID has a wallet after the calls when it had one before or one of
    the calls is counted for it. *)
Lemma run_found ops : forall r h chainID,
  is_Some (relayer.wallets (fst (fst (session.run deps env ops r h))) !! chainID)
  <-> is_Some (relayer.wallets r !! chainID)
      \/ chainID ∈ snd (fst (session.run deps env ops r h)).
Proof.
  induction ops as [|op ops IH]; intros r h chainID.
  - cbn. split; [auto | intros [H | H]; [exact H | inversion H]].
  - rewrite run_cons. cbn zeta. cbn [fst snd].
    pose proof (step_wallets op r h) as Hstep.
    destruct (session.step deps env op r h) as [[r1 k] h1]. cbn [fst snd] in *.
    specialize (IH r1 h1 chainID).
    destruct (session.run deps env ops r1 h1) as [[r2 ks] h2]. cbn [fst snd] in *.
    rewrite IH. destruct k as [id|].
    + destruct Hstep as [w Hw]. rewrite Hw.
      rewrite elem_of_cons.
      destruct (decide (id = chainID)) as [->|Hne].
      * rewrite lookup_insert_eq. split; [intros _ | intros _; left; eauto].
        right. left. reflexivity.
      * rewrite lookup_insert_ne by exact Hne. split; intros [H | H]; auto.
        destruct H as [H | H]; [congruence | auto].
    + rewrite Hstep. reflexivity.
Qed.

(** What [NewDockerRelayer] returns has no wallet, and the test name, the
    commander and the network it was given. *)
Lemma NewDockerRelayer_fields testName networkID c options h r :
  fst (relayer.NewDockerRelayer deps env testName networkID c options h) = inr r ->
  relayer.wallets r = ∅ /\ relayer.testName r = testName /\ relayer.c r = c
  /\ relayer.networkID r = networkID.
Proof.
  unfold relayer.NewDockerRelayer.
  set (r0 := fold_left relayer.applyOption options _).
  assert (H0 : relayer.wallets r0 = ∅ /\ relayer.testName r0 = testName
               /\ relayer.c r0 = c /\ relayer.networkID r0 = networkID).
  { subst r0. generalize dependent options.
    intros opts.
    match goal with |- context [fold_left _ opts ?init] =>
      assert (Hi : relayer.wallets init = ∅ /\ relayer.testName init = testName
                   /\ relayer.c init = c /\ relayer.networkID init = networkID)
        by (repeat split);
      generalize dependent init end.
    induction opts as [|o opts IH]; intros init Hi; [exact Hi|].
    cbn. apply IH. destruct o; cbn; exact Hi. }
  clearbody r0.
  unfold relayer.bind, relayer.pullContainerImageIfNecessary, relayer.client_ImagePull,
    relayer.client_VolumeCreate, relayer.dockerutil_SetVolumeOwner, relayer.call, relayer.ret.
  destruct (negb (relayer.pullImage r0)); cbn [fst snd].
  all: repeat match goal with
       | |- context [match ?x with _ => _ end] =>
         match x with
         | relayer.env_error _ _ => destruct x eqn:?
         | relayer.env_VolumeCreate _ _ => destruct x eqn:?
         | (_ <? _)%nat => destruct x eqn:?
         end; cbn [fst snd]
       end; try discriminate.
  all: try (rewrite Exec_calls; cbn [fst snd];
            destruct (dockerutil.Err _); try discriminate).
  all: intros [= <-]; exact H0.
Qed.

Lemma GetWallet_lookup r chainID :
  relayer.GetWallet r chainID
  = match relayer.wallets r !! chainID with
    | Some w => (w, true)
    | None => (ibc.RelayerWallet_zero, false)
    end.
Proof. reflexivity. Qed.

(** C5. On a relayer made by [NewDockerRelayer], after any calls of its
    methods, [GetWallet] for a chain ID for which no [AddKey] or [RestoreKey]
    returned without error gives the zero wallet and found = false, and for a
    chain ID for which one did it gives found = true.  After an [AddKey] or a
    [RestoreKey] that returned no error, [GetWallet] gives the wallet stored
    by that call with found = true, until a later such call for the same chain
    ID. *)
Theorem C5_GetWallet_found_iff_key_stored
        testName networkID c options h r ops h' chainID :
  fst (relayer.NewDockerRelayer deps env testName networkID c options h) = inr r ->
  (chainID ∉ snd (fst (session.run deps env ops r h')) ->
   relayer.GetWallet (fst (fst (session.run deps env ops r h'))) chainID
   = (ibc.RelayerWallet_zero, false))
  /\ (chainID ∈ snd (fst (session.run deps env ops r h')) ->
      snd (relayer.GetWallet (fst (fst (session.run deps env ops r h'))) chainID) = true)
  /\ (forall r0 rep keyName h0 w r1,
         fst (relayer.AddKey deps env r0 rep chainID keyName h0) = (w, None, r1) ->
         forall later h1,
           chainID ∉ snd (fst (session.run deps env later r1 h1)) ->
           relayer.GetWallet (fst (fst (session.run deps env later r1 h1))) chainID
           = (w, true))
  /\ (forall r0 rep keyName mnemonic h0 r1,
         fst (relayer.RestoreKey deps env r0 rep chainID keyName mnemonic h0) = (None, r1) ->
         forall later h1,
           chainID ∉ snd (fst (session.run deps env later r1 h1)) ->
           relayer.GetWallet (fst (fst (session.run deps env later r1 h1))) chainID
           = ({| ibc.Mnemonic := mnemonic;
                 ibc.Address :=
                   RelayerCommander.ParseRestoreKeyOutput (relayer.c r0)
                     (fst (history.outputs
                             (history.restoreKeyRun deps env r0 rep chainID keyName
                                mnemonic h0)))
                     (snd (history.outputs
                             (history.restoreKeyRun deps env r0 rep chainID keyName
                                mnemonic h0))) |}, true)).
Proof.
  intros Hnew. apply NewDockerRelayer_fields in Hnew. destruct Hnew as (Hw & _).
  split; [|split; [|split]].
  - intros Hnot. rewrite GetWallet_lookup, (run_frame _ _ _ _ Hnot), Hw, lookup_empty.
    reflexivity.
  - intros Hin. rewrite GetWallet_lookup.
    destruct (proj2 (run_found ops r h' chainID) (or_intror Hin)) as [w ->].
    reflexivity.
  - intros r0 rep keyName h0 w r1 Hadd later h1 Hnot.
    rewrite GetWallet_lookup, (run_frame _ _ _ _ Hnot).
    rewrite AddKey_eq in Hadd. cbn zeta in Hadd. cbn [fst] in Hadd.
    destruct (dockerutil.Err _); [discriminate|].
    destruct (RelayerCommander.ParseAddKeyOutput _ _ _) as [e|w']; [discriminate|].
    injection Hadd as <- <-. cbn. rewrite lookup_insert_eq. reflexivity.
  - intros r0 rep keyName mnemonic h0 r1 Hres later h1 Hnot.
    rewrite GetWallet_lookup, (run_frame _ _ _ _ Hnot).
    rewrite RestoreKey_eq in Hres. cbn zeta in Hres. cbn [fst] in Hres.
    unfold history.outputs, history.restoreKeyRun. cbn [fst snd].
    destruct (dockerutil.Err _); [discriminate|].
    injection Hres as <-. cbn. rewrite lookup_insert_eq. reflexivity.
Qed.

(** C10. [AddKey] returns the zero wallet and the error of the run, or of
    [ParseAddKeyOutput] when the run gave none, and [RestoreKey] returns the
    error of the run; a call that returns an error leaves the relayer, its
    wallets among it, as it was, so [GetWallet] answers after it as it did
    before. *)
Theorem C10_failed_key_call_keeps_wallets r rep chainID keyName mnemonic h :
  (forall e, dockerutil.Err (history.addKeyRun deps env r rep chainID keyName h) = Some e ->
             fst (relayer.AddKey deps env r rep chainID keyName h)
             = (ibc.RelayerWallet_zero, Some e, r))
  /\ (forall e,
         dockerutil.Err (history.addKeyRun deps env r rep chainID keyName h) = None ->
         RelayerCommander.ParseAddKeyOutput (relayer.c r)
           (fst (history.outputs (history.addKeyRun deps env r rep chainID keyName h)))
           (snd (history.outputs (history.addKeyRun deps env r rep chainID keyName h)))
         = inl e ->
         fst (relayer.AddKey deps env r rep chainID keyName h)
         = (ibc.RelayerWallet_zero, Some e, r))
  /\ (forall w e r',
         fst (relayer.AddKey deps env r rep chainID keyName h) = (w, Some e, r') ->
         w = ibc.RelayerWallet_zero /\ r' = r
         /\ forall id, relayer.GetWallet r' id = relayer.GetWallet r id)
  /\ (forall e,
         dockerutil.Err (history.restoreKeyRun deps env r rep chainID keyName mnemonic h)
         = Some e ->
         fst (relayer.RestoreKey deps env r rep chainID keyName mnemonic h) = (Some e, r))
  /\ (forall e r',
         fst (relayer.RestoreKey deps env r rep chainID keyName mnemonic h) = (Some e, r') ->
         r' = r /\ forall id, relayer.GetWallet r' id = relayer.GetWallet r id).
Proof.
  unfold history.addKeyRun, history.restoreKeyRun, history.outputs.
  rewrite AddKey_eq, RestoreKey_eq. cbn zeta. cbn [fst snd].
  split; [|split; [|split; [|split]]].
  - intros e ->. reflexivity.
  - intros e -> ->. reflexivity.
  - intros w e r'.
    destruct (dockerutil.Err _).
    + intros [= <- <- <-]. auto.
    + destruct (RelayerCommander.ParseAddKeyOutput _ _ _); [|discriminate].
      intros [= <- <- <-]. auto.
  - intros e ->. reflexivity.
  - intros e r'. destruct (dockerutil.Err _); [|discriminate].
    intros [= <- <-]. auto.
Qed.

End Wallets.

(** In the sample world [NewDockerRelayer] succeeds, and after an [AddKey]
    for chain-a that succeeds, [GetWallet] finds no wallet for chain-b. *)
Lemma C5_sample_other_chain_not_found :
  (fst (relayer.NewDockerRelayer sample.deps sample.env "TestRelayer" "network-1"
          sample.commander [] []) = inr sample.fresh)
  /\ ("chain-b" ∉ snd (fst (session.run sample.deps sample.env
                              [session.OpAddKey sample.rep "chain-a" "key-a"]
                              sample.fresh [])))
  /\ relayer.GetWallet
       (fst (fst (session.run sample.deps sample.env
                    [session.OpAddKey sample.rep "chain-a" "key-a"] sample.fresh [])))
       "chain-b"
     = (ibc.RelayerWallet_zero, false).
Proof.
  assert (Hnew : fst (relayer.NewDockerRelayer sample.deps sample.env "TestRelayer"
                        "network-1" sample.commander [] []) = inr sample.fresh)
    by (vm_compute; reflexivity).
  assert (Hnot : "chain-b" ∉ snd (fst (session.run sample.deps sample.env
                             [session.OpAddKey sample.rep "chain-a" "key-a"]
                             sample.fresh []))).
  { vm_compute. intros H. apply list_elem_of_singleton in H. discriminate. }
  split; [exact Hnew|]. split; [exact Hnot|].
  exact (proj1 (C5_GetWallet_found_iff_key_stored sample.deps sample.env _ _ _ _ _ _
                  [session.OpAddKey sample.rep "chain-a" "key-a"] [] "chain-b" Hnew) Hnot).
Defined.

(** ** The configuration archive *)

Lemma HasSuffix_config (chainID : string) :
  strings.HasSuffix (chainID ++ ".config")%string "/" = false.
Proof.
  unfold strings.HasSuffix. cbv zeta.
  assert (Hlen : forall s : string, String.length (s ++ ".config")%string
                                    = (String.length s + 7)%nat).
  { induction s as [|a s IH]; [reflexivity|].
    change (String.length (String a (s ++ ".config")%string)
            = S (String.length s + 7)).
    cbn [String.length]. rewrite IH. reflexivity. }
  rewrite Hlen. cbn [String.length].
  replace (String.length chainID + 7 - 1)%nat with (String.length chainID + 6)%nat by lia.
  assert (Hsub : forall s : string,
             String.substring (String.length s + 6) 1 (s ++ ".config")%string = "g"%string).
  { induction s as [|a s IH]; [reflexivity|].
    change (String.substring (S (String.length s + 6)) 1
              (String a (s ++ ".config")%string) = "g"%string).
    cbn [String.substring]. exact IH. }
  rewrite Hsub. apply andb_false_r.
Qed.

Section Archive.

Variable env : relayer.Env.

(** The archive that [generateConfigTar] writes for the name of a file. *)
Lemma generateConfigTar_file r path content h :
  tar.hasNUL path = false ->
  tar.hasNUL (RelayerCommander.DockerUser (relayer.c r)) = false ->
  strings.HasSuffix path "/" = false ->
  fst (relayer.generateConfigTar env r path content h)
  = inr {| tar.members :=
             [ {| tar.hdr := {| tar.Typeflag := tar.TypeReg;
                                tar.Name := path;
                                tar.Size := Z.of_nat (length content);
                                tar.Mode := 384;
                                tar.Uname := RelayerCommander.DockerUser (relayer.c r);
                                tar.ModTime := relayer.env_Now env (h ++ [relayer.EvTimeNow]);
                                tar.Format_ := tar.FormatPAX |};
                  tar.data := content |} ];
           tar.trailer := true |}.
Proof.
  intros Hp Hu Hs.
  unfold relayer.generateConfigTar, relayer.bind, relayer.time_Now, relayer.call, relayer.ret.
  cbn [fst snd].
  unfold tar.WriteHeader. cbn [tar.Flush tar.NewWriter tar.err tar.nb tar.Typeflag tar.Name
    tar.Size tar.Mode tar.Uname tar.ModTime tar.Format_ tar.finished tar.cur tar.done_ tar.closed].
  cbn [Z.ltb Z.compare Z.eqb tar.TypeRegA].
  rewrite Hs.
  unfold tar.allowedPAX. cbn [tar.Typeflag tar.Name tar.Size tar.Uname].
  rewrite Hp, Hu.
  change (tar.isHeaderOnlyType tar.TypeReg) with false.
  cbn [negb andb orb].
  destruct (Z.ltb_spec (Z.of_nat (length content)) 0) as [Hneg|_]; [lia|].
  unfold tar.Write. cbn [tar.err tar.nb tar.cur tar.done_ tar.closed tar.hdr tar.data].
  rewrite Z.ltb_irrefl.
  unfold tar.Close. cbn [tar.err].
  unfold tar.Flush. cbn [tar.err tar.nb tar.cur tar.done_ tar.closed].
  rewrite Z.sub_diag. cbn [Z.ltb Z.compare].
  reflexivity.
Qed.


(** C6. For a path that names a file (it does not end in a slash and holds
    no NUL, as the user name holds none), [generateConfigTar] gives an archive
    of exactly one member: a regular file with the path as its name, mode
    0600 (384), the Docker user of the commander as owner name, the length of
    the content as size, and the content itself. *)
Theorem C6_generateConfigTar_one_member r path content h :
  tar.hasNUL path = false ->
  tar.hasNUL (RelayerCommander.DockerUser (relayer.c r)) = false ->
  strings.HasSuffix path "/" = false ->
  fst (relayer.generateConfigTar env r path content h)
  = inr {| tar.members :=
             [ {| tar.hdr := {| tar.Typeflag := tar.TypeReg;
                                tar.Name := path;
                                tar.Size := Z.of_nat (length content);
                                tar.Mode := 384;
                                tar.Uname := RelayerCommander.DockerUser (relayer.c r);
                                tar.ModTime := relayer.env_Now env (h ++ [relayer.EvTimeNow]);
                                tar.Format_ := tar.FormatPAX |};
                  tar.data := content |} ];
           tar.trailer := true |}.
Proof. exact (generateConfigTar_file r path content h). Qed.

End Archive.

(** The path that [AddChainConfiguration] passes is the chain ID and
    ".config", which does not end in a slash: for it the archive of C6 comes
    out whenever the chain ID and the user name hold no NUL. *)
Lemma generateConfigTar_of_chain env r chainID content h :
  tar.hasNUL (chainID ++ ".config")%string = false ->
  tar.hasNUL (RelayerCommander.DockerUser (relayer.c r)) = false ->
  exists archive,
    fst (relayer.generateConfigTar env r (chainID ++ ".config")%string content h) = inr archive
    /\ map tar.data (tar.members archive) = [content].
Proof.
  intros Hp Hu. eexists. split.
  - apply generateConfigTar_file; [exact Hp | exact Hu | apply HasSuffix_config].
  - reflexivity.
Qed.

(** A name that ends in a slash makes a directory of the member, which takes
    no content: the archive is not made. *)
Example generateConfigTar_directory_name :
  fst (relayer.generateConfigTar sample.env sample.rly "configs/" sample.config [])
  = inl (Wrap "writing config content to tar" TarErrWriteTooLong).
Proof. vm_compute. reflexivity. Qed.

(** In the sample world the archive of chain-a.config holds the content. *)
Lemma C6_sample_archive :
  tar.hasNUL "chain-a.config" = false
  /\ tar.hasNUL (RelayerCommander.DockerUser (relayer.c sample.rly)) = false
  /\ strings.HasSuffix "chain-a.config" "/" = false
  /\ fst (relayer.generateConfigTar sample.env sample.rly "chain-a.config" sample.config [])
     = inr sample.archive.
Proof.
  split; [reflexivity|]. split; [reflexivity|]. split; [reflexivity|].
  exact (C6_generateConfigTar_one_member sample.env sample.rly "chain-a.config"
           sample.config [] eq_refl eq_refl eq_refl).
Defined.

(** ** One-off containers *)

Section OneOff.

Variable deps : relayer.Deps.
Variable env : relayer.Env.

Lemma made_app {A} (m : relayer.M A) h evs :
  snd (m h) = h ++ evs -> history.made m h = evs.
Proof. unfold history.made. intros ->. apply drop_app_length. Qed.

Ltac flat := repeat (first [rewrite <- !app_assoc | progress cbn [app fst snd]]).

Lemma runOneOff_eq r opts h :
  relayer.runOneOff deps env r opts h
  = match relayer.env_ContainerCreate env (history.oneOff_created deps env r opts h) with
    | inl e =>
      (Some (Wrap ("creating container for " ++ relayer.ContainerNameDetail opts)%string e),
       history.oneOff_created deps env r opts h)
    | inr id =>
      let removed (h' : relayer.History) := h' ++ [relayer.EvContainerRemove id true false] in
      match relayer.TarContent opts,
            relayer.env_error env (history.oneOff_copied deps env r opts h id) with
      | Some _, Some e =>
        (Some (Wrap ("copying tar to one-off " ++ relayer.ContainerNameDetail opts
                     ++ " container")%string e),
         removed (history.oneOff_copied deps env r opts h id))
      | _, _ =>
        match relayer.env_error env (history.oneOff_started deps env r opts h id) with
        | Some e =>
          (Some (Wrap ("starting one-off " ++ relayer.ContainerNameDetail opts
                       ++ " container")%string e),
           removed (history.oneOff_started deps env r opts h id))
        | None =>
          (match relayer.env_ContainerWait env
                   (history.oneOff_waiting deps env r opts h id) with
           | docker.CtxDone =>
             relayer.env_ctx_Err env (history.oneOff_waiting deps env r opts h id)
           | docker.FromErrCh e => e
           | docker.FromWaitCh w =>
             match docker.Error w with
             | Some msg =>
               Some (Errorf ("waiting for one-off " ++ relayer.ContainerNameDetail opts
                             ++ " container: " ++ msg)%string)
             | None => None
             end
           end,
           removed (history.oneOff_waiting deps env r opts h id))
        end
      end
    end.
Proof.
  unfold relayer.runOneOff, relayer.bind, relayer.dockerutil_RandLowerCaseLetterString,
    relayer.client_ContainerCreate, relayer.client_CopyToContainer,
    relayer.client_ContainerStart, relayer.client_ContainerWait,
    relayer.client_ContainerRemove, relayer.ctx_Err, relayer.call, relayer.peek, relayer.ret,
    history.oneOff_waiting, history.oneOff_started, history.oneOff_copied,
    history.oneOff_created.
  cbn zeta. flat.
  destruct (relayer.env_ContainerCreate env _) as [e|id]; [reflexivity|].
  destruct (relayer.TarContent opts) as [content|]; flat.
  - destruct (relayer.env_error env (h ++ [_; _; relayer.EvCopyToContainer _ _ _])) as [e|];
      flat; [reflexivity|].
    destruct (relayer.env_error env (h ++ [_; _; _; relayer.EvContainerStart _])) as [e|];
      flat; [reflexivity|].
    destruct (relayer.env_ContainerWait env _) as [|e|w]; flat; try reflexivity.
    destruct (docker.Error w); flat; reflexivity.
  - destruct (relayer.env_error env (h ++ [_; _; relayer.EvContainerStart _])) as [e|] eqn:E;
      flat; [reflexivity|].
    destruct (relayer.env_ContainerWait env _) as [|e|w]; flat; try reflexivity.
    destruct (docker.Error w); flat; reflexivity.
Qed.

(** C8. When the one-off container was created and started, and the context
    is done while [runOneOff] waits for the container, [runOneOff] returns
    [ctx.Err()]: no wait result is looked at, and the only call that follows
    the wait is the deferred removal of the container. *)
Theorem C8_runOneOff_canceled_returns_ctx_Err r opts h id :
  relayer.env_ContainerCreate env (history.oneOff_created deps env r opts h) = inr id ->
  (relayer.TarContent opts <> None ->
   relayer.env_error env (history.oneOff_copied deps env r opts h id) = None) ->
  relayer.env_error env (history.oneOff_started deps env r opts h id) = None ->
  relayer.env_ContainerWait env (history.oneOff_waiting deps env r opts h id) = docker.CtxDone ->
  fst (relayer.runOneOff deps env r opts h)
  = relayer.env_ctx_Err env (history.oneOff_waiting deps env r opts h id)
  /\ snd (relayer.runOneOff deps env r opts h)
     = history.oneOff_waiting deps env r opts h id ++ [relayer.EvContainerRemove id true false].
Proof.
  intros Hcreate Hcopy Hstart Hwait.
  rewrite runOneOff_eq, Hcreate. cbn zeta.
  rewrite Hstart, Hwait.
  destruct (relayer.TarContent opts) as [content|]; [|split; reflexivity].
  rewrite Hcopy by discriminate. split; reflexivity.
Qed.

End OneOff.

(** In the sample world the archive is copied, then the container starts. *)
Example runOneOff_sample_history :
  exists cfg name,
    snd (relayer.runOneOff sample.deps sample.env sample.rly sample.untar [])
    = [relayer.EvRandLowerCaseLetterString 5;
       relayer.EvContainerCreate cfg (relayer.hostConfig sample.rly) None name;
       relayer.EvCopyToContainer "container-1" "/var/relayer-rly" sample.archive;
       relayer.EvContainerStart "container-1";
       relayer.EvContainerWait "container-1";
       relayer.EvContainerRemove "container-1" true false].
Proof. do 2 eexists. vm_compute. reflexivity. Qed.


Lemma C8_sample_canceled_wait :
  fst (relayer.runOneOff sample.deps sample.canceled sample.rly sample.untar [])
  = Some ContextCanceled.
Proof.
  refine (proj1 (C8_runOneOff_canceled_returns_ctx_Err sample.deps sample.canceled
                   sample.rly sample.untar [] "container-1" _ _ _ _)).
  - reflexivity.
  - intros _. reflexivity.
  - reflexivity.
  - reflexivity.
Defined.

(** ** Cleanup labels *)

Section Labels.

Variable deps : relayer.Deps.
Variable env : relayer.Env.

Ltac flat := repeat (first [rewrite <- !app_assoc | progress cbn [app fst snd]]).

Ltac members :=
  intros ev labels Hin Hl;
  repeat (apply elem_of_cons in Hin; destruct Hin as [-> | Hin];
          [cbn in Hl; try discriminate; try (injection Hl as <-; reflexivity)|]);
  try (inversion Hin; fail).

Lemma NewDockerRelayer_labelled testName networkID c options h :
  exists evs,
    snd (relayer.NewDockerRelayer deps env testName networkID c options h) = h ++ evs
    /\ history.labelled deps testName evs
    /\ forall r, fst (relayer.NewDockerRelayer deps env testName networkID c options h) = inr r ->
                 relayer.EvVolumeCreate {[ relayer.CleanupLabel deps := testName ]} ∈ evs.
Proof.
  unfold relayer.NewDockerRelayer.
  set (r0 := fold_left relayer.applyOption options _).
  clearbody r0.
  unfold relayer.bind, relayer.pullContainerImageIfNecessary, relayer.client_ImagePull,
    relayer.client_VolumeCreate, relayer.dockerutil_SetVolumeOwner, relayer.call, relayer.ret.
  destruct (negb (relayer.pullImage r0)); cbn [fst snd].
  all: repeat match goal with
       | |- context [match ?x with _ => _ end] =>
         match x with
         | relayer.env_error _ _ => destruct x eqn:?
         | relayer.env_VolumeCreate _ _ => destruct x eqn:?
         | (_ <? _)%nat => destruct x eqn:?
         end; cbn [fst snd]
       end.
  all: try (rewrite Exec_calls; cbn [fst snd]; destruct (dockerutil.Err _)).
  all: cbn [fst snd]; flat.
  all: try (exists []; rewrite app_nil_r; split; [reflexivity|]; split;
            [intros ev labels Hin; inversion Hin | intros r; discriminate]).
  all: eexists; (split; [reflexivity|]); split; [members | intros r Hr; try discriminate].
  all: repeat (first [apply list_elem_of_here | apply list_elem_of_further]).
Qed.

Lemma createNodeContainer_labelled r pathName h :
  exists evs,
    snd (relayer.createNodeContainer deps env r pathName h) = h ++ evs
    /\ history.labelled deps (relayer.testName r) evs
    /\ exists cfg hc net name,
         evs !! 0%nat = Some (relayer.EvContainerCreate cfg hc net name)
         /\ docker.Labels cfg = {[ relayer.CleanupLabel deps := relayer.testName r ]}.
Proof.
  unfold relayer.createNodeContainer, relayer.bind, relayer.client_ContainerCreate,
    relayer.dockerutil_StartContainer, relayer.call, relayer.ret.
  cbn zeta. cbn [fst snd].
  destruct (relayer.env_ContainerCreate env _) as [e|id]; cbn [fst snd]; flat.
  all: eexists; (split; [reflexivity|]); split; [members|].
  all: do 4 eexists; split; reflexivity.
Qed.

Lemma runOneOff_labelled r opts h :
  exists evs,
    snd (relayer.runOneOff deps env r opts h) = h ++ evs
    /\ history.labelled deps (relayer.testName r) evs
    /\ exists cfg hc net name,
         evs !! 1%nat = Some (relayer.EvContainerCreate cfg hc net name)
         /\ docker.Labels cfg = {[ relayer.CleanupLabel deps := relayer.testName r ]}.
Proof.
  rewrite runOneOff_eq.
  unfold history.oneOff_waiting, history.oneOff_started, history.oneOff_copied,
    history.oneOff_created.
  cbn zeta.
  destruct (relayer.env_ContainerCreate env _) as [e|id].
  { cbn [snd]. eexists. split; [reflexivity|]. split; [members|].
    do 4 eexists; split; reflexivity. }
  destruct (relayer.TarContent opts) as [content|].
  - destruct (relayer.env_error env _) as [e|].
    { cbn [snd]. flat. eexists. split; [reflexivity|]. split; [members|].
      do 4 eexists; split; reflexivity. }
    destruct (relayer.env_error env _) as [e|].
    all: cbn [snd]; flat; eexists; (split; [reflexivity|]); split; [members|].
    all: do 4 eexists; split; reflexivity.
  - destruct (relayer.env_error env _) as [e|].
    all: cbn [snd]; flat; eexists; (split; [reflexivity|]); split; [members|].
    all: do 4 eexists; split; reflexivity.
Qed.

(** C9. The volume that [NewDockerRelayer] creates, the container that
    [createNodeContainer] creates and the container that [runOneOff] creates
    are each created with the cleanup label set to the test name: the name
    given to [NewDockerRelayer], which is the test name of the relayer it
    returns. *)
Theorem C9_created_resources_carry_cleanup_label :
  (forall testName networkID c options h,
      exists evs,
        snd (relayer.NewDockerRelayer deps env testName networkID c options h) = h ++ evs
        /\ history.labelled deps testName evs
        /\ forall r,
            fst (relayer.NewDockerRelayer deps env testName networkID c options h) = inr r ->
            relayer.testName r = testName
            /\ relayer.EvVolumeCreate {[ relayer.CleanupLabel deps := testName ]} ∈ evs)
  /\ (forall r pathName h,
         exists evs,
           snd (relayer.createNodeContainer deps env r pathName h) = h ++ evs
           /\ history.labelled deps (relayer.testName r) evs
           /\ exists cfg hc net name,
               evs !! 0%nat = Some (relayer.EvContainerCreate cfg hc net name)
               /\ docker.Labels cfg = {[ relayer.CleanupLabel deps := relayer.testName r ]})
  /\ (forall r opts h,
         exists evs,
           snd (relayer.runOneOff deps env r opts h) = h ++ evs
           /\ history.labelled deps (relayer.testName r) evs
           /\ exists cfg hc net name,
               evs !! 1%nat = Some (relayer.EvContainerCreate cfg hc net name)
               /\ docker.Labels cfg = {[ relayer.CleanupLabel deps := relayer.testName r ]}).
Proof.
  split; [|split].
  - intros testName networkID c options h.
    destruct (NewDockerRelayer_labelled testName networkID c options h)
      as (evs & Hsnd & Hlab & Hvol).
    exists evs. split; [exact Hsnd|]. split; [exact Hlab|].
    intros r Hr. split; [|exact (Hvol r Hr)].
    exact (proj1 (proj2 (NewDockerRelayer_fields deps env testName networkID c options h r Hr))).
  - exact createNodeContainer_labelled.
  - exact runOneOff_labelled.
Qed.

End Labels.

(** * Further properties *)

Ltac flat := repeat (first [rewrite <- !app_assoc | progress cbn [app fst snd]]).

(** Membership in a list that is written out. *)
Ltac each_member Hin :=
  repeat (apply elem_of_cons in Hin; destruct Hin as [-> | Hin]);
  [.. | inversion Hin].

(** ** Orders and channel options *)

(** X1. [Order.String] and [Order.Validate] agree: an order is valid exactly
    when its name is not "invalid"; the valid orders are [Ordered], named
    "ordered", and [Unordered], named "unordered"; and a valid order is told
    from any other order by its name. *)
Theorem Order_String_names_valid_orders :
  (forall o, ibc.Order_Validate o = None <-> ibc.Order_String o <> "invalid"%string)
  /\ (forall o, ibc.Order_Validate o = None ->
                o = ibc.Ordered /\ ibc.Order_String o = "ordered"%string
                \/ o = ibc.Unordered /\ ibc.Order_String o = "unordered"%string)
  /\ (forall o1 o2, ibc.Order_Validate o1 = None ->
                    ibc.Order_String o1 = ibc.Order_String o2 -> o1 = o2).
Proof.
  assert (Hs : forall o, ibc.Order_String o
                         = if o =? 2 then "unordered"%string
                           else if o =? 1 then "ordered"%string else "invalid"%string)
    by reflexivity.
  assert (Hv : forall o, ibc.Order_Validate o
                         = if (o =? 1) || (o =? 2) then None
                           else Some ErrInvalidChannelOrdering) by reflexivity.
  split; [|split].
  - intros o. rewrite Hs, Hv.
    destruct (Z.eqb_spec o 2), (Z.eqb_spec o 1); cbn; split; congruence.
  - intros o. rewrite Hs, Hv. unfold ibc.Ordered, ibc.Unordered.
    destruct (Z.eqb_spec o 2), (Z.eqb_spec o 1); cbn; intros H; try discriminate; auto.
  - intros o1 o2. rewrite !Hs, Hv.
    destruct (Z.eqb_spec o1 2), (Z.eqb_spec o1 1), (Z.eqb_spec o2 2), (Z.eqb_spec o2 1);
      cbn; intros H1 H2; try discriminate; congruence.
Qed.

(** X2. [Validate] gives the same answer, error included, for the options
    of a channel and for the options with the two port names exchanged:
    whichever port name fails the check, the error is [ErrInvalidPort]. *)
Theorem Validate_symmetric_in_ports (check : string -> option error)
        (opts : ibc.CreateChannelOptions) :
  ibc.Validate check
    {| ibc.SourcePortName := ibc.DestPortName opts;
       ibc.DestPortName := ibc.SourcePortName opts;
       ibc.Order_ := ibc.Order_ opts;
       ibc.Version := ibc.Version opts |}
  = ibc.Validate check opts.
Proof.
  unfold ibc.Validate. cbn [ibc.SourcePortName ibc.DestPortName ibc.Order_ ibc.Version].
  destruct (check (ibc.SourcePortName opts)), (check (ibc.DestPortName opts)); reflexivity.
Qed.

(** ** The constructor *)

Lemma fold_applyOption_snoc options o r :
  fold_left relayer.applyOption (options ++ [o]) r
  = relayer.applyOption (fold_left relayer.applyOption options r) o.
Proof. apply fold_left_app. Qed.

Lemma fold_pullImage options r :
  relayer.pullImage (fold_left relayer.applyOption options r)
  = default (relayer.pullImage r) (last (calls.pull_options options)).
Proof.
  induction options as [|o options IH] using rev_ind; [reflexivity|].
  rewrite fold_applyOption_snoc. unfold calls.pull_options in *. rewrite omap_app.
  destruct o; cbn [omap relayer.applyOption].
  - rewrite app_nil_r. exact IH.
  - cbn. rewrite last_snoc. reflexivity.
  - rewrite app_nil_r. exact IH.
Qed.

Lemma fold_customImage options r :
  relayer.customImage (fold_left relayer.applyOption options r)
  = match last (calls.image_options options) with
    | Some i => Some i
    | None => relayer.customImage r
    end.
Proof.
  induction options as [|o options IH] using rev_ind; [reflexivity|].
  rewrite fold_applyOption_snoc. unfold calls.image_options in *. rewrite omap_app.
  destruct o; cbn [omap relayer.applyOption].
  - cbn. rewrite last_snoc. reflexivity.
  - rewrite app_nil_r. exact IH.
  - rewrite app_nil_r. exact IH.
Qed.

Lemma fold_fields options : forall r,
  relayer.c (fold_left relayer.applyOption options r) = relayer.c r
  /\ relayer.networkID (fold_left relayer.applyOption options r) = relayer.networkID r
  /\ relayer.volumeName (fold_left relayer.applyOption options r) = relayer.volumeName r
  /\ relayer.testName (fold_left relayer.applyOption options r) = relayer.testName r
  /\ relayer.containerID (fold_left relayer.applyOption options r) = relayer.containerID r.
Proof.
  induction options as [|o options IH]; intros r; [repeat split|].
  cbn [fold_left]. destruct (IH (relayer.applyOption r o)) as (-> & -> & -> & -> & ->).
  destruct o; repeat split.
Qed.

Section Constructor.
Variable deps : relayer.Deps.
Variable env : relayer.Env.

(** The relayer before the calls of [NewDockerRelayer]. *)
Lemma configured testName networkID c options :
  exists r0,
    fold_left relayer.applyOption options
      {| relayer.c := c; relayer.networkID := networkID; relayer.volumeName := "";
         relayer.testName := testName; relayer.customImage := None;
         relayer.pullImage := true; relayer.containerID := ""; relayer.wallets := ∅ |} = r0
    /\ relayer.pullImage r0 = default true (last (calls.pull_options options))
    /\ relayer.containerImage r0 = calls.image_of c options
    /\ relayer.c r0 = c /\ relayer.networkID r0 = networkID
    /\ relayer.testName r0 = testName /\ relayer.containerID r0 = ""%string.
Proof.
  eexists. split; [reflexivity|].
  split; [apply fold_pullImage|].
  match goal with |- context [fold_left _ _ ?i] => destruct (fold_fields options i)
    as (Hc & Hn & _ & Ht & Hi) end.
  split.
  { unfold relayer.containerImage, calls.image_of. rewrite fold_customImage, Hc.
    destruct (last _); reflexivity. }
  auto.
Qed.

Ltac new_cases r0 :=
  unfold relayer.bind, relayer.pullContainerImageIfNecessary, relayer.client_ImagePull,
    relayer.client_VolumeCreate, relayer.dockerutil_SetVolumeOwner, relayer.call, relayer.ret;
  destruct (relayer.pullImage r0) eqn:Hpulls; cbn [negb fst snd];
  repeat match goal with
         | |- context [match ?x with _ => _ end] =>
           match x with
           | relayer.env_error _ _ => destruct x eqn:?
           | relayer.env_VolumeCreate _ _ => destruct x eqn:?
           | (_ <? length ?i)%nat => destruct i eqn:?
           | length ?i => destruct i eqn:?
           end; cbn [fst snd length Nat.ltb Nat.leb]
         end;
  try (rewrite Exec_calls; cbn [fst snd]; destruct (dockerutil.Err _) eqn:?);
  cbn [fst snd]; flat.

(** X3. Of the options of [NewDockerRelayer], the last image given is the
    image of the relayer (the default of the commander when none is given),
    and the last [RelayerOptionImagePull] decides whether the image is pulled
    (it is when none is given): the pull, if any, is the first call, of the
    reference of that image, and there is no other pull. *)
Theorem NewDockerRelayer_last_option_decides testName networkID c options h :
  exists evs,
    snd (relayer.NewDockerRelayer deps env testName networkID c options h) = h ++ evs
    /\ calls.pulls evs
       = (if default true (last (calls.pull_options options))
          then [relayer.DockerImage_Ref deps (calls.image_of c options)] else [])
    /\ (default true (last (calls.pull_options options)) = true ->
        evs !! 0%nat
        = Some (relayer.EvImagePull (relayer.DockerImage_Ref deps (calls.image_of c options))))
    /\ forall r,
        fst (relayer.NewDockerRelayer deps env testName networkID c options h) = inr r ->
        relayer.containerImage r = calls.image_of c options
        /\ relayer.pullImage r = default true (last (calls.pull_options options)).
Proof.
  unfold relayer.NewDockerRelayer.
  destruct (configured testName networkID c options)
    as (r0 & -> & Hpull & Himg & Hc & _ & _ & _).
  rewrite <- Hpull, <- Himg, <- Hc. clear Hpull Himg Hc.
  new_cases r0.
  all: eexists.
  all: split; [reflexivity|].
  all: split; [reflexivity|].
  all: split; [first [reflexivity | discriminate]|].
  all: intros r; try discriminate.
  all: intros [= <-]; split; [reflexivity | exact Hpulls].
Qed.


(** X4. A [NewDockerRelayer] that fails has stopped at the step that failed:
    after a failed pull nothing else is called; after a failed
    [VolumeCreate] the owner of no volume is set; after a failed
    [SetVolumeOwner] no command is run; and the error of the [Init] command
    is returned as it is, not wrapped, and reported to the no-op reporter
    only. *)
Theorem NewDockerRelayer_failure_stops_at_the_step testName networkID c options h e :
  fst (relayer.NewDockerRelayer deps env testName networkID c options h) = inl e ->
  exists evs,
    snd (relayer.NewDockerRelayer deps env testName networkID c options h) = h ++ evs
    /\ ((exists e0,
            e = Wrap ("pulling container image "
                      ++ relayer.DockerImage_Ref deps (calls.image_of c options))%string e0
            /\ evs = [relayer.EvImagePull
                        (relayer.DockerImage_Ref deps (calls.image_of c options))])
        \/ (exists e0,
               e = Wrap "creating volume" e0
               /\ last evs
                  = Some (relayer.EvVolumeCreate {[ relayer.CleanupLabel deps := testName ]})
               /\ calls.owners evs = [])
        \/ (exists e0 o,
               e = Wrap "set volume owner" e0
               /\ last evs = Some (relayer.EvSetVolumeOwner o)
               /\ calls.jobs evs = [])
        \/ (exists report,
               history.reports evs = [(ibc.NopRelayerExecReporter, report)]
               /\ ibc.err report = Some e
               /\ ibc.command report
                  = RelayerCommander.Init c ("/var/relayer-" ++ RelayerCommander.Name c)%string
               /\ ibc.command report <> [])).
Proof.
  unfold relayer.NewDockerRelayer.
  destruct (configured testName networkID c options)
    as (r0 & -> & _ & Himg & Hc & _ & _ & _).
  rewrite <- Himg, <- Hc. clear Himg Hc.
  new_cases r0.
  all: try discriminate.
  all: intros [= <-]; eexists; (split; [reflexivity|]).
  all: first
         [ solve [left; eexists; split; reflexivity]
         | solve [right; left; eexists; split; [reflexivity|]; split; reflexivity]
         | solve [right; right; left; do 2 eexists; split; [reflexivity|]; split; reflexivity]
         | right; right; right ].
  all: eexists; split; [reflexivity|]; cbn; split; [reflexivity|].
  all: split; [|discriminate].
  all: match goal with H : RelayerCommander.Init _ _ = _ |- _ => exact (eq_sym H) end.
Qed.

(** X5. The relayer that [NewDockerRelayer] returns holds the name of the
    volume that [VolumeCreate] answered; [SetVolumeOwner] was called once, on
    that volume, with the reference of the relayer's image and the test name;
    no container is recorded yet; the [Init] command, when the commander has
    one, was run once as a job of the relayer with the volume bound; and
    nothing was reported but to the no-op reporter. *)
Theorem NewDockerRelayer_success_owns_its_volume testName networkID c options h r :
  fst (relayer.NewDockerRelayer deps env testName networkID c options h) = inr r ->
  exists evs,
    snd (relayer.NewDockerRelayer deps env testName networkID c options h) = h ++ evs
    /\ (exists hv,
           hv `prefix_of` h ++ evs
           /\ last hv
              = Some (relayer.EvVolumeCreate {[ relayer.CleanupLabel deps := testName ]})
           /\ relayer.env_VolumeCreate env hv = inr (relayer.volumeName r))
    /\ calls.owners evs
       = [ {| dockerutil.VolumeName := relayer.volumeName r;
              dockerutil.ImageRef := relayer.DockerImage_Ref deps (relayer.containerImage r);
              dockerutil.TestName := testName |} ]
    /\ relayer.containerID r = ""%string
    /\ calls.jobs evs
       = match RelayerCommander.Init (relayer.c r) (relayer.HomeDir r) with
         | [] => []
         | init => [(calls.job_of r, init,
                     {| dockerutil.Env := []; dockerutil.Binds := relayer.Bind r |})]
         end
    /\ forall rep report,
        (rep, report) ∈ history.reports evs -> rep = ibc.NopRelayerExecReporter.
Proof.
  unfold relayer.NewDockerRelayer.
  destruct (configured testName networkID c options)
    as (r0 & -> & _ & _ & Hc & _ & _ & Hid).
  rewrite <- Hc. clear Hc.
  new_cases r0.
  all: try discriminate.
  all: intros [= <-]; eexists; (split; [reflexivity|]).
  all: split;
    [eexists; split;
     [|split; [|match goal with H : relayer.env_VolumeCreate _ _ = inr _ |- _ => exact H end]];
     [|apply last_snoc]; flat;
     match goal with |- (?a ++ ?l) `prefix_of` (?a ++ _) =>
       apply prefix_app; eexists; cbn [app]; reflexivity
     end|].
  all: split; [reflexivity|]; split; [exact Hid|].
  all: cbn [relayer.c relayer.set_volumeName];
    match goal with H : RelayerCommander.Init _ _ = _ |- _ => rewrite H end.
  all: split; [reflexivity|].
  all: intros rep report Hin; cbn in Hin.
  all: try (inversion Hin; fail).
  all: apply list_elem_of_singleton in Hin; congruence.
Qed.

End Constructor.

(** In a world where every failing call fails, the pull fails and is the
    only call. *)
Lemma NewDockerRelayer_failure_sample :
  fst (relayer.NewDockerRelayer sample.deps
         (sample.world (sample.ran "") sample.exited None (Some (External "no daemon")))
         "TestRelayer" "network-1" sample.commander [] [])
  = inl (Wrap "pulling container image ghcr.io/cosmos/relayer:v2.0.0" (External "no daemon"))
  /\ snd (relayer.NewDockerRelayer sample.deps
            (sample.world (sample.ran "") sample.exited None (Some (External "no daemon")))
            "TestRelayer" "network-1" sample.commander [] [])
     = [relayer.EvImagePull "ghcr.io/cosmos/relayer:v2.0.0"].
Proof.
  split; [reflexivity|].
  destruct (NewDockerRelayer_failure_stops_at_the_step sample.deps
              (sample.world (sample.ran "") sample.exited None (Some (External "no daemon")))
              "TestRelayer" "network-1" sample.commander [] [] _ eq_refl)
    as (evs & Hsnd & Hcases).
  cbn [app] in Hsnd. rewrite Hsnd.
  destruct Hcases as [(e0 & _ & ->) | [(e0 & He & _) | [(e0 & o & He & _) | (rp & Hr & _)]]].
  - reflexivity.
  - discriminate He.
  - discriminate He.
  - exfalso. rewrite <- Hsnd in Hr. vm_compute in Hr. discriminate Hr.
Defined.

(** In the sample world the volume is volume-1 and the [Init] command is
    run. *)
Lemma NewDockerRelayer_success_sample :
  fst (relayer.NewDockerRelayer sample.deps sample.env "TestRelayer" "network-1"
         sample.commander [] []) = inr sample.fresh
  /\ exists evs,
      snd (relayer.NewDockerRelayer sample.deps sample.env "TestRelayer" "network-1"
             sample.commander [] []) = evs
      /\ calls.owners evs
         = [ {| dockerutil.VolumeName := "volume-1";
                dockerutil.ImageRef := "ghcr.io/cosmos/relayer:v2.0.0";
                dockerutil.TestName := "TestRelayer" |} ]
      /\ map (fun j => snd (fst j)) (calls.jobs evs)
         = [["rly"; "config"; "init"; "--home"; "/var/relayer-rly"]].
Proof.
  split; [reflexivity|].
  destruct (NewDockerRelayer_success_owns_its_volume sample.deps sample.env "TestRelayer"
              "network-1" sample.commander [] [] sample.fresh eq_refl)
    as (evs & Hsnd & _ & Howners & _ & Hjobs & _).
  exists evs. split; [exact Hsnd|]. split; [exact Howners|].
  rewrite Hjobs. reflexivity.
Defined.

(** ** The configuration archive, again *)

Section ArchiveCases.

Variable env : relayer.Env.

(** What [generateConfigTar] gives, by case. *)
Lemma generateConfigTar_cases r path content h :
  snd (relayer.generateConfigTar env r path content h) = h ++ [relayer.EvTimeNow]
  /\ (forall a, fst (relayer.generateConfigTar env r path content h) = inr a ->
        exists flag,
          a = {| tar.members :=
                   [ {| tar.hdr := {| tar.Typeflag := flag;
                                      tar.Name := path;
                                      tar.Size := Z.of_nat (length content);
                                      tar.Mode := 384;
                                      tar.Uname := RelayerCommander.DockerUser (relayer.c r);
                                      tar.ModTime :=
                                        relayer.env_Now env (h ++ [relayer.EvTimeNow]);
                                      tar.Format_ := tar.FormatPAX |};
                        tar.data := content |} ];
                 tar.trailer := true |}
          /\ (flag = tar.TypeReg /\ strings.HasSuffix path "/" = false
              \/ flag = tar.TypeDir /\ strings.HasSuffix path "/" = true /\ content = []))
  /\ (forall e, fst (relayer.generateConfigTar env r path content h) = inl e ->
        e = Wrap "writing config file to tar" (TarErrHeader "Format specifies PAX")
        /\ (tar.hasNUL path = true
            \/ tar.hasNUL (RelayerCommander.DockerUser (relayer.c r)) = true)
        \/ e = Wrap "writing config content to tar" TarErrWriteTooLong
           /\ strings.HasSuffix path "/" = true /\ content <> []).
Proof.
  unfold relayer.generateConfigTar, relayer.bind, relayer.time_Now, relayer.call, relayer.ret.
  cbn [fst snd].
  unfold tar.WriteHeader. cbn [tar.Flush tar.NewWriter tar.err tar.nb tar.Typeflag tar.Name
    tar.Size tar.Mode tar.Uname tar.ModTime tar.Format_ tar.finished tar.cur tar.done_ tar.closed].
  cbn [Z.ltb Z.compare Z.eqb tar.TypeRegA].
  unfold tar.allowedPAX. cbn [tar.Typeflag tar.Name tar.Size tar.Uname].
  destruct (strings.HasSuffix path "/") eqn:Hs.
  - change (tar.isHeaderOnlyType tar.TypeDir) with true. cbn [negb andb].
    destruct (tar.hasNUL path) eqn:Hp; cbn [orb].
    { cbn [fst snd]. split; [reflexivity|]. split; [discriminate|].
      intros e [= <-]. left. auto. }
    destruct (tar.hasNUL (RelayerCommander.DockerUser (relayer.c r))) eqn:Hu.
    { cbn [fst snd]. split; [reflexivity|]. split; [discriminate|].
      intros e [= <-]. left. auto. }
    unfold tar.Write. cbn [tar.err tar.nb tar.cur tar.done_ tar.closed tar.hdr tar.data].
    destruct content as [|b content].
    + cbn [length Z.of_nat Z.ltb Z.compare]. unfold tar.Close, tar.Flush.
      cbn. split; [reflexivity|]. split; [|discriminate].
      intros a [= <-]. exists tar.TypeDir. split; [reflexivity|]. right. auto.
    + destruct (Z.ltb_spec 0 (Z.of_nat (length (b :: content)))) as [_|Hle];
        [|cbn [length] in Hle; lia].
      cbn [fst snd]. split; [reflexivity|]. split; [discriminate|].
      intros e [= <-]. right. split; [reflexivity|]. split; [reflexivity|discriminate].
  - change (tar.isHeaderOnlyType tar.TypeReg) with false. cbn [negb andb].
    destruct (Z.ltb_spec (Z.of_nat (length content)) 0) as [Hneg|_]; [lia|].
    destruct (tar.hasNUL path) eqn:Hp; cbn [orb].
    { cbn [fst snd]. split; [reflexivity|]. split; [discriminate|].
      intros e [= <-]. left. auto. }
    destruct (tar.hasNUL (RelayerCommander.DockerUser (relayer.c r))) eqn:Hu.
    { cbn [fst snd]. split; [reflexivity|]. split; [discriminate|].
      intros e [= <-]. left. auto. }
    unfold tar.Write. cbn [tar.err tar.nb tar.cur tar.done_ tar.closed tar.hdr tar.data].
    rewrite Z.ltb_irrefl.
    unfold tar.Close. cbn [tar.err].
    unfold tar.Flush. cbn [tar.err tar.nb tar.cur tar.done_ tar.closed].
    rewrite Z.sub_diag. cbn [Z.ltb Z.compare].
    cbn [fst snd]. split; [reflexivity|]. split; [|discriminate].
    intros a [= <-]. exists tar.TypeReg. split; [reflexivity|]. left. auto.
Qed.

(** X6. [generateConfigTar] reads the clock once and calls nothing else.
    An archive it returns has exactly one member, which has the given name
    and holds the given content: a regular file, or a directory when the name
    ends in a slash and the content is empty.  It fails exactly in two ways:
    on the header, when the name or the Docker user holds a NUL, and on the
    content, when the name ends in a slash and the content is not empty. *)
Theorem generateConfigTar_archive_or_error r path content h :
  snd (relayer.generateConfigTar env r path content h) = h ++ [relayer.EvTimeNow]
  /\ (forall a, fst (relayer.generateConfigTar env r path content h) = inr a ->
        exists flag,
          a = {| tar.members :=
                   [ {| tar.hdr := {| tar.Typeflag := flag;
                                      tar.Name := path;
                                      tar.Size := Z.of_nat (length content);
                                      tar.Mode := 384;
                                      tar.Uname := RelayerCommander.DockerUser (relayer.c r);
                                      tar.ModTime :=
                                        relayer.env_Now env (h ++ [relayer.EvTimeNow]);
                                      tar.Format_ := tar.FormatPAX |};
                        tar.data := content |} ];
                 tar.trailer := true |}
          /\ (flag = tar.TypeReg /\ strings.HasSuffix path "/" = false
              \/ flag = tar.TypeDir /\ strings.HasSuffix path "/" = true /\ content = []))
  /\ (forall e, fst (relayer.generateConfigTar env r path content h) = inl e ->
        e = Wrap "writing config file to tar" (TarErrHeader "Format specifies PAX")
        /\ (tar.hasNUL path = true
            \/ tar.hasNUL (RelayerCommander.DockerUser (relayer.c r)) = true)
        \/ e = Wrap "writing config content to tar" TarErrWriteTooLong
           /\ strings.HasSuffix path "/" = true /\ content <> []).
Proof. exact (generateConfigTar_cases r path content h). Qed.

End ArchiveCases.

(** ** One-off containers, again *)

Section OneOffMore.

Variable deps : relayer.Deps.
Variable env : relayer.Env.

(** X8. [runOneOff] removes the container it created, by force, exactly
    once and as its last call, whatever happened to the copy, the start and
    the wait; when the creation fails it returns the wrapped error and
    addresses no container; every call that names a container names the one
    created; and without [TarContent] nothing is copied. *)
Theorem runOneOff_removes_the_container_it_created r opts h :
  exists evs,
    snd (relayer.runOneOff deps env r opts h) = h ++ evs
    /\ (forall e,
          relayer.env_ContainerCreate env (history.oneOff_created deps env r opts h) = inl e ->
          fst (relayer.runOneOff deps env r opts h)
          = Some (Wrap ("creating container for " ++ relayer.ContainerNameDetail opts)%string e)
          /\ forall ev, ev ∈ evs -> calls.container ev = None)
    /\ (forall id,
          relayer.env_ContainerCreate env (history.oneOff_created deps env r opts h) = inr id ->
          calls.removals evs = [(id, true, false)]
          /\ last evs = Some (relayer.EvContainerRemove id true false)
          /\ forall ev id', ev ∈ evs -> calls.container ev = Some id' -> id' = id)
    /\ (relayer.TarContent opts = None -> calls.copies evs = []).
Proof.
  rewrite runOneOff_eq.
  unfold history.oneOff_waiting, history.oneOff_started, history.oneOff_copied,
    history.oneOff_created.
  cbn zeta.
  destruct (relayer.env_ContainerCreate env _) as [e|id].
  { cbn [snd fst]. eexists. split; [reflexivity|]. split; [|split].
    - intros e' [= <-]. split; [reflexivity|].
      intros ev Hin. each_member Hin; reflexivity.
    - intros id; discriminate.
    - reflexivity. }
  assert (Hid : forall evs : relayer.History,
             Forall (fun ev => forall id', calls.container ev = Some id' -> id' = id) evs ->
             forall ev id', ev ∈ evs -> calls.container ev = Some id' -> id' = id).
  { intros evs HF ev id' Hin. rewrite Forall_forall in HF. exact (HF ev Hin id'). }
  destruct (relayer.TarContent opts) as [content|].
  - destruct (relayer.env_error env _) as [e|].
    { cbn [snd]. flat. eexists. split; [reflexivity|]. split; [discriminate|].
      split; [|discriminate]. intros id' [= <-]. split; [reflexivity|]. split; [reflexivity|].
      apply Hid. repeat constructor; cbn; congruence. }
    destruct (relayer.env_error env _) as [e|].
    all: cbn [snd]; flat; eexists; (split; [reflexivity|]); (split; [discriminate|]).
    all: split; [|discriminate]; intros id' [= <-]; split; [reflexivity|]; split; [reflexivity|].
    all: apply Hid; repeat constructor; cbn; congruence.
  - destruct (relayer.env_error env _) as [e|].
    all: cbn [snd]; flat; eexists; (split; [reflexivity|]); (split; [discriminate|]).
    all: split; [|reflexivity]; intros id' [= <-]; split; [reflexivity|]; split; [reflexivity|].
    all: apply Hid; repeat constructor; cbn; congruence.
Qed.

(** A [runOneOff] that returns nil went through every call. *)
Lemma runOneOff_nil r opts h :
  fst (relayer.runOneOff deps env r opts h) = None ->
  exists id,
    relayer.env_ContainerCreate env (history.oneOff_created deps env r opts h) = inr id
    /\ snd (relayer.runOneOff deps env r opts h)
       = history.oneOff_waiting deps env r opts h id ++ [relayer.EvContainerRemove id true false]
    /\ (forall content, relayer.TarContent opts = Some content ->
                        relayer.env_error env (history.oneOff_copied deps env r opts h id) = None)
    /\ relayer.env_error env (history.oneOff_started deps env r opts h id) = None
    /\ match relayer.env_ContainerWait env (history.oneOff_waiting deps env r opts h id) with
       | docker.CtxDone =>
         relayer.env_ctx_Err env (history.oneOff_waiting deps env r opts h id) = None
       | docker.FromErrCh e => e = None
       | docker.FromWaitCh w => docker.Error w = None
       end.
Proof.
  rewrite runOneOff_eq.
  destruct (relayer.env_ContainerCreate env _) as [e|id]; [discriminate|].
  cbn zeta. intros Hnil. exists id. split; [reflexivity|].
  destruct (relayer.TarContent opts) as [content|] eqn:Htar.
  - destruct (relayer.env_error env (history.oneOff_copied deps env r opts h id))
      as [e|] eqn:Hcopy; [discriminate|].
    destruct (relayer.env_error env (history.oneOff_started deps env r opts h id))
      as [e|] eqn:Hstart; [discriminate|].
    cbn [fst snd] in *. split; [reflexivity|]. split; [reflexivity|]. split; [reflexivity|].
    destruct (relayer.env_ContainerWait env _) as [|e|w]; try exact Hnil.
    destruct (docker.Error w); [discriminate|reflexivity].
  - destruct (relayer.env_error env (history.oneOff_started deps env r opts h id))
      as [e|] eqn:Hstart; [discriminate|].
    cbn [fst snd] in *. split; [reflexivity|]. split; [discriminate|]. split; [reflexivity|].
    destruct (relayer.env_ContainerWait env _) as [|e|w]; try exact Hnil.
    destruct (docker.Error w); [discriminate|reflexivity].
Qed.


(** X9. A [runOneOff] that returns nil has created the container, copied
    the archive when there is one, started the container, waited for it and
    removed it, each call without error, and the wait ended with no error: by
    a result without error, by a nil on the error channel, or by a done
    context whose [Err] is nil. *)
Theorem runOneOff_nil_has_run_the_container r opts h :
  fst (relayer.runOneOff deps env r opts h) = None ->
  exists id,
    relayer.env_ContainerCreate env (history.oneOff_created deps env r opts h) = inr id
    /\ snd (relayer.runOneOff deps env r opts h)
       = history.oneOff_waiting deps env r opts h id ++ [relayer.EvContainerRemove id true false]
    /\ (forall content, relayer.TarContent opts = Some content ->
                        relayer.env_error env (history.oneOff_copied deps env r opts h id) = None)
    /\ relayer.env_error env (history.oneOff_started deps env r opts h id) = None
    /\ match relayer.env_ContainerWait env (history.oneOff_waiting deps env r opts h id) with
       | docker.CtxDone =>
         relayer.env_ctx_Err env (history.oneOff_waiting deps env r opts h id) = None
       | docker.FromErrCh e => e = None
       | docker.FromWaitCh w => docker.Error w = None
       end.
Proof. exact (runOneOff_nil r opts h). Qed.

End OneOffMore.

Lemma ends_with_removal_snoc h ev :
  calls.ends_with_removal (h ++ [ev])
  = match ev with relayer.EvContainerRemove _ _ _ => true | _ => false end.
Proof. unfold calls.ends_with_removal. rewrite last_snoc. reflexivity. Qed.

(** X10. The error of the deferred [ContainerRemove] is not returned: in
    two worlds that differ only in the error of a removal, [runOneOff] returns
    the same result after the same calls. *)
Theorem runOneOff_ignores_the_error_of_the_removal deps env1 env2 r opts h :
  calls.alike_but_removal env1 env2 ->
  relayer.runOneOff deps env1 r opts h = relayer.runOneOff deps env2 r opts h.
Proof.
  intros (Herr & Hcreate & Hwait & Hctx & Hrand).
  rewrite !runOneOff_eq.
  unfold history.oneOff_waiting, history.oneOff_started, history.oneOff_copied,
    history.oneOff_created.
  cbn zeta. rewrite Hrand, Hcreate.
  destruct (relayer.env_ContainerCreate env2 _) as [e|id]; [reflexivity|].
  destruct (relayer.TarContent opts) as [content|].
  - rewrite (Herr (_ ++ [relayer.EvCopyToContainer _ _ _]))
      by apply ends_with_removal_snoc.
    rewrite (Herr (_ ++ [relayer.EvContainerStart _])) by apply ends_with_removal_snoc.
    rewrite Hwait, Hctx. reflexivity.
  - rewrite (Herr (_ ++ [relayer.EvContainerStart _])) by apply ends_with_removal_snoc.
    rewrite Hwait, Hctx. reflexivity.
Qed.

(** In the sample world the one-off job of [untarIntoNodeHome] returns
    nil. *)
Lemma runOneOff_nil_sample :
  fst (relayer.runOneOff sample.deps sample.env sample.rly sample.untar []) = None
  /\ snd (relayer.runOneOff sample.deps sample.env sample.rly sample.untar [])
     = history.oneOff_waiting sample.deps sample.env sample.rly sample.untar [] "container-1"
       ++ [relayer.EvContainerRemove "container-1" true false].
Proof.
  split; [reflexivity|].
  destruct (runOneOff_nil_has_run_the_container sample.deps sample.env sample.rly
              sample.untar [] eq_refl) as (id & Hid & Hsnd & _).
  injection Hid as <-. exact Hsnd.
Defined.

(** In the world where the removal fails, the job still returns nil. *)
Lemma runOneOff_leaky_sample :
  calls.alike_but_removal sample.env scenario.leaky
  /\ relayer.env_error scenario.leaky
       (snd (relayer.runOneOff sample.deps scenario.leaky sample.rly sample.untar []))
     = Some (External "removal failed")
  /\ fst (relayer.runOneOff sample.deps scenario.leaky sample.rly sample.untar []) = None.
Proof.
  assert (H : calls.alike_but_removal sample.env scenario.leaky).
  { split; [|repeat split].
    intros h Hh. simpl. rewrite Hh. reflexivity. }
  split; [exact H|]. split; [reflexivity|].
  rewrite <- (runOneOff_ignores_the_error_of_the_removal sample.deps sample.env
                scenario.leaky sample.rly sample.untar [] H).
  reflexivity.
Defined.

(** ** Adding a chain *)

Section Config.
Variable deps : relayer.Deps.
Variable env : relayer.Env.

(** The calls of [runOneOff] are calls of the relayer, none of them a job or
    a report. *)
Lemma runOneOff_calls r opts h :
  exists evs,
    snd (relayer.runOneOff deps env r opts h) = h ++ evs
    /\ Forall (calls.of_relayer deps r) evs
    /\ history.reports evs = [] /\ calls.jobs evs = [].
Proof.
  rewrite runOneOff_eq.
  unfold history.oneOff_waiting, history.oneOff_started, history.oneOff_copied,
    history.oneOff_created.
  cbn zeta.
  destruct (relayer.env_ContainerCreate env _) as [e|id].
  { cbn [snd]. eexists. split; [reflexivity|]. split; [|split; reflexivity].
    repeat constructor. }
  destruct (relayer.TarContent opts) as [content|].
  - destruct (relayer.env_error env _) as [e|].
    { cbn [snd]. flat. eexists. split; [reflexivity|]. split; [|split; reflexivity].
      repeat constructor. }
    destruct (relayer.env_error env _) as [e|].
    all: cbn [snd]; flat; eexists; (split; [reflexivity|]); (split; [|split; reflexivity]).
    all: repeat constructor.
  - destruct (relayer.env_error env _) as [e|].
    all: cbn [snd]; flat; eexists; (split; [reflexivity|]); (split; [|split; reflexivity]).
    all: repeat constructor.
Qed.

Lemma AddChainConfiguration_eq r rep cfg keyName rpcAddr grpcAddr h :
  relayer.AddChainConfiguration deps env r rep cfg keyName rpcAddr grpcAddr h
  = match RelayerCommander.ConfigContent (relayer.c r) cfg keyName rpcAddr grpcAddr with
    | inl e => (Some (Wrap "failed to generate config content" e), h)
    | inr content =>
      let t := relayer.generateConfigTar env r (ibc.ChainID cfg ++ ".config")%string
                 content h in
      match fst t with
      | inl e => (Some (Wrap "generating tar for configuration" e), snd t)
      | inr archive =>
        let u := relayer.untarIntoNodeHome deps env r archive (snd t) in
        match fst u with
        | Some e => (Some e, snd u)
        | None =>
          let x := relayer.Exec deps env r rep
                     (RelayerCommander.AddChainConfiguration (relayer.c r)
                        (relayer.path_Join deps (relayer.HomeDir r)
                           (ibc.ChainID cfg ++ ".config")%string)
                        (relayer.HomeDir r)) [] (snd u) in
          (dockerutil.Err (fst x), snd x)
        end
      end
    end.
Proof.
  unfold relayer.AddChainConfiguration.
  destruct (RelayerCommander.ConfigContent _ _ _ _ _) as [e|content]; [reflexivity|].
  unfold relayer.bind at 1. cbn zeta.
  destruct (relayer.generateConfigTar _ _ _ _ _) as [[e|archive] h1]; [reflexivity|].
  cbn [fst snd]. unfold relayer.bind at 1.
  destruct (relayer.untarIntoNodeHome _ _ _ _ _) as [[e|] h2]; [reflexivity|].
  cbn [fst snd]. unfold relayer.bind at 1.
  destruct (relayer.Exec _ _ _ _ _ _ _) as [res h3]. reflexivity.
Qed.

(** X7. [AddChainConfiguration] makes no call when the commander cannot
    make the content of the configuration.  Otherwise either it runs no
    command, reports nothing and returns an error, or it has copied one
    archive, whose one member has the name of the chain's configuration file
    and the content the commander made, into the home directory of a
    container, and afterwards run one job of the relayer: the commander's
    command for that file in the home directory, reported once, whose error
    is the error returned. *)
Theorem AddChainConfiguration_runs_after_injecting r rep cfg keyName rpcAddr grpcAddr h :
  exists evs,
    snd (relayer.AddChainConfiguration deps env r rep cfg keyName rpcAddr grpcAddr h)
    = h ++ evs
    /\ (forall e,
          RelayerCommander.ConfigContent (relayer.c r) cfg keyName rpcAddr grpcAddr = inl e ->
          fst (relayer.AddChainConfiguration deps env r rep cfg keyName rpcAddr grpcAddr h)
          = Some (Wrap "failed to generate config content" e)
          /\ evs = [])
    /\ (calls.jobs evs = [] /\ history.reports evs = []
        /\ (exists e,
               fst (relayer.AddChainConfiguration deps env r rep cfg keyName rpcAddr
                      grpcAddr h) = Some e)
        \/ exists content id archive job report i j,
            RelayerCommander.ConfigContent (relayer.c r) cfg keyName rpcAddr grpcAddr
            = inr content
            /\ map (fun m => (tar.Name (tar.hdr m), tar.data m)) (tar.members archive)
               = [((ibc.ChainID cfg ++ ".config")%string, content)]
            /\ calls.copies evs = [(id, relayer.HomeDir r, archive)]
            /\ job = (calls.job_of r,
                      RelayerCommander.AddChainConfiguration (relayer.c r)
                        (relayer.path_Join deps (relayer.HomeDir r)
                           (ibc.ChainID cfg ++ ".config")%string)
                        (relayer.HomeDir r),
                      {| dockerutil.Env := []; dockerutil.Binds := relayer.Bind r |})
            /\ calls.jobs evs = [job]
            /\ (i < j)%nat
            /\ evs !! i = Some (relayer.EvCopyToContainer id (relayer.HomeDir r) archive)
            /\ evs !! j = Some (relayer.EvJobRun (fst (fst job)) (snd (fst job)) (snd job))
            /\ history.reports evs = [(rep, report)]
            /\ ibc.command report = snd (fst job)
            /\ ibc.err report
               = fst (relayer.AddChainConfiguration deps env r rep cfg keyName rpcAddr
                        grpcAddr h)).
Proof.
  rewrite AddChainConfiguration_eq.
  destruct (RelayerCommander.ConfigContent _ _ _ _ _) as [e|content] eqn:Hcontent.
  { exists []. cbn [fst snd]. rewrite app_nil_r. split; [reflexivity|]. split.
    - intros e' [= <-]. split; reflexivity.
    - left. split; [reflexivity|]. split; [reflexivity|]. eexists; reflexivity. }
  cbn zeta.
  destruct (generateConfigTar_cases env r (ibc.ChainID cfg ++ ".config")%string
              content h) as (Hsnd & Hok & Hbad).
  destruct (relayer.generateConfigTar _ _ _ _ _) as [[e|archive] h1] eqn:Htar;
    cbn [fst snd] in *; subst h1.
  { eexists. split; [reflexivity|]. split; [discriminate|].
    left. split; [reflexivity|]. split; [reflexivity|]. eexists; reflexivity. }
  destruct (Hok archive eq_refl) as (flag & Harchive & Hflag).
  destruct Hflag as [[-> _] | (_ & Hslash & _)];
    [|rewrite HasSuffix_config in Hslash; discriminate].
  unfold relayer.untarIntoNodeHome.
  match goal with |- context [relayer.runOneOff deps env r ?o ?h1] =>
    set (opts := o);
    destruct (runOneOff_calls r opts h1) as (evs1 & Hevs1 & _ & Hrep1 & Hjobs1);
    pose proof (runOneOff_nil deps env r opts h1) as Hnil
  end.
  destruct (relayer.runOneOff deps env r opts _) as [[e|] h2] eqn:Hrun;
    cbn [fst snd] in *.
  { subst h2. flat. eexists. split; [reflexivity|]. split; [discriminate|].
    left. split; [exact Hjobs1|]. split; [exact Hrep1|]. eexists; reflexivity. }
  destruct (Hnil eq_refl) as (id & _ & Hh2 & _).
  clear Hevs1. subst h2.
  unfold history.oneOff_waiting, history.oneOff_started, history.oneOff_copied,
    history.oneOff_created. cbn [relayer.TarContent opts].
  rewrite Exec_calls. cbn [fst snd]. flat.
  eexists. split; [reflexivity|]. split; [discriminate|].
  right. exists content, id, archive. do 2 eexists. exists 3%nat, 8%nat.
  split; [reflexivity|]. split; [rewrite Harchive; reflexivity|].
  split; [reflexivity|]. split; [reflexivity|]. split; [reflexivity|].
  split; [lia|]. split; [reflexivity|]. split; [reflexivity|].
  split; [reflexivity|]. split; reflexivity.
Qed.

End Config.

(** In the sample world the configuration of chain-a is copied and the
    command is run. *)
Example AddChainConfiguration_sample :
  fst (relayer.AddChainConfiguration sample.deps sample.env sample.rly sample.rep
         scenario.chain_a "key-a" "http://chain-a:26657" "chain-a:9090" []) = None
  /\ map (fun j => snd (fst j))
         (calls.jobs (snd (relayer.AddChainConfiguration sample.deps sample.env sample.rly
                             sample.rep scenario.chain_a "key-a" "http://chain-a:26657"
                             "chain-a:9090" [])))
     = [["rly"; "chains"; "add"; "-f"; "/var/relayer-rly/chain-a.config"; "--home";
         "/var/relayer-rly"]].
Proof. split; vm_compute; reflexivity. Qed.

(** ** The long-running container *)

Section Node.
Variable deps : relayer.Deps.
Variable env : relayer.Env.

(** The calls of [StopRelayer], by case. *)
Lemma StopRelayer_calls r rep h :
  exists evs,
    snd (relayer.StopRelayer deps env r rep h) = h ++ evs
    /\ evs !! 0%nat = Some (relayer.EvContainerStop (relayer.containerID r) 30)
    /\ Forall (fun ev => forall id, calls.container ev = Some id -> id = relayer.containerID r)
              evs
    /\ Forall (calls.of_relayer deps r) evs
    /\ calls.jobs evs = []
    /\ (forall e,
          relayer.env_error env (h ++ [relayer.EvContainerStop (relayer.containerID r) 30])
          = Some e ->
          fst (relayer.StopRelayer deps env r rep h) = Some e
          /\ evs = [relayer.EvContainerStop (relayer.containerID r) 30])
    /\ (history.reports evs = [] /\ calls.removals evs = []
        /\ (exists e, fst (relayer.StopRelayer deps env r rep h) = Some e)
        \/ exists report,
            history.reports evs = [(rep, report)]
            /\ calls.removals evs = [(relayer.containerID r, false, true)]
            /\ last evs = Some (relayer.EvContainerRemove (relayer.containerID r) false true)
            /\ fst (relayer.StopRelayer deps env r rep h) = relayer.env_error env (h ++ evs)
            /\ ibc.err report = None).
Proof.
  unfold relayer.StopRelayer, relayer.stopContainer, relayer.client_ContainerStop,
    relayer.client_ContainerLogs, relayer.client_ContainerInspect,
    relayer.client_ContainerRemove, relayer.rep_TrackRelayerExec, relayer.time_Now,
    relayer.bind, relayer.call, relayer.ret.
  cbn [fst snd].
  destruct (relayer.env_error env (h ++ _)) as [e|] eqn:Hstop.
  { cbn [fst snd]. eexists. split; [reflexivity|]. split; [reflexivity|].
    split; [repeat constructor; cbn; congruence|]. split; [repeat constructor|].
    split; [reflexivity|]. split; [intros e' [= <-]; split; reflexivity|].
    left. split; [reflexivity|]. split; [reflexivity|]. eexists; reflexivity. }
  destruct (relayer.env_ContainerLogs env _) as [e|e|out errs].
  1,2: cbn [fst snd]; flat; eexists; (split; [reflexivity|]); (split; [reflexivity|]);
    (split; [repeat constructor; cbn; congruence|]); (split; [repeat constructor|]);
    (split; [reflexivity|]); (split; [discriminate|]);
    left; (split; [reflexivity|]); (split; [reflexivity|]); eexists; reflexivity.
  destruct (relayer.env_ContainerInspect env _) as [e|cj].
  { cbn [fst snd]; flat; eexists; (split; [reflexivity|]); (split; [reflexivity|]);
    (split; [repeat constructor; cbn; congruence|]); (split; [repeat constructor|]);
    (split; [reflexivity|]); (split; [discriminate|]);
    left; (split; [reflexivity|]); (split; [reflexivity|]); eexists; reflexivity. }
  destruct (relayer.time_Parse deps (docker.FinishedAt (docker.State cj)) gotime.RFC3339Nano).
  all: cbn [fst snd]; flat; eexists; (split; [reflexivity|]); (split; [reflexivity|]);
    (split; [repeat constructor; cbn; congruence|]); (split; [repeat constructor|]);
    (split; [reflexivity|]); (split; [discriminate|]).
  all: right; eexists; (split; [reflexivity|]); (split; [reflexivity|]);
    (split; [reflexivity|]); split; reflexivity.
Qed.

(** X12. [StopRelayer] first stops the container, with a timeout of 30
    seconds; the error of the stop is returned as it is, after no other call.
    Either it reports nothing, removes nothing and returns an error, or it
    reports once, with a nil error, and then, as its last call, removes the
    container with its volumes and without force: what it returns is then the
    error of that removal. *)
Theorem StopRelayer_removes_only_after_reporting r rep h :
  exists evs,
    snd (relayer.StopRelayer deps env r rep h) = h ++ evs
    /\ evs !! 0%nat = Some (relayer.EvContainerStop (relayer.containerID r) 30)
    /\ (forall e,
          relayer.env_error env (h ++ [relayer.EvContainerStop (relayer.containerID r) 30])
          = Some e ->
          fst (relayer.StopRelayer deps env r rep h) = Some e
          /\ evs = [relayer.EvContainerStop (relayer.containerID r) 30])
    /\ (history.reports evs = [] /\ calls.removals evs = []
        /\ (exists e, fst (relayer.StopRelayer deps env r rep h) = Some e)
        \/ exists report,
            history.reports evs = [(rep, report)]
            /\ calls.removals evs = [(relayer.containerID r, false, true)]
            /\ last evs = Some (relayer.EvContainerRemove (relayer.containerID r) false true)
            /\ fst (relayer.StopRelayer deps env r rep h) = relayer.env_error env (h ++ evs)
            /\ ibc.err report = None).
Proof.
  destruct (StopRelayer_calls r rep h) as (evs & H1 & H2 & _ & _ & _ & H3 & H4).
  exists evs. auto.
Qed.

(** X11. [StartRelayer] creates one container, for the image of the
    relayer, on the network of the relayer, named after the commander and the
    path.  When the creation fails, the error is returned, the relayer is as
    before and nothing is started.  When it succeeds, the relayer records the
    new container, whether or not the start that follows fails, and a later
    [StopRelayer] addresses that container with every call. *)
Theorem StartRelayer_keeps_the_container_it_created r rep pathName h :
  exists evs create,
    create = relayer.EvContainerCreate (relayer.nodeConfig deps r pathName)
               (relayer.hostConfig r) (Some [relayer.networkID r])
               (RelayerCommander.Name (relayer.c r) ++ "-" ++ pathName)%string
    /\ snd (relayer.StartRelayer deps env r rep pathName h) = h ++ evs
    /\ evs !! 0%nat = Some create
    /\ (forall e,
          relayer.env_ContainerCreate env (h ++ [create]) = inl e ->
          fst (relayer.StartRelayer deps env r rep pathName h) = (Some e, r)
          /\ evs = [create])
    /\ (forall id,
          relayer.env_ContainerCreate env (h ++ [create]) = inr id ->
          evs = [create; relayer.EvStartContainer id]
          /\ fst (relayer.StartRelayer deps env r rep pathName h)
             = (relayer.env_error env (h ++ evs), relayer.set_containerID id r)
          /\ forall rep' h',
              exists evs',
                snd (relayer.StopRelayer deps env
                       (snd (fst (relayer.StartRelayer deps env r rep pathName h))) rep' h')
                = h' ++ evs'
                /\ evs' !! 0%nat = Some (relayer.EvContainerStop id 30)
                /\ forall ev id', ev ∈ evs' -> calls.container ev = Some id' -> id' = id).
Proof.
  unfold relayer.StartRelayer, relayer.createNodeContainer, relayer.bind,
    relayer.client_ContainerCreate, relayer.dockerutil_StartContainer,
    relayer.call, relayer.ret.
  cbn zeta. cbn [fst snd].
  destruct (relayer.env_ContainerCreate env _) as [e|id] eqn:Hcreate; cbn [fst snd]; flat.
  - do 2 eexists. split; [reflexivity|]. split; [reflexivity|]. split; [reflexivity|].
    rewrite Hcreate. split; [|discriminate]. intros e' [= <-]. split; reflexivity.
  - do 2 eexists. split; [reflexivity|]. split; [reflexivity|]. split; [reflexivity|].
    rewrite Hcreate. split; [discriminate|]. intros id' [= <-].
    split; [reflexivity|]. split; [flat; reflexivity|].
    intros rep' h'.
    destruct (StopRelayer_calls (relayer.set_containerID id r) rep' h')
      as (evs' & H1 & H2 & H3 & _).
    exists evs'. split; [exact H1|]. split; [exact H2|].
    intros ev id' Hin. rewrite Forall_forall in H3. exact (H3 ev Hin id').
Qed.

End Node.

(** ** Sequences of calls *)

(** What [calls.of_relayer] reads of a relayer. *)
Lemma of_relayer_ext deps r r' ev :
  relayer.c r' = relayer.c r -> relayer.networkID r' = relayer.networkID r ->
  relayer.volumeName r' = relayer.volumeName r -> relayer.testName r' = relayer.testName r ->
  relayer.customImage r' = relayer.customImage r ->
  calls.of_relayer deps r' ev -> calls.of_relayer deps r ev.
Proof.
  destruct r, r'. cbn. intros -> -> -> -> ->. exact id.
Qed.

Section Session.
Variable deps : relayer.Deps.
Variable env : relayer.Env.

Lemma Exec_of_relayer r rep cmd envv h :
  exists report,
    snd (relayer.Exec deps env r rep cmd envv h)
    = h ++ [relayer.EvTimeNow;
            relayer.EvJobRun (calls.job_of r) cmd
              {| dockerutil.Env := envv; dockerutil.Binds := relayer.Bind r |};
            relayer.EvTimeNow;
            relayer.EvTrackRelayerExec rep report].
Proof. rewrite Exec_calls. cbn [snd]. flat. eexists. reflexivity. Qed.

Lemma AddChainConfiguration_calls r rep cfg keyName rpcAddr grpcAddr h :
  exists evs,
    snd (relayer.AddChainConfiguration deps env r rep cfg keyName rpcAddr grpcAddr h)
    = h ++ evs
    /\ Forall (calls.of_relayer deps r) evs
    /\ (history.reports evs = [] \/ exists report, history.reports evs = [(rep, report)]).
Proof.
  rewrite AddChainConfiguration_eq.
  destruct (RelayerCommander.ConfigContent _ _ _ _ _) as [e|content].
  { exists []. cbn [snd]. rewrite app_nil_r. split; [reflexivity|]. split; [constructor|].
    left. reflexivity. }
  cbn zeta.
  destruct (generateConfigTar_cases env r (ibc.ChainID cfg ++ ".config")%string
              content h) as (Hsnd & _ & _).
  destruct (relayer.generateConfigTar _ _ _ _ _) as [[e|archive] h1];
    cbn [fst snd] in *; subst h1.
  { eexists. split; [reflexivity|]. split; [repeat constructor|]. left. reflexivity. }
  unfold relayer.untarIntoNodeHome.
  match goal with |- context [relayer.runOneOff deps env r ?o ?h1] =>
    destruct (runOneOff_calls deps env r o h1) as (evs1 & Hevs1 & Hof & Hrep1 & _);
    destruct (relayer.runOneOff deps env r o h1) as [[e|] h2]
  end; cbn [fst snd] in *; subst h2.
  { flat. eexists. split; [reflexivity|]. split; [constructor; [exact I | exact Hof]|].
    left. exact Hrep1. }
  match goal with |- context [relayer.Exec deps env r rep ?cmd ?envv ?h2] =>
    destruct (Exec_of_relayer r rep cmd envv h2) as (report & ->)
  end.
  flat. eexists. split; [reflexivity|]. split.
  - constructor; [exact I|]. apply Forall_app. split; [exact Hof|].
    repeat constructor.
  - right. exists report.
    change (relayer.EvTimeNow :: evs1 ++ ?l) with ((relayer.EvTimeNow :: evs1) ++ l).
    rewrite reports_app. cbn. change (omap _ evs1) with (history.reports evs1).
    rewrite Hrep1. reflexivity.
Qed.

(** One call of a method: its calls are calls of the relayer, it reports at
    most once, and it leaves the setup of the relayer as it is. *)
Lemma step_calls op r h :
  exists evs,
    snd (session.step deps env op r h) = h ++ evs
    /\ Forall (calls.of_relayer deps r) evs
    /\ match op with
       | session.OpExec rep _ _ | session.OpAddKey rep _ _
       | session.OpRestoreKey rep _ _ _ =>
         exists report, history.reports evs = [(rep, report)]
       | session.OpStartRelayer _ _ => history.reports evs = []
       | session.OpAddChainConfiguration rep _ _ _ _ | session.OpStopRelayer rep =>
         history.reports evs = [] \/ exists report, history.reports evs = [(rep, report)]
       end
    /\ relayer.c (fst (fst (session.step deps env op r h))) = relayer.c r
    /\ relayer.networkID (fst (fst (session.step deps env op r h))) = relayer.networkID r
    /\ relayer.volumeName (fst (fst (session.step deps env op r h))) = relayer.volumeName r
    /\ relayer.testName (fst (fst (session.step deps env op r h))) = relayer.testName r
    /\ relayer.customImage (fst (fst (session.step deps env op r h))) = relayer.customImage r
    /\ relayer.pullImage (fst (fst (session.step deps env op r h))) = relayer.pullImage r.
Proof.
  destruct op; cbn [session.step]; unfold relayer.bind, relayer.ret.
  - destruct (Exec_of_relayer r rep cmd envv h) as (report & Hsnd).
    destruct (relayer.Exec _ _ _ _ _ _ _) as [res h1]. cbn [fst snd] in *. subst h1.
    eexists. split; [reflexivity|]. split; [repeat constructor|].
    split; [exists report; reflexivity|]. repeat split.
  - destruct (AddChainConfiguration_calls r rep cfg keyName rpcAddr grpcAddr h)
      as (evs & Hsnd & Hof & Hrep).
    destruct (relayer.AddChainConfiguration _ _ _ _ _ _ _ _ _) as [res h1].
    cbn [fst snd] in *. subst h1.
    exists evs. split; [reflexivity|]. split; [exact Hof|]. split; [exact Hrep|].
    repeat split.
  - rewrite AddKey_eq. cbn zeta.
    match goal with |- context [relayer.Exec deps env r rep ?cmd ?envv h] =>
      destruct (Exec_of_relayer r rep cmd envv h) as (report & Hsnd);
      destruct (relayer.Exec deps env r rep cmd envv h) as [res h1]
    end.
    cbn [fst snd] in *. subst h1.
    eexists. split.
    { destruct (dockerutil.Err res); [reflexivity|].
      destruct (RelayerCommander.ParseAddKeyOutput _ _ _); reflexivity. }
    split; [repeat constructor|]. split; [exists report; reflexivity|].
    destruct (dockerutil.Err res); [repeat split|].
    destruct (RelayerCommander.ParseAddKeyOutput _ _ _); repeat split.
  - rewrite RestoreKey_eq. cbn zeta.
    match goal with |- context [relayer.Exec deps env r rep ?cmd ?envv h] =>
      destruct (Exec_of_relayer r rep cmd envv h) as (report & Hsnd);
      destruct (relayer.Exec deps env r rep cmd envv h) as [res h1]
    end.
    cbn [fst snd] in *. subst h1.
    eexists. split.
    { destruct (dockerutil.Err res); reflexivity. }
    split; [repeat constructor|]. split; [exists report; reflexivity|].
    destruct (dockerutil.Err res); repeat split.
  - unfold relayer.StartRelayer, relayer.createNodeContainer, relayer.bind,
      relayer.client_ContainerCreate, relayer.dockerutil_StartContainer,
      relayer.call, relayer.ret.
    cbn zeta. cbn [fst snd].
    destruct (relayer.env_ContainerCreate env _) as [e|id]; cbn [fst snd]; flat.
    all: eexists; (split; [reflexivity|]); (split; [repeat constructor|]).
    all: split; [reflexivity|]; repeat split.
  - destruct (StopRelayer_calls deps env r rep h)
      as (evs & Hsnd & _ & _ & Hof & _ & _ & Hrep).
    destruct (relayer.StopRelayer _ _ _ _ _) as [res h1]. cbn [fst snd] in *. subst h1.
    exists evs. split; [reflexivity|]. split; [exact Hof|]. split.
    { destruct Hrep as [(Hr & _) | (report & Hr & _)]; [left | right; exists report];
        exact Hr. }
    repeat split.
Qed.

Lemma run_calls ops : forall r h,
  exists evs,
    snd (session.run deps env ops r h) = h ++ evs
    /\ Forall (calls.of_relayer deps r) evs
    /\ (length (history.reports evs) <= length ops)%nat
    /\ relayer.c (fst (fst (session.run deps env ops r h))) = relayer.c r
    /\ relayer.networkID (fst (fst (session.run deps env ops r h))) = relayer.networkID r
    /\ relayer.volumeName (fst (fst (session.run deps env ops r h))) = relayer.volumeName r
    /\ relayer.testName (fst (fst (session.run deps env ops r h))) = relayer.testName r
    /\ relayer.customImage (fst (fst (session.run deps env ops r h))) = relayer.customImage r
    /\ relayer.pullImage (fst (fst (session.run deps env ops r h))) = relayer.pullImage r.
Proof.
  induction ops as [|op ops IH]; intros r h.
  { exists []. cbn. rewrite app_nil_r. repeat split; auto. }
  rewrite run_cons. cbn zeta. cbn [fst snd].
  destruct (step_calls op r h)
    as (evs1 & Hsnd1 & Hof1 & Hrep1 & Hc & Hn & Hv & Ht & Hi & Hp).
  destruct (session.step deps env op r h) as [[r1 k] h1]. cbn [fst snd] in *. subst h1.
  destruct (IH r1 (h ++ evs1))
    as (evs2 & Hsnd2 & Hof2 & Hrep2 & Hc2 & Hn2 & Hv2 & Ht2 & Hi2 & Hp2).
  destruct (session.run deps env ops r1 (h ++ evs1)) as [[r2 ks] h2].
  cbn [fst snd] in *. subst h2.
  exists (evs1 ++ evs2). split; [rewrite app_assoc; reflexivity|].
  split.
  { apply Forall_app. split; [exact Hof1|].
    eapply Forall_impl; [exact Hof2|]. intros ev. apply of_relayer_ext; assumption. }
  split.
  { rewrite reports_app, length_app.
    assert (length (history.reports evs1) <= 1)%nat; [|cbn [length]; lia].
    destruct op; repeat match goal with
                        | H : exists _, _ |- _ => destruct H as [? H]
                        | H : _ \/ _ |- _ => destruct H as [H | H]
                        end; rewrite Hrep1; cbn; lia. }
  repeat split; congruence.
Qed.

(** X13. A call of [Exec], [AddKey] or [RestoreKey] reports exactly once,
    to the reporter it was given; [StartRelayer] reports nothing;
    [AddChainConfiguration] and [StopRelayer] report at most once, to the
    reporter they were given.  So a sequence of calls makes no more reports
    than it has calls. *)
Theorem each_call_reports_to_its_reporter_at_most_once :
  (forall op r h,
      exists evs,
        snd (session.step deps env op r h) = h ++ evs
        /\ match op with
           | session.OpExec rep _ _ | session.OpAddKey rep _ _
           | session.OpRestoreKey rep _ _ _ =>
             exists report, history.reports evs = [(rep, report)]
           | session.OpStartRelayer _ _ => history.reports evs = []
           | session.OpAddChainConfiguration rep _ _ _ _ | session.OpStopRelayer rep =>
             history.reports evs = [] \/ exists report, history.reports evs = [(rep, report)]
           end)
  /\ (forall ops r h,
         exists evs,
           snd (session.run deps env ops r h) = h ++ evs
           /\ (length (history.reports evs) <= length ops)%nat).
Proof.
  split.
  - intros op r h. destruct (step_calls op r h) as (evs & H1 & _ & H2 & _).
    exists evs. auto.
  - intros ops r h. destruct (run_calls ops r h) as (evs & H1 & _ & H2 & _).
    exists evs. auto.
Qed.

(** X14. No sequence of calls changes the commander, the network, the
    volume, the test name or the image of a relayer, nor, then, its name, its
    home directory or its bind: only the recorded container and the wallets
    change. *)
Theorem session_keeps_the_setup_of_the_relayer ops r h :
  relayer.c (fst (fst (session.run deps env ops r h))) = relayer.c r
  /\ relayer.networkID (fst (fst (session.run deps env ops r h))) = relayer.networkID r
  /\ relayer.volumeName (fst (fst (session.run deps env ops r h))) = relayer.volumeName r
  /\ relayer.testName (fst (fst (session.run deps env ops r h))) = relayer.testName r
  /\ relayer.containerImage (fst (fst (session.run deps env ops r h)))
     = relayer.containerImage r
  /\ relayer.Name deps (fst (fst (session.run deps env ops r h))) = relayer.Name deps r
  /\ relayer.HomeDir (fst (fst (session.run deps env ops r h))) = relayer.HomeDir r
  /\ relayer.Bind (fst (fst (session.run deps env ops r h))) = relayer.Bind r.
Proof.
  destruct (run_calls ops r h) as (evs & _ & _ & _ & Hc & Hn & Hv & Ht & Hi & _).
  unfold relayer.containerImage, relayer.Name, relayer.Bind, relayer.HomeDir.
  rewrite Hc, Hn, Hv, Ht, Hi. repeat split.
Qed.

(** X15. In any sequence of calls on a relayer, every job is run on the
    image of the relayer, in its network, under its test name and with its
    volume bound at the home directory; every container is created from the
    image of the relayer with its volume bound and the cleanup label of its
    test; and no image is pulled, no volume created and no volume owner
    set. *)
Theorem session_calls_are_of_the_relayer ops r h :
  exists evs,
    snd (session.run deps env ops r h) = h ++ evs
    /\ Forall (calls.of_relayer deps r) evs
    /\ history.labelled deps (relayer.testName r) evs
    /\ calls.pulls evs = []
    /\ Forall (fun j => fst (fst j) = calls.job_of r
                        /\ dockerutil.Binds (snd j) = relayer.Bind r) (calls.jobs evs).
Proof.
  destruct (run_calls ops r h) as (evs & Hsnd & Hof & _).
  exists evs. split; [exact Hsnd|]. split; [exact Hof|].
  clear Hsnd. split; [|split].
  - intros ev labels Hin Hl. rewrite Forall_forall in Hof. specialize (Hof ev Hin).
    destruct ev; cbn in Hl; try discriminate; cbn in Hof; [contradiction|].
    injection Hl as <-. apply Hof.
  - induction Hof as [|ev evs Hev _ IH]; [reflexivity|].
    destruct ev; cbn in *; try exact IH. contradiction.
  - induction Hof as [|ev evs Hev _ IH]; [constructor|].
    destruct ev; cbn in *; try exact IH. constructor; [exact Hev | exact IH].
Qed.

(** X16. [GetWallet] for a chain ID answers after a sequence of calls as it
    did before, when no [AddKey] or [RestoreKey] of the sequence returned
    without error for that chain ID: a wallet is neither lost nor replaced by
    calls for other chains, by calls that fail, or by the other methods. *)
Theorem GetWallet_unchanged_by_other_calls ops r h chainID :
  chainID ∉ snd (fst (session.run deps env ops r h)) ->
  relayer.GetWallet (fst (fst (session.run deps env ops r h))) chainID
  = relayer.GetWallet r chainID.
Proof.
  intros Hnot. rewrite !GetWallet_lookup, (run_frame deps env _ _ _ _ Hnot). reflexivity.
Qed.

End Session.

(** The wallet of chain-a is kept through an [AddKey] for chain-b and a
    [StopRelayer]. *)
Lemma GetWallet_unchanged_sample :
  ("chain-a" ∉ snd (fst (session.run sample.deps sample.env
                           [session.OpAddKey sample.rep "chain-b" "key-b";
                            session.OpStopRelayer sample.rep] scenario.keyed [])))
  /\ relayer.GetWallet
       (fst (fst (session.run sample.deps sample.env
                    [session.OpAddKey sample.rep "chain-b" "key-b";
                     session.OpStopRelayer sample.rep] scenario.keyed []))) "chain-a"
     = ({| ibc.Mnemonic := "wallet words"; ibc.Address := "" |}, true).
Proof.
  assert (Hnot : "chain-a" ∉ snd (fst (session.run sample.deps sample.env
                          [session.OpAddKey sample.rep "chain-b" "key-b";
                           session.OpStopRelayer sample.rep] scenario.keyed []))).
  { vm_compute. intros H. apply list_elem_of_singleton in H. discriminate. }
  split; [exact Hnot|].
  rewrite (GetWallet_unchanged_by_other_calls sample.deps sample.env _ _ _ _ Hnot).
  reflexivity.
Defined.

(** ** Commands and queries *)

Section Commands.
Variable deps : relayer.Deps.
Variable env : relayer.Env.

Lemma execErr_runs_once r rep cmd h :
  calls.runs_once deps env r rep (relayer.execErr deps env r rep cmd) cmd h.
Proof.
  unfold calls.runs_once, relayer.execErr, relayer.bind, relayer.ret.
  rewrite Exec_calls. cbn [fst snd]. flat. eexists. split; [reflexivity|].
  repeat split.
Qed.

(** X17. [CreateChannel], [CreateClients], [CreateConnections],
    [FlushAcknowledgements], [FlushPackets], [GeneratePath], [LinkPath] and
    [UpdateClients] each run one job of the relayer, with the command the
    commander builds for the home directory of the relayer and no
    environment, report it once under the name of the relayer, and return the
    error of the run, which is the error reported. *)
Theorem commands_return_the_error_of_their_run r rep h :
  (forall pathName opts,
      calls.runs_once deps env r rep (relayer.CreateChannel deps env r rep pathName opts)
        (RelayerCommander.CreateChannel (relayer.c r) pathName opts (relayer.HomeDir r)) h)
  /\ (forall pathName,
         calls.runs_once deps env r rep (relayer.CreateClients deps env r rep pathName)
           (RelayerCommander.CreateClients (relayer.c r) pathName (relayer.HomeDir r)) h)
  /\ (forall pathName,
         calls.runs_once deps env r rep (relayer.CreateConnections deps env r rep pathName)
           (RelayerCommander.CreateConnections (relayer.c r) pathName (relayer.HomeDir r)) h)
  /\ (forall pathName channelID,
         calls.runs_once deps env r rep
           (relayer.FlushAcknowledgements deps env r rep pathName channelID)
           (RelayerCommander.FlushAcknowledgements (relayer.c r) pathName channelID
              (relayer.HomeDir r)) h)
  /\ (forall pathName channelID,
         calls.runs_once deps env r rep
           (relayer.FlushPackets deps env r rep pathName channelID)
           (RelayerCommander.FlushPackets (relayer.c r) pathName channelID
              (relayer.HomeDir r)) h)
  /\ (forall srcChainID dstChainID pathName,
         calls.runs_once deps env r rep
           (relayer.GeneratePath deps env r rep srcChainID dstChainID pathName)
           (RelayerCommander.GeneratePath (relayer.c r) srcChainID dstChainID pathName
              (relayer.HomeDir r)) h)
  /\ (forall pathName opts,
         calls.runs_once deps env r rep (relayer.LinkPath deps env r rep pathName opts)
           (RelayerCommander.LinkPath (relayer.c r) pathName (relayer.HomeDir r) opts) h)
  /\ (forall pathName,
         calls.runs_once deps env r rep (relayer.UpdateClients deps env r rep pathName)
           (RelayerCommander.UpdateClients (relayer.c r) pathName (relayer.HomeDir r)) h).
Proof. repeat split; intros; apply execErr_runs_once. Qed.

Variable ConnectionOutputs : Type.
Variable q : queries.Commander ConnectionOutputs.

(** X18. [GetChannels] and [GetConnections] run one job and report it
    once; they return the error of the run when it has one, and otherwise
    what the commander's parser makes of the two outputs that were reported,
    an error of the parser included. *)
Theorem queries_parse_what_a_run_without_error_printed r rep chainID h :
  (exists report,
      snd (queries.GetChannels deps env ConnectionOutputs q r rep chainID h)
      = h ++ [relayer.EvTimeNow;
              relayer.EvJobRun (calls.job_of r)
                (queries.cmd_GetChannels q chainID (relayer.HomeDir r))
                {| dockerutil.Env := []; dockerutil.Binds := relayer.Bind r |};
              relayer.EvTimeNow;
              relayer.EvTrackRelayerExec rep report]
      /\ fst (queries.GetChannels deps env ConnectionOutputs q r rep chainID h)
         = match ibc.err report with
           | Some e => inl e
           | None => queries.ParseGetChannelsOutput q (ibc.stdout report) (ibc.stderr report)
           end)
  /\ (exists report,
         snd (queries.GetConnections deps env ConnectionOutputs q r rep chainID h)
         = h ++ [relayer.EvTimeNow;
                 relayer.EvJobRun (calls.job_of r)
                   (queries.cmd_GetConnections q chainID (relayer.HomeDir r))
                   {| dockerutil.Env := []; dockerutil.Binds := relayer.Bind r |};
                 relayer.EvTimeNow;
                 relayer.EvTrackRelayerExec rep report]
         /\ fst (queries.GetConnections deps env ConnectionOutputs q r rep chainID h)
            = match ibc.err report with
              | Some e => inl e
              | None =>
                queries.ParseGetConnectionsOutput q (ibc.stdout report) (ibc.stderr report)
              end).
Proof.
  unfold queries.GetChannels, queries.GetConnections, relayer.bind, relayer.ret.
  rewrite !Exec_calls. cbn [fst snd]. split.
  - destruct (dockerutil.Err _) eqn:He; cbn [fst snd]; flat;
      (eexists; split; [reflexivity|]); cbn [ibc.err ibc.stdout ibc.stderr];
      reflexivity.
  - destruct (dockerutil.Err _) eqn:He; cbn [fst snd]; flat;
      (eexists; split; [reflexivity|]); cbn [ibc.err ibc.stdout ibc.stderr];
      reflexivity.
Qed.

End Commands.
